(** * Weekly 4-hour assignment board

    A shallow embedding of the booking store, the week-key arithmetic and the
    slot policy of the weekly assignment board:

    - [src/src/App.jsx]       the one-booking-per-week board (module [App]),
    - [src/bookings.js]       the serverless bookings handler (module [Bookings]),
    - [src/unnamed/part_001]  the roster-based board (module [Roster]).

    JavaScript objects are ordered association lists (insertion order is what
    [Object.values] enumerates), dates are ECMAScript time values
    (milliseconds since the epoch, as integers), and the asynchronous store
    calls are run to completion one after the other. *)

From Stdlib Require Import ZArith List String Ascii Bool Lia DecimalString.
Import ListNotations.

Local Open Scope string_scope.
Local Open Scope Z_scope.

(* ================================================================== *)
(** * JavaScript values and objects *)
(* ================================================================== *)

Module JS.

(** The values a booking record holds: [undefined], integral numbers and
    strings. *)
Inductive value : Type :=
| VUndef
| VNum (z : Z)
| VStr (s : string).

(** [a === b] on these values. *)
Definition strict_eq (a b : value) : bool :=
  match a, b with
  | VUndef, VUndef => true
  | VNum x, VNum y => x =? y
  | VStr s, VStr t => String.eqb s t
  | _, _ => false
  end.

(** ToBoolean. *)
Definition truthy (v : value) : bool :=
  match v with
  | VUndef => false
  | VNum z => negb (z =? 0)
  | VStr s => negb (String.eqb s "")
  end.

(** [a || b]. *)
Definition or_else (a b : value) : value := if truthy a then a else b.

(** [String(n)] for an integral number. *)
Definition string_of_Z (z : Z) : string := NilZero.string_of_int (Z.to_int z).

(** ToString, as used by template literals and by property access. *)
Definition to_string (v : value) : string :=
  match v with
  | VUndef => "undefined"
  | VNum z => string_of_Z z
  | VStr s => s
  end.

Fixpoint repeat_string (n : nat) (c : string) : string :=
  match n with
  | O => ""
  | S k => c ++ repeat_string k c
  end.

(** [s.padStart(n, c)] for an ASCII [s] and a one-character filler [c]. *)
Definition padStart (s : string) (n : nat) (c : string) : string :=
  repeat_string (n - String.length s) c ++ s.

(** An object whose property names are not array indices: the properties in
    insertion order. [V] is the type of the property values. *)
Definition obj (V : Type) : Type := list (string * V).

Section Objects.
Context {V : Type}.

(** [o[k]], [None] standing for an absent property. *)
Fixpoint lookup (k : string) (o : obj V) : option V :=
  match o with
  | [] => None
  | (k', v) :: rest => if String.eqb k k' then Some v else lookup k rest
  end.

(** [o[k] = v]: an existing property keeps its place, a new one goes last. *)
Fixpoint set_prop (k : string) (v : V) (o : obj V) : obj V :=
  match o with
  | [] => [(k, v)]
  | (k', v') :: rest =>
      if String.eqb k k' then (k', v) :: rest
      else (k', v') :: set_prop k v rest
  end.

(** [delete o[k]]. *)
Fixpoint delete_prop (k : string) (o : obj V) : obj V :=
  match o with
  | [] => []
  | (k', v') :: rest =>
      if String.eqb k k' then delete_prop k rest
      else (k', v') :: delete_prop k rest
  end.

(** [{ ...a, ...b }]: the properties of [b] are assigned onto a copy of [a]
    in order. *)
Definition spread (a b : obj V) : obj V :=
  fold_left (fun acc kv => set_prop (fst kv) (snd kv) acc) b a.

(** [Object.keys(o)] and [Object.values(o)]. *)
Definition keys (o : obj V) : list string := map fst o.
Definition values (o : obj V) : list V := map snd o.

(** How many properties of [o] are named [k]. *)
Definition count_key (k : string) (o : obj V) : nat :=
  List.length (filter (fun kv => String.eqb k (fst kv)) o).
End Objects.

(** No property name occurs twice in an object, nor in the objects it
    holds. *)
Definition wf {V : Type} (o : obj V) : Prop := NoDup (keys o).
Definition wf2 {V : Type} (o : obj (obj V)) : Prop :=
  wf o /\ Forall (fun kv => wf (snd kv)) o.

(** A record: an object of plain values. *)
Definition record : Type := obj value.

(** [r.k], reading an absent property as [undefined]. *)
Definition get (k : string) (r : record) : value :=
  match lookup k r with
  | Some v => v
  | None => VUndef
  end.

(** [JSON.parse(JSON.stringify(r))] on a record: properties whose value is
    [undefined] are left out, the others keep their order. *)
Definition json (r : record) : record :=
  filter (fun kv => match snd kv with VUndef => false | _ => true end) r.

(** ** Strings

    A string is kept as the bytes of its UTF-8 encoding, the way a string
    literal of this file is read. Equality, concatenation and the decimal
    numerals are the same on these bytes as on the code units of
    JavaScript; [padStart] above counts bytes, which are the code units of
    the numerals it is applied to. *)

Definition byte (n : Z) : ascii := ascii_of_nat (Z.to_nat n).

(** The UTF-8 encoding of a code point of the basic plane. *)
Definition utf8 (cp : Z) : list ascii :=
  if cp <? 128 then [byte cp]
  else if cp <? 2048 then [byte (192 + cp / 64); byte (128 + cp mod 64)]
  else [byte (224 + cp / 4096); byte (128 + (cp / 64) mod 64);
        byte (128 + cp mod 64)].

(** WhiteSpace and LineTerminator of ECMAScript, the code points that
    [String.prototype.trim] strips: TAB, LF, VT, FF, CR, SP, NBSP, U+1680,
    U+2000 to U+200A, LS, PS, U+202F, U+205F, U+3000 and U+FEFF. *)
Definition white_space : list Z :=
  [9; 10; 11; 12; 13; 32; 160; 5760;
   8192; 8193; 8194; 8195; 8196; 8197; 8198; 8199; 8200; 8201; 8202;
   8232; 8233; 8239; 8287; 12288; 65279].

(** A white-space character of one, two or three bytes. *)
Definition space1 (a : ascii) : bool :=
  existsb (fun cp => match utf8 cp with
                     | [x] => Ascii.eqb x a
                     | _ => false
                     end) white_space.
Definition space2 (a b : ascii) : bool :=
  existsb (fun cp => match utf8 cp with
                     | [x; y] => Ascii.eqb x a && Ascii.eqb y b
                     | _ => false
                     end) white_space.
Definition space3 (a b c : ascii) : bool :=
  existsb (fun cp => match utf8 cp with
                     | [x; y; z] => Ascii.eqb x a && Ascii.eqb y b && Ascii.eqb z c
                     | _ => false
                     end) white_space.

(** Drop the white-space characters a byte sequence starts with; [m1], [m2]
    and [m3] recognise a white-space character in the bytes read. *)
Fixpoint dropSpace (m1 : ascii -> bool) (m2 : ascii -> ascii -> bool)
    (m3 : ascii -> ascii -> ascii -> bool) (s : list ascii) : list ascii :=
  match s with
  | [] => []
  | a :: r1 =>
      if m1 a then dropSpace m1 m2 m3 r1
      else match r1 with
           | [] => s
           | b :: r2 =>
               if m2 a b then dropSpace m1 m2 m3 r2
               else match r2 with
                    | [] => s
                    | c :: r3 =>
                        if m3 a b c then dropSpace m1 m2 m3 r3 else s
                    end
           end
  end.

(** [s.trimStart()]. *)
Definition trimStart (s : list ascii) : list ascii :=
  dropSpace space1 space2 space3 s.

(** [s.trimEnd()]: the same from the last byte backwards. *)
Definition trimEnd (s : list ascii) : list ascii :=
  rev (dropSpace space1 (fun b a => space2 a b) (fun c b a => space3 a b c)
         (rev s)).

(** [s.trim()]. *)
Definition trim (s : string) : string :=
  string_of_list_ascii (trimEnd (trimStart (list_ascii_of_string s))).

End JS.
Import JS.

(* ================================================================== *)
(** * ECMAScript dates *)
(* ================================================================== *)

(** Time values are milliseconds since 1970-01-01T00:00:00Z, as integers;
    the functions follow the ECMAScript definitions of the same names. The
    range limit of a time value (8.64e15 ms either side of the epoch) is not
    part of the model. *)
Module JSDate.

Definition msPerDay : Z := 86400000.

Definition Day (t : Z) : Z := t / msPerDay.
Definition TimeWithinDay (t : Z) : Z := t mod msPerDay.

Definition leap (y : Z) : bool :=
  ((y mod 4 =? 0) && negb (y mod 100 =? 0)) || (y mod 400 =? 0).

Definition DaysInYear (y : Z) : Z := if leap y then 366 else 365.

Definition DayFromYear (y : Z) : Z :=
  365 * (y - 1970) + (y - 1969) / 4 - (y - 1901) / 100 + (y - 1601) / 400.

(** The year of day number [n]: the largest [y] with [DayFromYear y <= n];
    an estimate from the mean year length, corrected by one either way. *)
Definition YearFromDay (n : Z) : Z :=
  let y := 1970 + (400 * n) / 146097 in
  if DayFromYear (y + 1) <=? n then y + 1
  else if n <? DayFromYear y then y - 1
  else y.

Definition YearFromTime (t : Z) : Z := YearFromDay (Day t).
Definition InLeapYear (t : Z) : bool := leap (YearFromTime t).
Definition DayWithinYear (t : Z) : Z := Day t - DayFromYear (YearFromTime t).

(** Day within the year on which month [m] (0 = January) starts. *)
Definition monthStart (lp : bool) (m : Z) : Z :=
  let l := if lp then 1 else 0 in
  match m with
  | 0 => 0
  | 1 => 31
  | 2 => 59 + l
  | 3 => 90 + l
  | 4 => 120 + l
  | 5 => 151 + l
  | 6 => 181 + l
  | 7 => 212 + l
  | 8 => 243 + l
  | 9 => 273 + l
  | 10 => 304 + l
  | _ => 334 + l
  end.

Definition monthOfYearDay (lp : bool) (d : Z) : Z :=
  if d <? monthStart lp 1 then 0
  else if d <? monthStart lp 2 then 1
  else if d <? monthStart lp 3 then 2
  else if d <? monthStart lp 4 then 3
  else if d <? monthStart lp 5 then 4
  else if d <? monthStart lp 6 then 5
  else if d <? monthStart lp 7 then 6
  else if d <? monthStart lp 8 then 7
  else if d <? monthStart lp 9 then 8
  else if d <? monthStart lp 10 then 9
  else if d <? monthStart lp 11 then 10
  else 11.

Definition MonthFromTime (t : Z) : Z :=
  monthOfYearDay (InLeapYear t) (DayWithinYear t).

Definition DateFromTime (t : Z) : Z :=
  DayWithinYear t - monthStart (InLeapYear t) (MonthFromTime t) + 1.

(** 0 = Sunday .. 6 = Saturday. *)
Definition WeekDay (t : Z) : Z := (Day t + 4) mod 7.

Definition MakeDay (year month date : Z) : Z :=
  let ym := year + month / 12 in
  let mn := month mod 12 in
  DayFromYear ym + monthStart (leap ym) mn + date - 1.

Definition MakeDate (day time : Z) : Z := day * msPerDay + time.

(** [Date.UTC(year, month, date)]; a year from 0 to 99 means 1900 + year. *)
Definition UTC (year month date : Z) : Z :=
  let yr := if (0 <=? year) && (year <=? 99) then 1900 + year else year in
  MakeDate (MakeDay yr month date) 0.

Definition getUTCFullYear (t : Z) : Z := YearFromTime t.
Definition getUTCMonth (t : Z) : Z := MonthFromTime t.
Definition getUTCDate (t : Z) : Z := DateFromTime t.
Definition getUTCDay (t : Z) : Z := WeekDay t.

(** [d.setUTCDate(dt)] and [d.setUTCHours(0, 0, 0, 0)], returning the new
    time value of [d]. *)
Definition setUTCDate (t dt : Z) : Z :=
  MakeDate (MakeDay (YearFromTime t) (MonthFromTime t) dt) (TimeWithinDay t).
Definition setUTCHours0 (t : Z) : Z := MakeDate (Day t) 0.

(** Local time: [LocalTZA t] is the offset of the browser's time zone from
    UTC, in milliseconds, at time [t]. *)
Section Local.
Variable LocalTZA : Z -> Z.

Definition LocalTime (t : Z) : Z := t + LocalTZA t.
Definition getFullYear (t : Z) : Z := YearFromTime (LocalTime t).
Definition getMonth (t : Z) : Z := MonthFromTime (LocalTime t).
Definition getDate (t : Z) : Z := DateFromTime (LocalTime t).
End Local.

Definition pad2 (z : Z) : string := padStart (string_of_Z z) 2 "0".
Definition pad3 (z : Z) : string := padStart (string_of_Z z) 3 "0".

(** [d.toISOString()] for a year from 0 to 9999. *)
Definition toISOString (t : Z) : string :=
  let ms := TimeWithinDay t in
  padStart (string_of_Z (YearFromTime t)) 4 "0" ++ "-" ++
  pad2 (MonthFromTime t + 1) ++ "-" ++ pad2 (DateFromTime t) ++ "T" ++
  pad2 (ms / 3600000) ++ ":" ++ pad2 ((ms / 60000) mod 60) ++ ":" ++
  pad2 ((ms / 1000) mod 60) ++ "." ++ pad3 (ms mod 1000) ++ "Z".

End JSDate.
Import JSDate.


(** [Math.round(n / d)] for integers [n] and [d > 0]: the nearest integer,
    a tie going up. *)
Definition round_div (n d : Z) : Z := (2 * n + d) / (2 * d).

(** [Array.from({ length: n }, (_, i) => start + i)]. *)
Definition range_from (start : Z) (n : nat) : list Z :=
  map (fun i => start + Z.of_nat i) (seq 0 n).

(** What an awaited call gives its caller: a value, or a thrown [Error]
    carrying a message. *)
Inductive result (A : Type) : Type :=
| Ok (a : A)
| Throw (msg : string).
Arguments Ok {A} a.
Arguments Throw {A} msg.

(** The identifier both backends build,
    [`b_${Date.now()}_${Math.random().toString(36).slice(2, 8)}`]: [now] is
    the clock reading and [rnd] the random suffix drawn for this call. *)
Definition genId (now : Z) (rnd : string) : string :=
  "b_" ++ string_of_Z now ++ "_" ++ rnd.

(* ================================================================== *)
(** * src/bookings.js: the serverless handler *)
(* ================================================================== *)

Module Bookings.

(** The module-level [cache]: week key -> id -> record.

    [cache] starts as [{}] and so inherits from Object.prototype. It never
    gets an own property [__proto__]: [cache["__proto__"]] is Object.prototype
    itself, and the entry under ["__proto__"], if there is one, holds what
    the handler has stored on Object.prototype. In the same way a week key
    that names a built-in member of Object.prototype ([constructor],
    [toString], ...) finds that function, on which the handler keeps records
    as it does on a week object, and the entry under that name holds them.
    Requests that delete a built-in property are outside the model. *)
Definition cache : Type := obj (obj record).

(** A request as the handler destructures it; [body] is the parsed JSON body,
    [None] when the request has none. *)
Record request : Type := {
  method : string;
  query : record;
  body : option record;
}.

(** What the handler writes to [res]. *)
Inductive payload : Type :=
| JsonError (msg : string)          (* .json({ error: msg }) *)
| JsonRecords (rs : list record)    (* .json([...]) of records *)
| JsonValues (vs : list value)      (* .json([...]) of plain values *)
| JsonRecord (r : record)           (* .json(record) *)
| JsonOk                            (* .json({ ok: true }) *)
| Text (s : string).                (* .end(s) *)

Record response : Type := {
  status : Z;
  headers : obj (list string);
  sent : payload;
}.

(** [body?.weekKey] and [{ id, ...body }] read an absent body as having no
    properties. *)
Definition body_props (b : option record) : record :=
  match b with
  | Some r => r
  | None => []
  end.

(** The records kept under the week key [wk]: the own property [wk] of
    [cache] (for [__proto__], what sits on Object.prototype). *)
Definition week_of (c : cache) (wk : string) : obj record :=
  match lookup wk c with
  | Some w => w
  | None => []
  end.

(** What the handler has stored on Object.prototype. *)
Definition proto (c : cache) : obj record := week_of c "__proto__".

(** Nothing is stored on Object.prototype. *)
Definition plain (c : cache) : Prop := proto c = [].

(** What [cache[k]] finds: a week object, a record that [cache] inherits
    from Object.prototype, or nothing. *)
Inductive found : Type :=
| Week (w : obj record)
| Inherited (r : record)
| Nothing.

Definition cache_get (c : cache) (k : string) : found :=
  match lookup k c with
  | Some w => Week w
  | None =>
      if String.eqb k "__proto__" then Week []
      else match lookup k (proto c) with
           | Some r => Inherited r
           | None => Nothing
           end
  end.

(** [if (!cache[weekKey]) cache[weekKey] = {}]: what [cache[weekKey]] finds
    is an object, so a week is made only when it finds nothing. *)
Definition ensure_week (c : cache) (wk : string) : cache :=
  match cache_get c wk with
  | Nothing => set_prop wk [] c
  | _ => c
  end.

(** [Object.values(cache[weekKey])]. *)
Definition listing (c : cache) (wk : string) : payload :=
  match cache_get c wk with
  | Inherited r => JsonValues (values r)
  | _ => JsonRecords (values (week_of c wk))
  end.

(** [cache[weekKey][id] = record]. A record found through Object.prototype
    would take the new record as one more property; the records of this
    model hold plain values only, and the week gets an object of its own
    instead. *)
Definition store (c : cache) (wk id : string) (r : record) : cache :=
  set_prop wk (set_prop id r (week_of c wk)) c.

(** [if (id && cache[weekKey][id]) delete cache[weekKey][id]]: from a week
    object the record goes; from a record found through Object.prototype
    the property [id] goes, when its value is truthy. *)
Definition remove (c : cache) (wk : string) (id : value) : cache :=
  if truthy id then
    match cache_get c wk with
    | Inherited r =>
        if truthy (get (to_string id) r)
        then set_prop "__proto__"
               (set_prop wk (delete_prop (to_string id) r) (proto c)) c
        else c
    | _ =>
        match lookup (to_string id) (week_of c wk) with
        | Some _ => set_prop wk (delete_prop (to_string id) (week_of c wk)) c
        | None => c
        end
    end
  else c.

Definition handler (c : cache) (req : request) (now : Z) (rnd : string)
  : cache * response :=
  let weekKey := or_else (get "weekKey" (query req)) (get "weekKey" (body_props (body req))) in
  if negb (truthy weekKey) then
    (c, {| status := 400; headers := []; sent := JsonError "Missing weekKey" |})
  else
    let wk := to_string weekKey in
    let c := ensure_week c wk in
    if String.eqb (method req) "GET" then
      (c, {| status := 200; headers := []; sent := listing c wk |})
    else if String.eqb (method req) "POST" then
      let id := genId now rnd in
      let record := spread [("id", VStr id)] (body_props (body req)) in
      (store c wk id record,
       {| status := 201; headers := []; sent := JsonRecord record |})
    else if String.eqb (method req) "DELETE" then
      (remove c wk (get "id" (query req)),
       {| status := 200; headers := []; sent := JsonOk |})
    else
      (c, {| status := 405;
             headers := [("Allow", ["GET"; "POST"; "DELETE"])];
             sent := Text ("Method " ++ method req ++ " Not Allowed") |}).

End Bookings.

(* ================================================================== *)
(** * src/src/App.jsx *)
(* ================================================================== *)

Module App.

Module CONFIG.
(** [backendUrl: null]: the board runs on the localStorage backend. *)
Definition backendUrl : option string := None.
Definition onePerWeek : bool := true.
Definition hoursStart : Z := 7.
Definition hoursEnd : Z := 20.
End CONFIG.

(** ** Date helpers *)

Section LocalZone.
Variable LocalTZA : Z -> Z.

Definition startOfISOWeek (d : Z) : Z :=
  let x := UTC (getFullYear LocalTZA d) (getMonth LocalTZA d) (getDate LocalTZA d) in
  let day := if getUTCDay x =? 0 then 7 else getUTCDay x in
  let x := if negb (day =? 1) then setUTCDate x (getUTCDate x - (day - 1)) else x in
  setUTCHours0 x.
End LocalZone.

Definition addDays (date days : Z) : Z :=
  setUTCDate date (getUTCDate date + days).

Definition weekKeyFromDate (d : Z) : string :=
  let target := UTC (getUTCFullYear d) (getUTCMonth d) (getUTCDate d) in
  let target := setUTCDate target (getUTCDate target + 3 - Z.rem (getUTCDay target + 6) 7) in
  let week1 := UTC (getUTCFullYear target) 0 4 in
  let weekNo :=
    1 + round_div ((target - week1) / 86400000 - 3 + Z.rem (getUTCDay week1 + 6) 7) 7 in
  string_of_Z (getUTCFullYear target) ++ "-W" ++ padStart (string_of_Z weekNo) 2 "0".

Definition HOURS : list Z :=
  range_from CONFIG.hoursStart (Z.to_nat ((CONFIG.hoursEnd - CONFIG.hoursStart) + 1)).

(** ** Storage layer: localStorage *)

(** What [localStorage] holds under [LS_KEY], as the object it parses to; an
    absent item parses as [{}]. Writes are taken to succeed. *)
Definition storage : Type := obj record.

Definition loadAllLS (ls : storage) : obj record := ls.

(** [JSON.stringify] leaves out the properties of a record that are
    [undefined]. *)
Definition saveAllLS (o : obj record) : storage :=
  map (fun kv => (fst kv, json (snd kv))) o.

Definition apiGetWeekLS (ls : storage) (weekKey : value) : list record :=
  let all := loadAllLS ls in
  filter (fun b => strict_eq (get "weekKey" b) weekKey) (values all).

(** Returns the new storage and [all[id]]. *)
Definition apiCreateLS (ls : storage) (body : record) (now : Z) (rnd : string)
  : storage * option record :=
  let all := loadAllLS ls in
  let id := genId now rnd in
  let all := set_prop id (spread [("id", VStr id)] body) all in
  (saveAllLS all, lookup id all).

Definition apiDeleteLS (ls : storage) (id : value) : storage :=
  let all := loadAllLS ls in
  saveAllLS (delete_prop (to_string id) all).

(** ** Storage layer: HTTP *)

(** The double quote, for the text of a JSON error body. *)
Definition dq : string := String (ascii_of_nat 34) EmptyString.

(** [r.text()] of a response. *)
Definition text_of (p : Bookings.payload) : string :=
  match p with
  | Bookings.JsonError msg => "{" ++ dq ++ "error" ++ dq ++ ":" ++ dq ++ msg ++ dq ++ "}"
  | Bookings.JsonOk => "{" ++ dq ++ "ok" ++ dq ++ ":true}"
  | Bookings.Text s => s
  | _ => ""
  end.

(** [r.ok]. *)
Definition ok (r : Bookings.response) : bool :=
  (200 <=? Bookings.status r) && (Bookings.status r <=? 299).

(** [fetch] against the deployment: the request reaches the handler, a JSON
    body and a JSON response going through [JSON.stringify]/[JSON.parse]. *)
Definition fetch (c : Bookings.cache) (req : Bookings.request) (now : Z) (rnd : string)
  : Bookings.cache * Bookings.response :=
  Bookings.handler c req now rnd.

(** An array of plain values comes back as it is; App.jsx reads each item
    as a booking, by its properties [id], [title], [dayISO], [startHour]
    and [durationHours], of which a string or a number has none: such an
    item is kept as a record without properties. *)
Definition apiGetWeekHTTP (c : Bookings.cache) (weekKey : value) (now : Z) (rnd : string)
  : Bookings.cache * result (list record) :=
  let '(c', r) :=
    fetch c {| Bookings.method := "GET";
               Bookings.query := [("weekKey", VStr (to_string weekKey))];
               Bookings.body := None |} now rnd in
  if negb (ok r) then (c', Throw (text_of (Bookings.sent r)))
  else match Bookings.sent r with
       | Bookings.JsonRecords rs => (c', Ok (map json rs))
       | Bookings.JsonValues vs => (c', Ok (map (fun _ => []) vs))
       | _ => (c', Throw "Unexpected token")
       end.

Definition apiCreateHTTP (c : Bookings.cache) (body : record) (now : Z) (rnd : string)
  : Bookings.cache * result (option record) :=
  let '(c', r) :=
    fetch c {| Bookings.method := "POST";
               Bookings.query := [];
               Bookings.body := Some (json body) |} now rnd in
  if negb (ok r) then (c', Throw (text_of (Bookings.sent r)))
  else match Bookings.sent r with
       | Bookings.JsonRecord rec => (c', Ok (Some (json rec)))
       | _ => (c', Throw "Unexpected token")
       end.

(** The id travels in the path, [/bookings/<id>], with no query string and
    no body; the path parameter is handed to the handler as [query.id]. *)
Definition apiDeleteHTTP (c : Bookings.cache) (id : value) (now : Z) (rnd : string)
  : Bookings.cache * result unit :=
  let '(c', r) :=
    fetch c {| Bookings.method := "DELETE";
               Bookings.query := [("id", VStr (to_string id))];
               Bookings.body := None |} now rnd in
  if negb (ok r) then (c', Throw (text_of (Bookings.sent r)))
  else (c', Ok tt).

(** ** The [API] object: one interface, two implementations *)

Record api (S : Type) : Type := {
  getWeek : S -> value -> Z -> string -> S * result (list record);
  create : S -> record -> Z -> string -> S * result (option record);
  del : S -> value -> Z -> string -> S * result unit;
}.
Arguments getWeek {S} _ _ _ _ _.
Arguments create {S} _ _ _ _ _.
Arguments del {S} _ _ _ _ _.

Definition API_LS : api storage := {|
  getWeek := fun ls weekKey _ _ => (ls, Ok (apiGetWeekLS ls weekKey));
  create := fun ls body now rnd =>
    let '(ls', r) := apiCreateLS ls body now rnd in (ls', Ok r);
  del := fun ls id _ _ => (apiDeleteLS ls id, Ok tt);
|}.

Definition API_HTTP : api Bookings.cache := {|
  getWeek := apiGetWeekHTTP;
  create := apiCreateHTTP;
  del := apiDeleteHTTP;
|}.

(** ** The board *)

(** The state the [Board] component keeps between renders. *)
Record board : Type := {
  baseDate : Z;
  bookings : list record;
  loading : bool;
  error : string;
  name : string;
  dayIndex : nat;
  startHour : Z;
}.

Definition setBookings (b : board) (data : list record) : board :=
  {| baseDate := baseDate b; bookings := data; loading := loading b;
     error := error b; name := name b; dayIndex := dayIndex b;
     startHour := startHour b |}.
Definition setLoading (b : board) (l : bool) : board :=
  {| baseDate := baseDate b; bookings := bookings b; loading := l;
     error := error b; name := name b; dayIndex := dayIndex b;
     startHour := startHour b |}.
Definition setError (b : board) (e : string) : board :=
  {| baseDate := baseDate b; bookings := bookings b; loading := loading b;
     error := e; name := name b; dayIndex := dayIndex b;
     startHour := startHour b |}.
Definition setName (b : board) (n : string) : board :=
  {| baseDate := baseDate b; bookings := bookings b; loading := loading b;
     error := error b; name := n; dayIndex := dayIndex b;
     startHour := startHour b |}.

Definition weekKey (b : board) : string := weekKeyFromDate (baseDate b).

Definition days (b : board) : list Z :=
  map (fun i => addDays (baseDate b) (Z.of_nat i)) (seq 0 7).

(** [String(e.message || e)] for a thrown [Error]. *)
Definition error_text (msg : string) : string :=
  if String.eqb msg "" then "Error" else msg.

Definition msg_name : string := "Please enter your name".
Definition msg_duplicate : string :=
  "You already have a 4‑hour assignment this week.".

Section Board.
Context {S : Type}.
Variable API : api S.
Variable LocalTZA : Z -> Z.

Definition load (w : S * board) (now : Z) (rnd : string) : S * board :=
  let '(s, b) := w in
  let b := setError (setLoading b true) "" in
  match getWeek API s (VStr (weekKey b)) now rnd with
  | (s', Ok data) => (s', setLoading (setBookings b data) false)
  | (s', Throw e) => (s', setLoading (setError b (error_text e)) false)
  end.

(** The instant whose ISO string [submit] stores as [dayISO]. *)
Definition dayInstant (d : Z) : Z :=
  UTC (getFullYear LocalTZA d) (getMonth LocalTZA d) (getDate LocalTZA d).

(** The object [submit] hands to [API.create]. *)
Definition draft (b : board) (nm : string) (d : Z) : record :=
  [("id", VUndef); ("title", VStr nm);
   ("dayISO", VStr (toISOString (dayInstant d)));
   ("startHour", VNum (startHour b)); ("durationHours", VNum 4);
   ("weekKey", VStr (weekKey b))].

(** [now1], [rnd1] serve the create call and [now2], [rnd2] the reload. A
    [dayIndex] outside the seven days makes [d] undefined, and
    [d.getFullYear()] throws before anything is stored or set. *)
Definition submit (w : S * board) (now1 : Z) (rnd1 : string)
    (now2 : Z) (rnd2 : string) : S * board :=
  let '(s, b) := w in
  let nm := trim (name b) in
  if String.eqb nm "" then (s, setError b msg_name)
  else if CONFIG.onePerWeek
          && existsb (fun r => strict_eq (get "title" r) (VStr nm)) (bookings b)
  then (s, setError b msg_duplicate)
  else
    match nth_error (days b) (dayIndex b) with
    | None => (s, b)
    | Some d =>
        match create API s (draft b nm d) now1 rnd1 with
        | (s', Ok _) => load (s', setName b "") now2 rnd2
        | (s', Throw e) => (s', setError b (error_text e))
        end
    end.

Definition remove (w : S * board) (id : value) (now1 : Z) (rnd1 : string)
    (now2 : Z) (rnd2 : string) : S * board :=
  let '(s, b) := w in
  match del API s id now1 rnd1 with
  | (s', Ok _) => load (s', b) now2 rnd2
  | (s', Throw e) => (s', setError b (error_text e))
  end.
End Board.

(** [new Date(s)] for the strings [toISOString] produces for the years 0 to
    9999, [YYYY-MM-DDTHH:mm:ss.sssZ]. *)
Definition digit (c : ascii) : option Z :=
  let n := Z.of_nat (nat_of_ascii c) in
  if (48 <=? n) && (n <=? 57) then Some (n - 48) else None.

Fixpoint number (cs : list ascii) (acc : Z) : option Z :=
  match cs with
  | [] => Some acc
  | c :: rest =>
      match digit c with
      | Some d => number rest (10 * acc + d)
      | None => None
      end
  end.

Definition field (s : string) (start len : nat) : option Z :=
  number (list_ascii_of_string (substring start len s)) 0.

Definition parseISO (s : string) : option Z :=
  match field s 0 4, field s 5 2, field s 8 2,
        field s 11 2, field s 14 2, field s 17 2, field s 20 3 with
  | Some y, Some mo, Some d, Some h, Some mi, Some sec, Some ms =>
      if String.eqb (substring 4 1 s ++ substring 7 1 s ++ substring 10 1 s ++
                     substring 13 1 s ++ substring 16 1 s ++ substring 19 1 s ++
                     substring 23 2 s) "--T::.Z"
      then Some (MakeDate (MakeDay y (mo - 1) d)
                          (h * 3600000 + mi * 60000 + sec * 1000 + ms))
      else None
  | _, _, _, _, _, _, _ => None
  end.

(** ** Labels and colours *)

(** [fmt(h)]. *)
Definition fmt (h : Z) : string := padStart (string_of_Z h) 2 "0" ++ ":00".

(** [hashColor] and [borderColor] read their argument one code unit at a
    time, so here a name is the list of its UTF-16 code units,
    [name.charCodeAt(0)], [name.charCodeAt(1)], and so on. *)
Definition codeUnits : Type := list Z.

(** The loop [h = (h * 31 + name.charCodeAt(i)) >>> 0] from [h = 0]. *)
Definition hashName (name : codeUnits) : Z :=
  fold_left (fun h c => (h * 31 + c) mod 2 ^ 32) name 0.

Definition hues : list Z := [210; 15; 140; 270; 340; 95; 30; 185].

(** [hues[h % hues.length]], [undefined] past the end of the array. *)
Definition hueOf (name : codeUnits) : value :=
  match nth_error hues (Z.to_nat (Z.rem (hashName name) (Z.of_nat (List.length hues)))) with
  | Some hue => VNum hue
  | None => VUndef
  end.

Definition hashColor (name : codeUnits) : string :=
  "hsl(" ++ to_string (hueOf name) ++ " 85% 90%)".

Definition borderColor (name : codeUnits) : string :=
  "hsl(" ++ to_string (hueOf name) ++ " 70% 65%)".

(** ** Placing a booking in a day column *)

(** [a.toDateString() === b.toDateString()]: the two dates fall on the same
    local calendar day. *)
Definition sameDateString (LocalTZA : Z -> Z) (a b : Z) : bool :=
  Day (LocalTime LocalTZA a) =? Day (LocalTime LocalTZA b).

(** The filter of a day column,
    [new Date(b.dayISO).toDateString() === d.toDateString()], on the instant
    [dayISO] denotes. *)
Definition inColumn (LocalTZA : Z -> Z) (d dayISO : Z) : bool :=
  sameDateString LocalTZA dayISO d.

(** ** The buttons and the form *)

Definition setBaseDate (b : board) (d : Z) : board :=
  {| baseDate := d; bookings := bookings b; loading := loading b;
     error := error b; name := name b; dayIndex := dayIndex b;
     startHour := startHour b |}.
Definition setDayIndex (b : board) (i : nat) : board :=
  {| baseDate := baseDate b; bookings := bookings b; loading := loading b;
     error := error b; name := name b; dayIndex := i;
     startHour := startHour b |}.
Definition setStartHour (b : board) (h : Z) : board :=
  {| baseDate := baseDate b; bookings := bookings b; loading := loading b;
     error := error b; name := name b; dayIndex := dayIndex b;
     startHour := h |}.

(** The state of the first render, [now] being the time the board opens. *)
Definition initBoard (LocalTZA : Z -> Z) (now : Z) : board :=
  {| baseDate := startOfISOWeek LocalTZA now; bookings := []; loading := false;
     error := ""; name := ""; dayIndex := 0%nat; startHour := 8 |}.

(** The Prev and Next buttons:
    [setBaseDate(new Date(baseDate.getTime() -/+ 7*86400000))]. *)
Definition onPrev (b : board) : board := setBaseDate b (baseDate b - 7 * 86400000).
Definition onNext (b : board) : board := setBaseDate b (baseDate b + 7 * 86400000).

(** What happens to the board: what the user does and the ticks of the
    refresh timer, with what the clock and the random source give the calls
    they lead to. *)
Inductive action : Type :=
| Prev (now : Z) (rnd : string)
| Next (now : Z) (rnd : string)
| Today (clock : Z) (now : Z) (rnd : string)
| TypeName (s : string)
| PickDay (i : nat)
| PickStart (h : Z)
| Submit (now1 : Z) (rnd1 : string) (now2 : Z) (rnd2 : string)
| Cancel (id : value) (now1 : Z) (rnd1 : string) (now2 : Z) (rnd2 : string)
| Tick (now : Z) (rnd : string).

(** The day and start-hour selects offer the seven days and [HOURS]. *)
Definition offered (a : action) : Prop :=
  match a with
  | PickDay i => (i < 7)%nat
  | PickStart h => In h HOURS
  | _ => True
  end.

Section Actions.
Context {S : Type}.
Variable API : api S.
Variable LocalTZA : Z -> Z.

(** [useEffect(() => { load(); }, [weekKey])]: the week is listed again
    when a render finds the week key changed. *)
Definition show (w : S * board) (d : Z) (now : Z) (rnd : string) : S * board :=
  let '(s, b) := w in
  if String.eqb (weekKey (setBaseDate b d)) (weekKey b) then (s, setBaseDate b d)
  else load API (s, setBaseDate b d) now rnd.

(** [useEffect(() => { setInterval(load, CONFIG.refreshMs) ... }, [])]: the
    timer is set up once, by the first render, with the [load] of that
    render, whose [weekKey] is the key [opened] of the week the board
    opened on. *)
Definition refresh (opened : string) (w : S * board) (now : Z) (rnd : string)
  : S * board :=
  let '(s, b) := w in
  let b := setError (setLoading b true) "" in
  match getWeek API s (VStr opened) now rnd with
  | (s', Ok data) => (s', setLoading (setBookings b data) false)
  | (s', Throw e) => (s', setLoading (setError b (error_text e)) false)
  end.

Definition act (opened : string) (w : S * board) (a : action) : S * board :=
  match a with
  | Prev now rnd => show w (baseDate (onPrev (snd w))) now rnd
  | Next now rnd => show w (baseDate (onNext (snd w))) now rnd
  | Today clock now rnd => show w (startOfISOWeek LocalTZA clock) now rnd
  | TypeName s => (fst w, setName (snd w) s)
  | PickDay i => (fst w, setDayIndex (snd w) i)
  | PickStart h => (fst w, setStartHour (snd w) h)
  | Submit now1 rnd1 now2 rnd2 => submit API LocalTZA w now1 rnd1 now2 rnd2
  | Cancel id now1 rnd1 now2 rnd2 => remove API w id now1 rnd1 now2 rnd2
  | Tick now rnd => refresh opened w now rnd
  end.

(** The board opens at time [clock] on some store, lists its week, and moves
    by the actions. *)
Inductive reachable (clock : Z) : S * board -> Prop :=
| reach_open s now rnd :
    reachable clock (load API (s, initBoard LocalTZA clock) now rnd)
| reach_act w a :
    reachable clock w -> offered a ->
    reachable clock (act (weekKey (initBoard LocalTZA clock)) w a).
End Actions.

End App.

(* ================================================================== *)
(** * src/unnamed/part_001: the roster board *)
(* ================================================================== *)

Module Roster.

Section LocalZone.
Variable LocalTZA : Z -> Z.

Definition startOfWeek (date : Z) : Z :=
  let d := UTC (getFullYear LocalTZA date) (getMonth LocalTZA date) (getDate LocalTZA date) in
  let day := getUTCDay d in
  let diff := (if day =? 0 then -6 else 1) - day in
  let d := setUTCDate d (getUTCDate d + diff) in
  setUTCHours0 d.
End LocalZone.

Definition addDays (date days : Z) : Z :=
  setUTCDate date (getUTCDate date + days).

Definition weekKey (d : Z) : string :=
  let y := getUTCFullYear d in
  let tmp := UTC (getUTCFullYear d) (getUTCMonth d) (getUTCDate d) in
  let tmp := setUTCDate tmp (getUTCDate tmp + 3 - Z.rem (getUTCDay tmp + 6) 7) in
  let week1 := UTC (getUTCFullYear tmp) 0 4 in
  let weekNo :=
    1 + round_div ((tmp - week1) / 86400000 - 3 + Z.rem (getUTCDay week1 + 6) 7) 7 in
  string_of_Z y ++ "-W" ++ padStart (string_of_Z weekNo) 2 "0".

Definition HOURS : list Z := range_from 6 13.

(** One entry of a week: [{ dayIndex, startHour }]. *)
Record entry : Type := {
  entryDay : Z;
  entryStart : Z;
}.

(** [assignments]: week key -> person id -> entry. *)
Definition assignments_t : Type := obj (obj entry).

Record person : Type := {
  personId : string;
  personName : string;
  personColor : Z;
}.

(** The state of [FourHourAssignmentBoard]. *)
Record state : Type := {
  baseDate : Z;
  people : list person;
  assignments : assignments_t;
  selectedPersonId : string;
  selectedDay : Z;
  selectedStart : Z;
}.

Definition setAssignments (st : state) (a : assignments_t) : state :=
  {| baseDate := baseDate st; people := people st; assignments := a;
     selectedPersonId := selectedPersonId st; selectedDay := selectedDay st;
     selectedStart := selectedStart st |}.

Definition setBaseDate (st : state) (d : Z) : state :=
  {| baseDate := d; people := people st; assignments := assignments st;
     selectedPersonId := selectedPersonId st; selectedDay := selectedDay st;
     selectedStart := selectedStart st |}.

Definition select (st : state) (pid : string) (day start : Z) : state :=
  {| baseDate := baseDate st; people := people st;
     assignments := assignments st;
     selectedPersonId := pid; selectedDay := day; selectedStart := start |}.

Definition wkKey (st : state) : string := weekKey (baseDate st).

(** [assignments[wkKey] || {}]. *)
Definition thisWeek (st : state) : obj entry :=
  match lookup (wkKey st) (assignments st) with
  | Some w => w
  | None => []
  end.

Definition assignFourHours (st : state) : state :=
  if String.eqb (selectedPersonId st) "" then st
  else
    let endHour := selectedStart st + 4 in
    if endHour >? 24 then st
    else
      let week := spread [] (thisWeek st) in
      let week :=
        set_prop (selectedPersonId st)
          {| entryDay := selectedDay st; entryStart := selectedStart st |} week in
      setAssignments st (set_prop (wkKey st) week (spread [] (assignments st))).

Definition clearAssignment (st : state) (pid : string) : state :=
  let week := spread [] (thisWeek st) in
  let week := delete_prop pid week in
  setAssignments st (set_prop (wkKey st) week (spread [] (assignments st))).

(** [id] is the identifier drawn for the new person. *)
Definition handleAddPerson (st : state) (newPerson id : string) : state :=
  let name := trim newPerson in
  if String.eqb name "" then st
  else
    {| baseDate := baseDate st;
       people := people st ++ [{| personId := id; personName := name;
                                  personColor := Z.rem (Z.of_nat (List.length (people st))) 8 |}];
       assignments := assignments st;
       selectedPersonId := if String.eqb (selectedPersonId st) "" then id
                           else selectedPersonId st;
       selectedDay := selectedDay st; selectedStart := selectedStart st |}.

Definition goPrev (st : state) : state := setBaseDate st (addDays (baseDate st) (-7)).
Definition goNext (st : state) : state := setBaseDate st (addDays (baseDate st) 7).

(** What the user can do to the board. *)
Inductive event : Type :=
| Assign
| Clear (pid : string)
| Prev
| Next
| Today (now : Z)
| Select (pid : string) (day start : Z)
| AddPerson (newPerson id : string).

Section Steps.
Variable LocalTZA : Z -> Z.

Definition step (st : state) (e : event) : state :=
  match e with
  | Assign => assignFourHours st
  | Clear pid => clearAssignment st pid
  | Prev => goPrev st
  | Next => goNext st
  | Today now => setBaseDate st (startOfWeek LocalTZA now)
  | Select pid day start => select st pid day start
  | AddPerson newPerson id => handleAddPerson st newPerson id
  end.
End Steps.

(** An object as [JSON.parse] builds it: no property name twice, at either
    level of [assignments]. *)
Definition wf_assignments (a : assignments_t) : Prop := wf2 a.

(** The states the board can be in: it starts from the saved assignments (or
    from none), and moves by the user's actions. *)
Inductive reachable (LocalTZA : Z -> Z) : state -> Prop :=
| reach_init st : wf_assignments (assignments st) -> reachable LocalTZA st
| reach_step st e : reachable LocalTZA st -> reachable LocalTZA (step LocalTZA st e).

(** How many assignments [a] holds for person [pid] in week [wk]. *)
Definition count_pair (wk pid : string) (a : assignments_t) : nat :=
  list_sum (map (fun kv => if String.eqb wk (fst kv) then count_key pid (snd kv) else O) a).

End Roster.

(* ================================================================== *)
(** * Vocabulary of the properties *)
(* ================================================================== *)

Module Spec.

(** ** Week keys *)

(** The ISO week-year in the words of the specification: take the ISO
    weekday (Monday = 1 .. Sunday = 7), shift to the Thursday of the same
    week, and read that Thursday's calendar year. *)
Definition isoWeekday (t : Z) : Z := if WeekDay t =? 0 then 7 else WeekDay t.
Definition isoThursday (t : Z) : Z := Day t + (4 - isoWeekday t).
Definition isoWeekYear (t : Z) : Z := YearFromDay (isoThursday t).

(** A time value that is a Monday at 00:00 UTC. *)
Definition mondayMidnight (t : Z) : Prop :=
  TimeWithinDay t = 0 /\ WeekDay t = 1.

(** ** Records *)

Definition value_eqb : value -> value -> bool := strict_eq.

Fixpoint record_eqb (a b : record) : bool :=
  match a, b with
  | [], [] => true
  | (k, v) :: a', (k', v') :: b' =>
      String.eqb k k' && value_eqb v v' && record_eqb a' b'
  | _, _ => false
  end.

(** Two records are equal modulo the id when their JSON forms agree on every
    property but [id]. *)
Definition eq_mod_id (a b : record) : bool :=
  record_eqb (delete_prop "id" (json a)) (delete_prop "id" (json b)).

Definition count_mod_id (r : record) (l : list record) : nat :=
  List.length (filter (eq_mod_id r) l).

(** How many of the listed records carry the title [t]. *)
Definition count_title (t : string) (l : list record) : nat :=
  List.length (filter (fun r => strict_eq (get "title" r) (VStr t)) l).

(** ** Names *)

(** A string that consists of white-space characters only, the empty string
    among them. *)
Definition blank (s : string) : Prop :=
  exists cps, Forall (fun cp => In cp white_space) cps
              /\ list_ascii_of_string s = List.concat (map utf8 cps).

(** ** Requests *)

(** The week key the handler reads from a request. *)
Definition request_weekKey (req : Bookings.request) : value :=
  or_else (get "weekKey" (Bookings.query req))
          (get "weekKey" (Bookings.body_props (Bookings.body req))).

Definition other_method (m : string) : Prop :=
  m <> "GET" /\ m <> "POST" /\ m <> "DELETE".

Definition missing_weekKey : string :=
  App.text_of (Bookings.JsonError "Missing weekKey").

(** ** Scenarios *)

(** Create a booking, delete it by the id the store returned, list its week:
    the outcome of the delete and of the listing. *)
Definition create_delete_list {S : Type} (API : App.api S) (s : S)
    (body : record) (now : Z) (rnd : string)
  : option (result unit * result (list record)) :=
  match App.create API s body now rnd with
  | (s1, Ok (Some r)) =>
      let '(s2, deleted) := App.del API s1 (get "id" r) now rnd in
      let '(_, listed) := App.getWeek API s2 (get "weekKey" body) now rnd in
      Some (deleted, listed)
  | _ => None
  end.

(** Sequences of store operations and what the caller sees of them. *)
Inductive op : Type :=
| OpList (weekKey : string)
| OpCreate (body : record) (now : Z) (rnd : string).

Inductive seen : Type :=
| Listed (r : result (list record))
| Created (r : result (option record)).

Fixpoint run {S : Type} (API : App.api S) (s : S) (ops : list op) : list seen :=
  match ops with
  | [] => []
  | OpList wk :: rest =>
      let '(s', r) := App.getWeek API s (VStr wk) 0 "" in
      Listed r :: run API s' rest
  | OpCreate body now rnd :: rest =>
      let '(s', r) := App.create API s body now rnd in
      Created r :: run API s' rest
  end.

(** A draft as the store contract describes it: distinct properties, all of
    them defined, no [id], and a week key that is a non-empty string. *)
Definition contract_draft (body : record) : Prop :=
  wf body /\ ~ In "id" (keys body) /\ json body = body
  /\ exists wk, get "weekKey" body = VStr wk /\ wk <> "".

(** The week key an operation names. *)
Definition op_weekKey (o : op) : value :=
  match o with
  | OpList wk => VStr wk
  | OpCreate body _ _ => get "weekKey" body
  end.

(** The week key is a non-empty string, and not [__proto__], under which
    the handler reaches Object.prototype instead of a week of its cache. *)
Definition op_ok (o : op) : Prop :=
  op_weekKey o <> VStr "__proto__"
  /\ match o with
     | OpList wk => wk <> ""
     | OpCreate body _ _ => contract_draft body
     end.

(** The ids a sequence of operations generates. *)
Definition op_ids (ops : list op) : list string :=
  flat_map (fun o => match o with
                     | OpCreate _ now rnd => [genId now rnd]
                     | OpList _ => []
                     end) ops.

(** The local store [ls] and the remote cache [c] hold the same bookings:
    every week lists the same records in the same order, as JSON leaves
    them, and nothing sits on Object.prototype. *)
Definition same_bookings (ls : App.storage) (c : Bookings.cache) : Prop :=
  wf ls
  /\ Forall (fun kv => json (snd kv) = snd kv) ls
  /\ (forall wk, wk <> "" ->
        App.apiGetWeekLS ls (VStr wk) = values (Bookings.week_of c wk))
  /\ (forall wk k, In k (keys (Bookings.week_of c wk)) -> In k (keys ls))
  /\ Bookings.plain c.

(** A draft with the five fields of the store contract. *)
Definition alex_draft : record :=
  [("title", VStr "Alex"); ("dayISO", VStr "2025-03-03T00:00:00.000Z");
   ("startHour", VNum 8); ("durationHours", VNum 4);
   ("weekKey", VStr "2025-W10")].

(** The same draft for the week after. *)
Definition alex_draft_next : record :=
  [("title", VStr "Alex"); ("dayISO", VStr "2025-03-10T00:00:00.000Z");
   ("startHour", VNum 8); ("durationHours", VNum 4);
   ("weekKey", VStr "2025-W11")].

(** The same draft sent under the week key [__proto__]. *)
Definition proto_draft : record :=
  [("title", VStr "Alex"); ("dayISO", VStr "2025-03-03T00:00:00.000Z");
   ("startHour", VNum 8); ("durationHours", VNum 4);
   ("weekKey", VStr "__proto__")].

(** Time zones: UTC, and five hours west of it. *)
Definition zoneUTC : Z -> Z := fun _ => 0.
Definition zoneWest5 : Z -> Z := fun _ => -18000000.

(** The board showing the week of Monday 2025-03-03, with a name typed in. *)
Definition march_board (nm : string) (day : nat) (start : Z) : App.board :=
  {| App.baseDate := UTC 2025 2 3; App.bookings := []; App.loading := false;
     App.error := ""; App.name := nm; App.dayIndex := day;
     App.startHour := start |}.

End Spec.
Import Spec.

(* ================================================================== *)
(** * Facts about objects *)
(* ================================================================== *)

Section ObjectFacts.
Context {V : Type}.
Implicit Types (o : obj V) (k : string) (v : V).

Lemma lookup_set_prop_same k v o : lookup k (set_prop k v o) = Some v.
Proof.
  induction o as [|[k' v'] rest IH]; simpl.
  - now rewrite String.eqb_refl.
  - destruct (String.eqb k k') eqn:E; simpl; rewrite E; auto.
Qed.

Lemma lookup_set_prop_other k k' v o :
  k <> k' -> lookup k' (set_prop k v o) = lookup k' o.
Proof.
  intros Hne. induction o as [|[k0 v0] rest IH]; simpl.
  - destruct (String.eqb k' k) eqn:E; auto.
    apply String.eqb_eq in E. congruence.
  - destruct (String.eqb k k0) eqn:E; simpl.
    + apply String.eqb_eq in E. subst k0.
      destruct (String.eqb k' k) eqn:E'; auto.
      apply String.eqb_eq in E'. congruence.
    + now rewrite IH.
Qed.

Lemma set_prop_not_nil k v o : set_prop k v o <> [].
Proof.
  destruct o as [|[k' v'] rest]; simpl; [discriminate|].
  destruct (String.eqb k k'); discriminate.
Qed.

Lemma lookup_None_not_In k o : lookup k o = None <-> ~ In k (keys o).
Proof.
  induction o as [|[k' v'] rest IH]; simpl.
  - tauto.
  - destruct (String.eqb k k') eqn:E.
    + apply String.eqb_eq in E. subst. split; [discriminate | tauto].
    + apply String.eqb_neq in E. rewrite IH. split.
      * intros H [H1 | H1]; [congruence | tauto].
      * tauto.
Qed.

Lemma In_lookup k v o :
  NoDup (keys o) -> In (k, v) o -> lookup k o = Some v.
Proof.
  induction o as [|[k' v'] rest IH]; intros Hnd Hin; [destruct Hin|].
  inversion Hnd as [|? ? Hnot Hrest]; subst.
  cbn [lookup]. destruct Hin as [Heq | Hin].
  - injection Heq as -> ->. now rewrite String.eqb_refl.
  - destruct (String.eqb k k') eqn:E; [|auto].
    apply String.eqb_eq in E. subst k'. exfalso. apply Hnot.
    unfold keys. apply in_map_iff. now exists (k, v).
Qed.

Lemma keys_set_prop_In k v o :
  In k (keys o) -> keys (set_prop k v o) = keys o.
Proof.
  induction o as [|[k' v'] rest IH]; simpl; [tauto|].
  intros H. destruct (String.eqb k k') eqn:E; simpl; auto.
  apply String.eqb_neq in E. f_equal. apply IH.
  destruct H; [congruence | assumption].
Qed.

Lemma keys_set_prop_not_In k v o :
  ~ In k (keys o) -> set_prop k v o = (o ++ [(k, v)])%list.
Proof.
  induction o as [|[k' v'] rest IH]; simpl; auto.
  intros H. destruct (String.eqb k k') eqn:E.
  - apply String.eqb_eq in E. subst. tauto.
  - f_equal. apply IH. tauto.
Qed.

Lemma NoDup_keys_set_prop k v o :
  NoDup (keys o) -> NoDup (keys (set_prop k v o)).
Proof.
  intros Hnd. destruct (in_dec string_dec k (keys o)) as [Hin | Hout].
  - now rewrite keys_set_prop_In.
  - rewrite keys_set_prop_not_In by assumption.
    unfold keys in *. rewrite map_app. simpl.
    apply NoDup_app; auto.
    + constructor; [intros [] | constructor].
    + intros x Hx [<- | []]. auto.
Qed.

Lemma keys_delete_prop_incl k k' o :
  In k' (keys (delete_prop k o)) -> In k' (keys o) /\ k' <> k.
Proof.
  induction o as [|[k0 v0] rest IH]; simpl; [tauto|].
  destruct (String.eqb k k0) eqn:E.
  - intros H. apply IH in H. tauto.
  - apply String.eqb_neq in E. simpl. intros [<- | H].
    + split; [auto | congruence].
    + apply IH in H. tauto.
Qed.

Lemma NoDup_keys_delete_prop k o :
  NoDup (keys o) -> NoDup (keys (delete_prop k o)).
Proof.
  induction o as [|[k0 v0] rest IH]; simpl; auto.
  intros Hnd. inversion Hnd as [|? ? Hout Hrest]; subst.
  destruct (String.eqb k k0); auto.
  simpl. constructor; auto.
  intros Hin. apply keys_delete_prop_incl in Hin. tauto.
Qed.

Lemma delete_prop_not_In k o : ~ In k (keys o) -> delete_prop k o = o.
Proof.
  induction o as [|[k0 v0] rest IH]; simpl; auto.
  intros H. destruct (String.eqb k k0) eqn:E.
  - apply String.eqb_eq in E. subst. tauto.
  - f_equal. apply IH. tauto.
Qed.

Lemma lookup_delete_prop_same k o : lookup k (delete_prop k o) = None.
Proof.
  apply lookup_None_not_In. intros H.
  apply keys_delete_prop_incl in H. tauto.
Qed.

Lemma lookup_delete_prop_other k k' o :
  k <> k' -> lookup k' (delete_prop k o) = lookup k' o.
Proof.
  intros Hne. induction o as [|[k0 v0] rest IH]; simpl; auto.
  destruct (String.eqb k k0) eqn:E; simpl.
  - apply String.eqb_eq in E. subst k0.
    destruct (String.eqb k' k) eqn:E'; auto.
    apply String.eqb_eq in E'. congruence.
  - now rewrite IH.
Qed.

Lemma NoDup_keys_spread (a b : obj V) : NoDup (keys a) -> NoDup (keys (spread a b)).
Proof.
  unfold spread. revert a.
  induction b as [|[k v] rest IH]; simpl; auto.
  intros a Ha. apply IH. now apply NoDup_keys_set_prop.
Qed.

Lemma spread_nil_NoDup o : NoDup (keys (spread [] o)).
Proof. apply NoDup_keys_spread. constructor. Qed.

Lemma lookup_spread_not_In k (a b : obj V) :
  ~ In k (keys b) -> lookup k (spread a b) = lookup k a.
Proof.
  unfold spread. revert a.
  induction b as [|[k0 v0] rest IH]; simpl; auto.
  intros a H. rewrite IH by tauto.
  apply lookup_set_prop_other. intros ->. tauto.
Qed.

Lemma lookup_spread_In k (a b : obj V) :
  NoDup (keys b) -> In k (keys b) -> lookup k (spread a b) = lookup k b.
Proof.
  unfold spread. revert a.
  induction b as [|[k0 v0] rest IH]; simpl; [tauto|].
  intros a Hnd Hin. inversion Hnd as [|? ? Hout Hrest]; subst.
  destruct (String.eqb k k0) eqn:E.
  - apply String.eqb_eq in E. subst k0.
    fold (spread (set_prop k v0 a) rest).
    rewrite lookup_spread_not_In by assumption.
    apply lookup_set_prop_same.
  - apply String.eqb_neq in E. apply IH; auto.
    destruct Hin; congruence.
Qed.

(** Spreading onto an object that shares no property name appends. *)
Lemma spread_disjoint (a o : obj V) :
  NoDup (keys (a ++ o)%list) -> spread a o = (a ++ o)%list.
Proof.
  unfold spread. revert a.
  induction o as [|[k v] rest IH]; simpl; intros a Ha.
  - now rewrite app_nil_r.
  - rewrite keys_set_prop_not_In.
    + rewrite IH; rewrite <- app_assoc; auto.
    + unfold keys in *. rewrite map_app in Ha. simpl in Ha.
      apply NoDup_remove_2 in Ha. intros Hin. apply Ha.
      apply in_or_app. now left.
Qed.

(** Copying an object whose property names are distinct gives it back. *)
Lemma spread_nil_id o : NoDup (keys o) -> spread [] o = o.
Proof. intros Hnd. now apply (spread_disjoint []). Qed.

Lemma count_key_NoDup k o : NoDup (keys o) -> (count_key k o <= 1)%nat.
Proof.
  unfold count_key. induction o as [|[k0 v0] rest IH]; simpl; auto.
  intros Hnd. inversion Hnd as [|? ? Hout Hrest]; subst.
  destruct (String.eqb k k0) eqn:E; simpl; auto.
  apply String.eqb_eq in E. subst k0.
  assert (Hz : filter (fun kv => String.eqb k (fst kv)) rest = []).
  { clear - Hout. induction rest as [|[k1 v1] r IH]; simpl in *; auto.
    destruct (String.eqb k k1) eqn:E.
    - apply String.eqb_eq in E. subst. tauto.
    - apply IH. tauto. }
  rewrite Hz. simpl. lia.
Qed.

Lemma count_key_lookup k v o :
  NoDup (keys o) -> lookup k o = Some v -> count_key k o = 1%nat.
Proof.
  intros Hnd Hl. pose proof (count_key_NoDup k o Hnd) as Hle.
  assert (Hpos : (0 < count_key k o)%nat).
  { clear Hle Hnd. unfold count_key.
    induction o as [|[k0 v0] rest IH]; simpl in *; [discriminate|].
    destruct (String.eqb k k0); simpl; [lia | auto]. }
  lia.
Qed.

(** Counting the values that satisfy [P] after [o[k] = v]. *)
Lemma count_values_set_prop (P : V -> bool) k v o :
  NoDup (keys o) ->
  List.length (filter P (values (set_prop k v o)))
  = ((if P v then 1 else 0)
     + List.length (filter P (values (delete_prop k o))))%nat.
Proof.
  induction o as [|[k0 v0] rest IH]; simpl; intros Hnd.
  - destruct (P v); reflexivity.
  - inversion Hnd as [|? ? Hout Hrest]; subst.
    destruct (String.eqb k k0) eqn:E; simpl.
    + apply String.eqb_eq in E. subst k0.
      rewrite delete_prop_not_In by assumption.
      destruct (P v); reflexivity.
    + specialize (IH Hrest). unfold values in *.
      destruct (P v0); simpl; rewrite IH; destruct (P v); simpl; lia.
Qed.
End ObjectFacts.

(* ================================================================== *)
(** * Facts about records, JSON and the localStorage listing *)
(* ================================================================== *)

Lemma strict_eq_refl (v : value) : strict_eq v v = true.
Proof.
  destruct v; simpl; auto using Z.eqb_refl, String.eqb_refl.
Qed.

Lemma record_eqb_refl (r : record) : record_eqb r r = true.
Proof.
  induction r as [|[k v] rest IH]; simpl; auto.
  unfold value_eqb. now rewrite String.eqb_refl, strict_eq_refl, IH.
Qed.

Lemma json_idem (r : record) : json (json r) = json r.
Proof.
  unfold json. induction r as [|[k v] rest IH]; simpl; auto.
  destruct v; simpl; rewrite ?IH; auto.
Qed.

Lemma lookup_json_None (k : string) (r : record) :
  lookup k r = None -> lookup k (json r) = None.
Proof.
  unfold json. induction r as [|[k' v] rest IH]; simpl; auto.
  destruct (String.eqb k k') eqn:E; [discriminate|].
  intros H. destruct v; simpl; rewrite ?E; auto.
Qed.

(** JSON keeps what reading a property gives: a property left out was
    [undefined]. *)
Lemma get_json (k : string) (r : record) :
  wf r -> get k (json r) = get k r.
Proof.
  unfold wf, get. induction r as [|[k' v] rest IH]; simpl; auto.
  intros Hnd. inversion Hnd as [|? ? Hout Hrest]; subst.
  destruct (String.eqb k k') eqn:E.
  - apply String.eqb_eq in E. subst k'.
    apply lookup_None_not_In in Hout.
    destruct v; simpl; rewrite ?String.eqb_refl; auto.
    fold (json rest). now rewrite lookup_json_None.
  - destruct v; simpl; rewrite ?E; auto.
Qed.

Lemma eq_mod_id_json (a r : record) : eq_mod_id a (json r) = eq_mod_id a r.
Proof. unfold eq_mod_id. now rewrite json_idem. Qed.

Lemma eq_mod_id_refl (r : record) : eq_mod_id r r = true.
Proof. apply record_eqb_refl. Qed.

Lemma keys_json_incl (k : string) (r : record) :
  In k (keys (json r)) -> In k (keys r).
Proof.
  unfold keys, json. intros Hx.
  apply in_map_iff in Hx as ((k', v') & <- & Hin).
  apply filter_In in Hin as [Hin _]. apply in_map_iff. now exists (k', v').
Qed.

Lemma wf_json (r : record) : wf r -> wf (json r).
Proof.
  unfold wf. induction r as [|[k v] rest IH]; intros Hnd; [exact Hnd|].
  inversion Hnd as [|? ? Hout Hrest]; subst.
  specialize (IH Hrest).
  assert (Hk : ~ In k (keys (json rest))).
  { intros H. apply Hout. now apply keys_json_incl. }
  destruct v; [exact IH | |]; change (NoDup (k :: keys (json rest)));
    now constructor.
Qed.

Lemma values_saveAllLS (o : obj record) :
  values (App.saveAllLS o) = map json (values o).
Proof.
  unfold App.saveAllLS, values. rewrite !map_map. reflexivity.
Qed.

Lemma filter_filter_andb {A : Type} (f g : A -> bool) (l : list A) :
  filter f (filter g l) = filter (fun x => g x && f x) l.
Proof.
  induction l as [|x rest IH]; simpl; auto.
  destruct (g x); simpl; rewrite ?IH; auto.
Qed.

Lemma filter_map_comp {A B : Type} (f : B -> bool) (h : A -> B) (l : list A) :
  List.length (filter f (map h l)) = List.length (filter (fun x => f (h x)) l).
Proof.
  induction l as [|x rest IH]; simpl; auto.
  destruct (f (h x)); simpl; auto.
Qed.

(** [{ id, ...body }] keeps every property of [body] other than [id]. *)
Lemma get_spread_id (k : string) (v : value) (body : record) :
  wf body -> k <> "id" ->
  get k (spread [("id", v)] body) = get k body.
Proof.
  intros Hnd Hk. unfold get.
  destruct (in_dec string_dec k (keys body)) as [Hin | Hout].
  - now rewrite lookup_spread_In.
  - rewrite lookup_spread_not_In by assumption.
    apply lookup_None_not_In in Hout. rewrite Hout. simpl.
    apply String.eqb_neq in Hk. now rewrite Hk.
Qed.

Lemma Forall_set_prop {V : Type} (Q : V -> Prop) (k : string) (v : V) (o : obj V) :
  Forall (fun kv => Q (snd kv)) o -> Q v ->
  Forall (fun kv => Q (snd kv)) (set_prop k v o).
Proof.
  intros Ho Hv. induction o as [|[k' v'] rest IH]; simpl.
  - constructor; auto.
  - inversion Ho; subst. destruct (String.eqb k k'); constructor; auto.
Qed.

Lemma Forall_delete_prop {V : Type} (Q : V -> Prop) (k : string) (o : obj V) :
  Forall (fun kv => Q (snd kv)) o ->
  Forall (fun kv => Q (snd kv)) (delete_prop k o).
Proof.
  intros Ho. induction o as [|[k' v'] rest IH]; simpl; auto.
  inversion Ho; subst. destruct (String.eqb k k'); auto.
Qed.

Lemma lookup_In {V : Type} (k : string) (v : V) (o : obj V) :
  lookup k o = Some v -> In (k, v) o.
Proof.
  induction o as [|[k' v'] rest IH]; simpl; [discriminate|].
  destruct (String.eqb k k') eqn:E.
  - apply String.eqb_eq in E. intros [= ->]. subst. now left.
  - intros H. right. auto.
Qed.

Lemma wf2_set_prop {V : Type} (k : string) (w : obj V) (o : obj (obj V)) :
  wf2 o -> wf w -> wf2 (set_prop k w o).
Proof.
  intros [Hk Hw] Hv. split.
  - now apply NoDup_keys_set_prop.
  - now apply (Forall_set_prop (fun x => wf x)).
Qed.

Lemma wf2_delete_prop {V : Type} (k : string) (o : obj (obj V)) :
  wf2 o -> wf2 (delete_prop k o).
Proof.
  intros [Hk Hw]. split.
  - now apply NoDup_keys_delete_prop.
  - now apply (Forall_delete_prop (fun x => wf x)).
Qed.

Lemma wf2_lookup {V : Type} (k : string) (w : obj V) (o : obj (obj V)) :
  wf2 o -> lookup k o = Some w -> wf w.
Proof.
  intros [_ Hw] Hl. apply lookup_In in Hl.
  rewrite Forall_forall in Hw. exact (Hw _ Hl).
Qed.

(** A week's listing on localStorage, as one filter. *)
Lemma count_listing_ls (Q : record -> bool) (o : obj record) (wk : value) :
  wf2 o ->
  List.length (filter Q (App.apiGetWeekLS (App.saveAllLS o) wk))
  = List.length
      (filter (fun r => strict_eq (get "weekKey" r) wk && Q (json r)) (values o)).
Proof.
  intros [_ Hw]. unfold App.apiGetWeekLS, App.loadAllLS.
  rewrite values_saveAllLS, filter_filter_andb, filter_map_comp.
  f_equal. unfold values. induction o as [|[k r] rest IH]; simpl; auto.
  inversion Hw; subst. simpl in *.
  rewrite get_json by assumption. now rewrite IH.
Qed.

(** What was saved lists as the JSON form of what was there. *)
Lemma listing_saveAllLS (o : obj record) (wk : value) :
  wf2 o ->
  App.apiGetWeekLS (App.saveAllLS o) wk = map json (App.apiGetWeekLS o wk).
Proof.
  intros [_ Hw]. unfold App.apiGetWeekLS, App.loadAllLS.
  rewrite values_saveAllLS. unfold values.
  induction o as [|[k r] rest IH]; simpl; auto.
  inversion Hw; subst. simpl in *.
  rewrite get_json by assumption.
  destruct (strict_eq (get "weekKey" r) wk); simpl; now rewrite IH.
Qed.

(* ================================================================== *)
(** * The bookings handler *)
(* ================================================================== *)

Lemma other_method_dispatch (m : string) :
  other_method m ->
  String.eqb m "GET" = false /\ String.eqb m "POST" = false
  /\ String.eqb m "DELETE" = false.
Proof.
  intros (H1 & H2 & H3). repeat split; now apply String.eqb_neq.
Qed.

(** The handler answers a request without a week key before it looks at the
    method. *)
Lemma handler_missing_weekKey c req now rnd :
  truthy (request_weekKey req) = false ->
  Bookings.handler c req now rnd
  = (c, {| Bookings.status := 400; Bookings.headers := [];
           Bookings.sent := Bookings.JsonError "Missing weekKey" |}).
Proof.
  intros H. unfold Bookings.handler. fold (request_weekKey req).
  now rewrite H.
Qed.

(** C9, as stated, fails: a PUT that carries no week key is answered 400
    without an Allow header, not 405. *)
Lemma handler_put_without_weekKey :
  let req := {| Bookings.method := "PUT"; Bookings.query := [];
                Bookings.body := None |} in
  let r := snd (Bookings.handler [] req 0 "") in
  other_method (Bookings.method req)
  /\ Bookings.status r = 400
  /\ Bookings.status r <> 405
  /\ lookup "Allow" (Bookings.headers r) = None.
Proof.
  simpl. unfold other_method. repeat split; try discriminate.
Qed.

(** C9, amended: a request whose method is not GET, POST or DELETE is
    answered 405 with the header Allow: GET, POST, DELETE when it carries a
    week key (in the query or in the body); without one it is answered 400
    with the error body and no Allow header. *)
Theorem handler_other_method c req now rnd :
  other_method (Bookings.method req) ->
  let r := snd (Bookings.handler c req now rnd) in
  (truthy (request_weekKey req) = true ->
     Bookings.status r = 405
     /\ Bookings.headers r = [("Allow", ["GET"; "POST"; "DELETE"])]
     /\ Bookings.sent r
        = Bookings.Text ("Method " ++ Bookings.method req ++ " Not Allowed"))
  /\ (truthy (request_weekKey req) = false ->
        Bookings.status r = 400
        /\ Bookings.headers r = []
        /\ Bookings.sent r = Bookings.JsonError "Missing weekKey").
Proof.
  intros Hm. apply other_method_dispatch in Hm as (Hg & Hp & Hd).
  split; intros Hk.
  - unfold Bookings.handler. fold (request_weekKey req).
    rewrite Hk, Hg, Hp, Hd. simpl. auto.
  - rewrite handler_missing_weekKey by assumption. simpl. auto.
Qed.

Lemma handler_other_method_witness :
  let req := {| Bookings.method := "PUT";
                Bookings.query := [("weekKey", VStr "2025-W10")];
                Bookings.body := None |} in
  Bookings.status (snd (Bookings.handler [] req 0 "")) = 405
  /\ Bookings.headers (snd (Bookings.handler [] req 0 ""))
     = [("Allow", ["GET"; "POST"; "DELETE"])].
Proof.
  intros req.
  assert (Hm : other_method (Bookings.method req)).
  { unfold other_method. simpl. repeat split; discriminate. }
  destruct (handler_other_method [] req 0 "" Hm) as [H _].
  destruct (H eq_refl) as (H1 & H2 & _). split; assumption.
Defined.

(* ================================================================== *)
(** * The store: create and delete *)
(* ================================================================== *)

Lemma lookup_saveAllLS k (o : obj record) :
  lookup k (App.saveAllLS o) = option_map json (lookup k o).
Proof.
  unfold App.saveAllLS.
  induction o as [|[k' r] rest IH]; simpl; auto.
  destruct (String.eqb k k'); auto.
Qed.

(** C1 fails on the localStorage backend for the draft [submit] builds: its
    [id: undefined] is spread over the generated id, so the record returned
    has [id] undefined, and the record stored under the generated key has no
    [id] at all. *)
Theorem create_ls_ui_draft_id_undefined tz ls b nm d now rnd :
  exists r stored,
    snd (App.apiCreateLS ls (App.draft tz b nm d) now rnd) = Some r
    /\ get "id" r = VUndef
    /\ get "id" r <> VStr (genId now rnd)
    /\ lookup (genId now rnd) (fst (App.apiCreateLS ls (App.draft tz b nm d) now rnd))
       = Some stored
    /\ lookup "id" stored = None.
Proof.
  unfold App.apiCreateLS, App.loadAllLS. cbn [fst snd].
  rewrite lookup_saveAllLS, !lookup_set_prop_same. cbn [option_map].
  exists (spread [("id", VStr (genId now rnd))] (App.draft tz b nm d)).
  exists (json (spread [("id", VStr (genId now rnd))] (App.draft tz b nm d))).
  split; [reflexivity|].
  split; [reflexivity|].
  split; [discriminate|].
  split; reflexivity.
Qed.

(** A draft that has no [id] property comes back from the localStorage
    create with the generated id. *)
Lemma create_ls_plain_draft_id ls body now rnd :
  ~ In "id" (keys body) ->
  exists r,
    snd (App.apiCreateLS ls body now rnd) = Some r
    /\ get "id" r = VStr (genId now rnd).
Proof.
  intros Hid. unfold App.apiCreateLS, App.loadAllLS. cbn [snd].
  rewrite lookup_set_prop_same. eexists. split; [reflexivity|].
  unfold get. rewrite lookup_spread_not_In by assumption. reflexivity.
Qed.

(** On the HTTP backend the same draft comes back with the generated id: the
    request body is JSON, which has already dropped [id: undefined]. *)
Lemma create_http_ui_draft_id :
  let b := march_board "Alex" 0 8 in
  match App.apiCreateHTTP [] (App.draft zoneUTC b "Alex" (UTC 2025 2 3))
          1741000000000 "k3j9x2" with
  | (_, Ok (Some r)) => get "id" r = VStr (genId 1741000000000 "k3j9x2")
  | _ => False
  end.
Proof. vm_compute. reflexivity. Qed.

(** C6 fails on the HTTP backend: [apiDeleteHTTP] sends the id in the path
    and no week key, so the handler answers 400 before the DELETE branch, the
    cache is left as it was and the caller gets a thrown error, whatever the
    id. *)
Theorem delete_http_always_throws c id now rnd :
  App.apiDeleteHTTP c id now rnd = (c, Throw missing_weekKey).
Proof. reflexivity. Qed.

(** The localStorage delete: the record is gone afterwards, the others stay,
    and an absent id changes nothing but the JSON form of the records. *)
Lemma delete_ls_removes ls id k :
  lookup k (App.apiDeleteLS ls id)
  = if String.eqb (to_string id) k then None else option_map json (lookup k ls).
Proof.
  unfold App.apiDeleteLS, App.loadAllLS. rewrite lookup_saveAllLS.
  destruct (String.eqb (to_string id) k) eqn:E.
  - apply String.eqb_eq in E. subst k. now rewrite lookup_delete_prop_same.
  - apply String.eqb_neq in E. now rewrite lookup_delete_prop_other.
Qed.

Lemma delete_ls_absent ls id weekKey :
  wf2 ls -> lookup (to_string id) ls = None ->
  List.length (App.apiGetWeekLS (App.apiDeleteLS ls id) weekKey)
  = List.length (App.apiGetWeekLS ls weekKey).
Proof.
  intros Hwf H. apply lookup_None_not_In in H.
  unfold App.apiDeleteLS, App.loadAllLS.
  rewrite delete_prop_not_In by assumption.
  now rewrite listing_saveAllLS, length_map.
Qed.

Lemma week_of_set_prop_other (c : Bookings.cache) (wk wk' : string) (w : obj record) :
  wk <> wk' -> Bookings.week_of (set_prop wk w c) wk' = Bookings.week_of c wk'.
Proof.
  intros Hne. unfold Bookings.week_of. now rewrite lookup_set_prop_other.
Qed.

Lemma week_of_set_prop_same (c : Bookings.cache) (wk : string) (w : obj record) :
  Bookings.week_of (set_prop wk w c) wk = w.
Proof. unfold Bookings.week_of. now rewrite lookup_set_prop_same. Qed.

(** What [cache[k]] finds, and what the handler's first step changes. *)
Lemma cache_get_own c wk w :
  lookup wk c = Some w -> Bookings.cache_get c wk = Bookings.Week w.
Proof. unfold Bookings.cache_get. now intros ->. Qed.

Lemma cache_get_inherited c wk r :
  Bookings.cache_get c wk = Bookings.Inherited r ->
  lookup wk c = None /\ wk <> "__proto__" /\ lookup wk (Bookings.proto c) = Some r.
Proof.
  unfold Bookings.cache_get. destruct (lookup wk c); [discriminate|].
  destruct (String.eqb wk "__proto__") eqn:E; [discriminate|].
  apply String.eqb_neq in E.
  destruct (lookup wk (Bookings.proto c)); [|discriminate].
  intros H. inversion H. subst. auto.
Qed.

Lemma cache_get_plain c wk r :
  Bookings.plain c -> Bookings.cache_get c wk <> Bookings.Inherited r.
Proof.
  intros Hp H. apply cache_get_inherited in H as (_ & _ & H).
  rewrite Hp in H. discriminate.
Qed.

Lemma week_of_ensure_week c wk :
  Bookings.week_of (Bookings.ensure_week c wk) wk = Bookings.week_of c wk.
Proof.
  unfold Bookings.ensure_week.
  destruct (Bookings.cache_get c wk) eqn:E; try reflexivity.
  unfold Bookings.cache_get in E. unfold Bookings.week_of.
  rewrite lookup_set_prop_same.
  destruct (lookup wk c); [discriminate | reflexivity].
Qed.

Lemma ensure_week_present c wk w :
  lookup wk c = Some w -> Bookings.ensure_week c wk = c.
Proof.
  intros H. unfold Bookings.ensure_week. now rewrite (cache_get_own c wk w H).
Qed.

Lemma cache_get_ensure_week c wk :
  Bookings.cache_get (Bookings.ensure_week c wk) wk
  = match Bookings.cache_get c wk with
    | Bookings.Nothing => Bookings.Week []
    | f => f
    end.
Proof.
  unfold Bookings.ensure_week.
  destruct (Bookings.cache_get c wk) eqn:E; try exact E.
  apply cache_get_own, lookup_set_prop_same.
Qed.

(** On a week that is not a record inherited from Object.prototype the
    handler lists the records of the week. *)
Lemma listing_ensure_week c wk :
  (forall r, Bookings.cache_get c wk <> Bookings.Inherited r) ->
  Bookings.listing (Bookings.ensure_week c wk) wk
  = Bookings.JsonRecords (values (Bookings.week_of c wk)).
Proof.
  intros Hn. unfold Bookings.listing.
  rewrite cache_get_ensure_week, week_of_ensure_week.
  destruct (Bookings.cache_get c wk) eqn:E; try reflexivity.
  now destruct (Hn r).
Qed.

(** What a DELETE leaves of the week it names. *)
Lemma week_of_remove c wk id :
  truthy id = true ->
  lookup (to_string id) (Bookings.week_of (Bookings.remove c wk id) wk) = None
  /\ forall k, k <> to_string id ->
       lookup k (Bookings.week_of (Bookings.remove c wk id) wk)
       = lookup k (Bookings.week_of c wk).
Proof.
  intros Hid. unfold Bookings.remove. rewrite Hid.
  destruct (Bookings.cache_get c wk) eqn:E.
  - destruct (lookup (to_string id) (Bookings.week_of c wk)) eqn:Hl.
    + unfold Bookings.week_of at 1 3. rewrite !lookup_set_prop_same. split.
      * apply lookup_delete_prop_same.
      * intros k Hk. now apply lookup_delete_prop_other.
    + split; [exact Hl | reflexivity].
  - apply cache_get_inherited in E as (Hown & Hne & _).
    assert (Hw : forall c', lookup wk c' = lookup wk c ->
                 Bookings.week_of c' wk = []).
    { intros c' Hc. unfold Bookings.week_of. now rewrite Hc, Hown. }
    assert (H0 : Bookings.week_of c wk = []) by now apply Hw.
    destruct (truthy (get (to_string id) r)).
    + rewrite Hw, H0 by now apply lookup_set_prop_other. now split.
    + rewrite H0. now split.
  - destruct (lookup (to_string id) (Bookings.week_of c wk)) eqn:Hl.
    + unfold Bookings.week_of at 1 3. rewrite !lookup_set_prop_same. split.
      * apply lookup_delete_prop_same.
      * intros k Hk. now apply lookup_delete_prop_other.
    + split; [exact Hl | reflexivity].
Qed.

(** The DELETE branch of the handler, reached with the week key and the id
    in the query: the record is removed from its week. *)
Lemma handler_delete_removes c wk id now rnd :
  wk <> "" -> id <> "" ->
  let req := {| Bookings.method := "DELETE";
                Bookings.query := [("weekKey", VStr wk); ("id", VStr id)];
                Bookings.body := None |} in
  let '(c', r) := Bookings.handler c req now rnd in
  Bookings.status r = 200 /\ Bookings.sent r = Bookings.JsonOk
  /\ lookup id (Bookings.week_of c' wk) = None.
Proof.
  intros Hwk Hid. pose proof Hid as Hid'.
  apply String.eqb_neq in Hwk, Hid.
  unfold Bookings.handler.
  cbn [Bookings.query Bookings.body Bookings.method Bookings.body_props].
  assert (Hk : or_else (get "weekKey" [("weekKey", VStr wk); ("id", VStr id)])
                 (get "weekKey" []) = VStr wk).
  { unfold or_else, get. cbn. now rewrite Hwk. }
  assert (Hi : get "id" [("weekKey", VStr wk); ("id", VStr id)] = VStr id)
    by reflexivity.
  rewrite Hk, Hi. cbn [truthy to_string]. rewrite Hwk. cbn.
  split; [reflexivity|]. split; [reflexivity|].
  apply (week_of_remove _ wk (VStr id)). simpl. now rewrite Hid.
Qed.

(** What the HTTP client gets back for a week key that is a non-empty
    string. *)
Lemma truthy_nonempty wk : wk <> "" -> truthy (VStr wk) = true.
Proof. intros H. apply String.eqb_neq in H. simpl. now rewrite H. Qed.

Lemma apiGetWeekHTTP_ok c wk now rnd :
  wk <> "" ->
  (forall r, Bookings.cache_get c wk <> Bookings.Inherited r) ->
  App.apiGetWeekHTTP c (VStr wk) now rnd
  = (Bookings.ensure_week c wk, Ok (map json (values (Bookings.week_of c wk)))).
Proof.
  intros Hne Hown. apply truthy_nonempty in Hne.
  unfold App.apiGetWeekHTTP, App.fetch, Bookings.handler.
  cbn [Bookings.query Bookings.body Bookings.method Bookings.body_props to_string].
  change (get "weekKey" [("weekKey", VStr wk)]) with (VStr wk).
  unfold or_else. rewrite Hne. cbv iota. rewrite Hne. cbn [negb to_string].
  change (String.eqb "GET" "GET") with true. cbv iota.
  cbn [App.ok Bookings.status Bookings.sent].
  change ((200 <=? 200) && (200 <=? 299)) with true. cbn [negb].
  now rewrite listing_ensure_week.
Qed.

Lemma apiCreateHTTP_ok c body wk now rnd :
  wf body -> get "weekKey" body = VStr wk -> wk <> "" ->
  let rec := spread [("id", VStr (genId now rnd))] (json body) in
  App.apiCreateHTTP c body now rnd
  = (set_prop wk (set_prop (genId now rnd) rec (Bookings.week_of c wk))
       (Bookings.ensure_week c wk),
     Ok (Some (json rec))).
Proof.
  intros Hbody Hwk Hne rec. apply truthy_nonempty in Hne.
  unfold App.apiCreateHTTP, App.fetch, Bookings.handler.
  cbn [Bookings.query Bookings.body Bookings.method Bookings.body_props].
  change (get "weekKey" []) with VUndef.
  rewrite get_json, Hwk by assumption.
  unfold or_else. change (truthy VUndef) with false. cbv iota.
  rewrite Hne. cbn [negb to_string]. cbv iota.
  change (String.eqb "POST" "GET") with false.
  change (String.eqb "POST" "POST") with true. cbv iota.
  cbn [App.ok Bookings.status Bookings.sent].
  change ((200 <=? 201) && (201 <=? 299)) with true. cbn [negb].
  unfold Bookings.store. now rewrite week_of_ensure_week.
Qed.

(** Over HTTP a draft whose [id] is absent or [undefined] comes back with
    the generated id. *)
Lemma create_http_returns_id c body wk now rnd :
  wf body -> get "weekKey" body = VStr wk -> wk <> "" ->
  get "id" body = VUndef ->
  exists c' r,
    App.apiCreateHTTP c body now rnd = (c', Ok (Some r))
    /\ get "id" r = VStr (genId now rnd).
Proof.
  intros Hbody Hwk Hne Hid.
  rewrite (apiCreateHTTP_ok c body wk now rnd Hbody Hwk Hne).
  eexists. eexists. split; [reflexivity|].
  assert (Hout : ~ In "id" (keys (json body))).
  { intros Hin. unfold keys, json in Hin.
    apply in_map_iff in Hin as ((k, v) & Hk & Hin). simpl in Hk. subst k.
    apply filter_In in Hin as [Hin Hv].
    assert (Hl : lookup "id" body = Some v) by now apply In_lookup.
    unfold get in Hid. rewrite Hl in Hid. subst v. discriminate. }
  rewrite get_json.
  - unfold get. rewrite lookup_spread_not_In by assumption. reflexivity.
  - apply NoDup_keys_spread. repeat constructor. intros [].
Qed.

(** On the contract's own draft the two backends agree on create and on
    the listing that follows. *)
Lemma backends_agree_on_create_list :
  let '(ls, r1) := App.create App.API_LS [] alex_draft 1741000000000 "k3j9x2" in
  let '(c, r2) := App.create App.API_HTTP [] alex_draft 1741000000000 "k3j9x2" in
  r1 = r2
  /\ snd (App.getWeek App.API_LS ls (VStr "2025-W10") 0 "")
     = snd (App.getWeek App.API_HTTP c (VStr "2025-W10") 0 "").
Proof. vm_compute. split; reflexivity. Qed.

(** After the same create, deleting the booking by its id succeeds on
    localStorage and empties the week, while over HTTP the delete throws and
    the booking is still listed. *)
Lemma backends_differ_on_delete :
  create_delete_list App.API_LS [] alex_draft 1741000000000 "k3j9x2"
  = Some (Ok tt, Ok [])
  /\ create_delete_list App.API_HTTP [] alex_draft 1741000000000 "k3j9x2"
     = Some (Throw missing_weekKey,
             Ok [("id", VStr "b_1741000000000_k3j9x2") :: alex_draft]).
Proof. split; vm_compute; reflexivity. Qed.

(* ================================================================== *)
(** * Start hours *)
(* ================================================================== *)

(** C8 fails for the board of App.jsx: every selectable start hour lies
    within [hoursStart, hoursEnd], but the hours 17 to 20 are selectable and
    a 4-hour block from them ends after [hoursEnd]; [submit] stores such a
    booking as it is. *)
Theorem hours_exceed_visible_day :
  Forall (fun h => App.CONFIG.hoursStart <= h <= App.CONFIG.hoursEnd) App.HOURS
  /\ filter (fun h => h + 4 >? App.CONFIG.hoursEnd) App.HOURS = [17; 18; 19; 20]
  /\ In 20 App.HOURS
  /\ 20 + 4 > App.CONFIG.hoursEnd
  /\ App.apiGetWeekLS
       (fst (App.submit App.API_LS zoneUTC ([], march_board "Alex" 0 20)
               1741000000000 "k3j9x2" 1741000000001 ""))
       (VStr "2025-W10")
     = [[("title", VStr "Alex"); ("dayISO", VStr "2025-03-03T00:00:00.000Z");
         ("startHour", VNum 20); ("durationHours", VNum 4);
         ("weekKey", VStr "2025-W10")]].
Proof.
  split; [|split; [|split; [|split]]].
  - replace App.HOURS with [7; 8; 9; 10; 11; 12; 13; 14; 15; 16; 17; 18; 19; 20]
      by (vm_compute; reflexivity).
    unfold App.CONFIG.hoursStart, App.CONFIG.hoursEnd.
    repeat constructor; lia.
  - vm_compute. reflexivity.
  - vm_compute. tauto.
  - unfold App.CONFIG.hoursEnd. lia.
  - vm_compute. reflexivity.
Qed.

(** The roster board: every selectable start hour passes the guard of
    [assignFourHours], the block ending by 22:00. *)
Lemma roster_hours_within_day :
  Forall (fun h => 6 <= h <= 18 /\ (h + 4 >? 24) = false) Roster.HOURS.
Proof.
  replace Roster.HOURS with [6; 7; 8; 9; 10; 11; 12; 13; 14; 15; 16; 17; 18]
    by (vm_compute; reflexivity).
  repeat constructor; lia.
Qed.

(* ================================================================== *)
(** * Dates *)
(* ================================================================== *)

(** [YearFromDay n] is the year that contains day [n]. *)
Lemma YearFromDay_spec (n : Z) :
  DayFromYear (YearFromDay n) <= n < DayFromYear (YearFromDay n + 1).
Proof.
  unfold YearFromDay.
  set (y := 1970 + 400 * n / 146097).
  assert (Hy : DayFromYear (y - 1) <= n < DayFromYear (y + 2)).
  { unfold DayFromYear, y. split; Z.div_mod_to_equations; lia. }
  clearbody y.
  destruct (DayFromYear (y + 1) <=? n) eqn:E1.
  - apply Z.leb_le in E1. replace (y + 1 + 1) with (y + 2) by lia. lia.
  - apply Z.leb_gt in E1.
    destruct (n <? DayFromYear y) eqn:E2.
    + apply Z.ltb_lt in E2. replace (y - 1 + 1) with y by lia. lia.
    + apply Z.ltb_ge in E2. lia.
Qed.

Lemma DayFromYear_mono (y1 y2 : Z) : y1 <= y2 -> DayFromYear y1 <= DayFromYear y2.
Proof. unfold DayFromYear. intros H. Z.div_mod_to_equations. lia. Qed.

(** A time from the epoch on lies in 1970 or later. *)
Lemma YearFromTime_epoch (t : Z) : 0 <= t -> 1970 <= YearFromTime t.
Proof.
  intros Ht. unfold YearFromTime.
  assert (Hd : 0 <= Day t) by (unfold Day, msPerDay; Z.div_mod_to_equations; lia).
  destruct (YearFromDay_spec (Day t)) as [_ Hup].
  destruct (Z_lt_le_dec (YearFromDay (Day t)) 1970) as [Hlt | Hge]; [|assumption].
  pose proof (DayFromYear_mono (YearFromDay (Day t) + 1) 1970 ltac:(lia)) as Hm.
  change (DayFromYear 1970) with 0 in Hm. lia.
Qed.

Lemma monthOfYearDay_range (lp : bool) (d : Z) : 0 <= monthOfYearDay lp d <= 11.
Proof.
  unfold monthOfYearDay.
  repeat match goal with |- context [if ?c then _ else _] => destruct c end; lia.
Qed.

(** Building a day from the year and month of [t] and any day of the month
    [k] moves [t]'s day by [k] less its own day of the month. *)
Lemma MakeDay_components (t k : Z) :
  MakeDay (YearFromTime t) (MonthFromTime t) k = Day t - DateFromTime t + k.
Proof.
  unfold MakeDay, DateFromTime, DayWithinYear, InLeapYear.
  set (m := MonthFromTime t).
  assert (Hm : 0 <= m <= 11) by apply monthOfYearDay_range.
  assert (Hq : m / 12 = 0) by (apply Z.div_small; lia).
  assert (Hr : m mod 12 = m) by (apply Z.mod_small; lia).
  rewrite Hq, Hr, Z.add_0_r. lia.
Qed.

Lemma MakeDate_Day (t k : Z) :
  MakeDate (Day t + k) (TimeWithinDay t) = t + k * msPerDay.
Proof.
  unfold MakeDate, Day, TimeWithinDay, msPerDay.
  Z.div_mod_to_equations. lia.
Qed.

Lemma setUTCDate_shift (t k : Z) :
  setUTCDate t (getUTCDate t + k) = t + k * msPerDay.
Proof.
  unfold setUTCDate, getUTCDate. rewrite MakeDay_components.
  replace (Day t - DateFromTime t + (DateFromTime t + k)) with (Day t + k) by lia.
  apply MakeDate_Day.
Qed.

(** [Date.UTC] of a date's own year, month and day is the midnight that
    starts its day, unless the year is one of 0 to 99. *)
Lemma UTC_components (t : Z) :
  ~ (0 <= YearFromTime t <= 99) ->
  UTC (YearFromTime t) (MonthFromTime t) (DateFromTime t) = Day t * msPerDay.
Proof.
  intros Hy. unfold UTC.
  destruct ((0 <=? YearFromTime t) && (YearFromTime t <=? 99)) eqn:E.
  - apply andb_prop in E as [E1 E2].
    apply Z.leb_le in E1, E2. tauto.
  - rewrite MakeDay_components. unfold MakeDate. lia.
Qed.

Lemma UTC_getters (t : Z) :
  ~ (0 <= YearFromTime t <= 99) ->
  UTC (getUTCFullYear t) (getUTCMonth t) (getUTCDate t) = Day t * msPerDay.
Proof. apply UTC_components. Qed.

Lemma Day_shift (t k : Z) : Day (t + k * msPerDay) = Day t + k.
Proof. unfold Day, msPerDay. Z.div_mod_to_equations. lia. Qed.

Lemma Day_midnight (n : Z) : Day (n * msPerDay) = n.
Proof. unfold Day, msPerDay. Z.div_mod_to_equations. lia. Qed.

Lemma WeekDay_range (t : Z) : 0 <= WeekDay t <= 6.
Proof. unfold WeekDay. Z.div_mod_to_equations. lia. Qed.

(** What [(getUTCDay() + 6) % 7] computes: the days since Monday. *)
Lemma days_since_monday (t : Z) :
  Z.rem (getUTCDay t + 6) 7 = isoWeekday t - 1.
Proof.
  unfold getUTCDay, isoWeekday. pose proof (WeekDay_range t) as Hw.
  rewrite Z.rem_mod_nonneg by lia.
  destruct (WeekDay t =? 0) eqn:E.
  - apply Z.eqb_eq in E. rewrite E. reflexivity.
  - apply Z.eqb_neq in E. Z.div_mod_to_equations. lia.
Qed.

(** The day [isoThursday] names is a Thursday, in the Monday-to-Sunday week
    of [t]. *)
Lemma isoThursday_spec (t : Z) :
  WeekDay (isoThursday t * msPerDay) = 4
  /\ isoThursday t - 3 <= Day t <= isoThursday t + 3
  /\ WeekDay ((isoThursday t - 3) * msPerDay) = 1.
Proof.
  unfold isoThursday, isoWeekday, WeekDay. rewrite !Day_midnight.
  pose proof (WeekDay_range t) as Hw. unfold WeekDay in *.
  destruct ((Day t + 4) mod 7 =? 0) eqn:E.
  - apply Z.eqb_eq in E. repeat split; Z.div_mod_to_equations; lia.
  - apply Z.eqb_neq in E. repeat split; Z.div_mod_to_equations; lia.
Qed.

(** The Thursday [weekKeyFromDate] and [weekKey] shift to. *)
Lemma week_target (d : Z) :
  ~ (0 <= YearFromTime d <= 99) ->
  let target := UTC (getUTCFullYear d) (getUTCMonth d) (getUTCDate d) in
  setUTCDate target (getUTCDate target + 3 - Z.rem (getUTCDay target + 6) 7)
  = isoThursday d * msPerDay.
Proof.
  intros Hy target. unfold target. rewrite UTC_getters by assumption.
  set (t := Day d * msPerDay).
  replace (getUTCDate t + 3 - Z.rem (getUTCDay t + 6) 7)
    with (getUTCDate t + (3 - Z.rem (getUTCDay t + 6) 7)) by lia.
  rewrite setUTCDate_shift, days_since_monday.
  unfold isoThursday, isoWeekday, WeekDay, t. rewrite Day_midnight. lia.
Qed.

(** For the week-key function of App.jsx the year of the key is the ISO
    week-year of the date (dates of the years 0 to 99, which [Date.UTC]
    reads as 1900 to 1999, apart). *)
Lemma weekKeyFromDate_week_year (d : Z) :
  ~ (0 <= YearFromTime d <= 99) ->
  exists ww,
    App.weekKeyFromDate d = string_of_Z (isoWeekYear d) ++ "-W" ++ ww.
Proof.
  intros Hy. unfold App.weekKeyFromDate.
  rewrite (week_target d Hy).
  assert (Hyr : getUTCFullYear (isoThursday d * msPerDay) = isoWeekYear d).
  { unfold getUTCFullYear, YearFromTime, isoWeekYear. now rewrite Day_midnight. }
  rewrite !Hyr. eexists. reflexivity.
Qed.

(** Two dates with the same Thursday have the same week key. *)
Lemma weekKeyFromDate_same_thursday (d1 d2 : Z) :
  ~ (0 <= YearFromTime d1 <= 99) -> ~ (0 <= YearFromTime d2 <= 99) ->
  isoThursday d1 = isoThursday d2 ->
  App.weekKeyFromDate d1 = App.weekKeyFromDate d2.
Proof.
  intros H1 H2 Heq. unfold App.weekKeyFromDate.
  rewrite (week_target d1 H1), (week_target d2 H2), Heq. reflexivity.
Qed.

(** C3 fails for the roster board's [weekKey]: Monday 2024-12-30, which the
    board reaches as the start of the week of 2025-01-01, belongs to ISO
    week 1 of 2025 (its Thursday is 2025-01-02), [weekKeyFromDate] says so,
    but [weekKey] prints the date's own year. *)
Theorem roster_weekKey_calendar_year :
  Roster.startOfWeek zoneUTC (UTC 2025 0 1) = UTC 2024 11 30
  /\ isoThursday (UTC 2024 11 30) * msPerDay = UTC 2025 0 2
  /\ isoWeekYear (UTC 2024 11 30) = 2025
  /\ App.weekKeyFromDate (UTC 2024 11 30) = "2025-W01"
  /\ Roster.weekKey (UTC 2024 11 30) = "2024-W01".
Proof. repeat split; vm_compute; reflexivity. Qed.

(* ================================================================== *)
(** * The stored week key and the stored day *)
(* ================================================================== *)

(** C4 fails west of UTC: the days of the week are UTC midnights, and
    [submit] reads their local year, month and day. Five hours west of UTC
    the Monday of week 2025-W10 is stored as Sunday 2025-03-02, a day of
    week 2025-W09, next to the week key 2025-W10. *)
Theorem submit_day_outside_week_west_of_utc :
  let b := march_board "Alex" 0 8 in
  App.startOfISOWeek zoneWest5 (UTC 2025 2 5 + 12 * 3600000) = App.baseDate b
  /\ App.weekKey b = "2025-W10"
  /\ exists r t,
       App.apiGetWeekLS
         (fst (App.submit App.API_LS zoneWest5 ([], b)
                 1741000000000 "k3j9x2" 1741000000001 ""))
         (VStr "2025-W10") = [r]
       /\ get "weekKey" r = VStr "2025-W10"
       /\ get "dayISO" r = VStr "2025-03-02T00:00:00.000Z"
       /\ App.parseISO "2025-03-02T00:00:00.000Z" = Some t
       /\ App.weekKeyFromDate t = "2025-W09".
Proof.
  split; [vm_compute; reflexivity|].
  split; [vm_compute; reflexivity|].
  exists [("title", VStr "Alex"); ("dayISO", VStr "2025-03-02T00:00:00.000Z");
          ("startHour", VNum 8); ("durationHours", VNum 4);
          ("weekKey", VStr "2025-W10")].
  exists (UTC 2025 2 2).
  repeat split; vm_compute; reflexivity.
Qed.

(** At or east of UTC (an offset from 0 up to a day) each of the seven days
    of a displayed week, from the epoch on, is stored under the week key of
    that week. *)
Lemma submit_day_in_week_east_of_utc (tz : Z -> Z) (base : Z) (i : nat) :
  (forall t, 0 <= tz t < msPerDay) ->
  0 <= base -> mondayMidnight base -> (i < 7)%nat ->
  App.weekKeyFromDate (App.dayInstant tz (App.addDays base (Z.of_nat i)))
  = App.weekKeyFromDate base.
Proof.
  intros Htz Hbase [Hmid Hmon] Hi.
  unfold App.addDays. rewrite setUTCDate_shift.
  set (x := base + Z.of_nat i * msPerDay).
  assert (Hx : 0 <= x) by (unfold x, msPerDay; lia).
  pose proof (Htz x) as Hz.
  assert (Hlocal : Day (x + tz x) = Day base + Z.of_nat i).
  { unfold x, Day, TimeWithinDay, msPerDay in *. Z.div_mod_to_equations. lia. }
  assert (Hinst : App.dayInstant tz x = (Day base + Z.of_nat i) * msPerDay).
  { unfold App.dayInstant, getFullYear, getMonth, getDate, LocalTime.
    rewrite UTC_components, Hlocal; [reflexivity|].
    pose proof (YearFromTime_epoch (x + tz x) ltac:(lia)). lia. }
  rewrite Hinst.
  apply weekKeyFromDate_same_thursday.
  - pose proof (YearFromTime_epoch ((Day base + Z.of_nat i) * msPerDay)) as H.
    assert (0 <= Day base) by (unfold Day, msPerDay; Z.div_mod_to_equations; lia).
    unfold msPerDay in *. lia.
  - pose proof (YearFromTime_epoch base Hbase). lia.
  - unfold isoThursday, isoWeekday. rewrite Day_midnight.
    unfold WeekDay in *. rewrite Day_midnight, Hmon.
    change (1 =? 0) with false. cbv iota.
    destruct ((Day base + Z.of_nat i + 4) mod 7 =? 0) eqn:E.
    + apply Z.eqb_eq in E. Z.div_mod_to_equations. lia.
    + apply Z.eqb_neq in E. Z.div_mod_to_equations. lia.
Qed.

(* ================================================================== *)
(** * The roster board: one assignment per person and week *)
(* ================================================================== *)

Section RosterFacts.
Import Roster.

Lemma wf_set_week (a : assignments_t) (wk : string) (week : obj entry) :
  wf_assignments a -> wf week ->
  wf_assignments (set_prop wk week (spread [] a)).
Proof.
  intros Hwf Hweek. rewrite spread_nil_id by apply Hwf.
  now apply wf2_set_prop.
Qed.

Lemma wf_assignFourHours (st : state) :
  wf_assignments (assignments st) ->
  wf_assignments (assignments (assignFourHours st)).
Proof.
  intros Hwf. unfold assignFourHours.
  destruct (String.eqb (selectedPersonId st) ""); [assumption|].
  destruct (selectedStart st + 4 >? 24); [assumption|].
  simpl. apply wf_set_week; [assumption|].
  apply NoDup_keys_set_prop, spread_nil_NoDup.
Qed.

Lemma wf_clearAssignment (st : state) (pid : string) :
  wf_assignments (assignments st) ->
  wf_assignments (assignments (clearAssignment st pid)).
Proof.
  intros Hwf. unfold clearAssignment. simpl.
  apply wf_set_week; [assumption|].
  apply NoDup_keys_delete_prop, spread_nil_NoDup.
Qed.

Lemma wf_step (tz : Z -> Z) (st : state) (e : event) :
  wf_assignments (assignments st) ->
  wf_assignments (assignments (step tz st e)).
Proof.
  intros Hwf. destruct e; simpl; auto.
  - now apply wf_assignFourHours.
  - now apply wf_clearAssignment.
  - unfold handleAddPerson. destruct (String.eqb (trim newPerson) ""); auto.
Qed.

Lemma wf_reachable (tz : Z -> Z) (st : state) :
  reachable tz st -> wf_assignments (assignments st).
Proof.
  induction 1 as [st Hwf | st e _ IH]; [assumption|].
  now apply wf_step.
Qed.

Lemma count_pair_absent (wk pid : string) (a : assignments_t) :
  ~ In wk (keys a) -> count_pair wk pid a = O.
Proof.
  unfold count_pair. induction a as [|[k w] rest IH]; simpl; auto.
  intros H. destruct (String.eqb wk k) eqn:E.
  - apply String.eqb_eq in E. subst. tauto.
  - apply IH. tauto.
Qed.

(** With distinct week keys, the assignments of a pair are those of the
    one week object the key names. *)
Lemma count_pair_lookup (wk pid : string) (a : assignments_t) :
  NoDup (keys a) ->
  count_pair wk pid a
  = match lookup wk a with
    | Some w => count_key pid w
    | None => O
    end.
Proof.
  induction a as [|[k w] rest IH]; simpl; auto.
  intros Hnd. inversion Hnd as [|? ? Hout Hrest]; subst.
  unfold count_pair in *. simpl.
  destruct (String.eqb wk k) eqn:E.
  - apply String.eqb_eq in E. subst k.
    pose proof (count_pair_absent wk pid rest Hout) as Hz.
    unfold count_pair in Hz. rewrite Hz. lia.
  - now apply IH.
Qed.

Lemma wf_count_pair (a : assignments_t) (wk pid : string) :
  wf_assignments a -> (count_pair wk pid a <= 1)%nat.
Proof.
  intros [Hk Hw]. rewrite count_pair_lookup by assumption.
  destruct (lookup wk a) as [w|] eqn:E; [|lia].
  apply count_key_NoDup. eapply wf2_lookup; [split|]; eassumption.
Qed.

Lemma thisWeek_assignFourHours (st : state) :
  selectedPersonId st <> "" -> In (selectedStart st) HOURS ->
  thisWeek (assignFourHours st)
  = set_prop (selectedPersonId st)
      {| entryDay := selectedDay st; entryStart := selectedStart st |}
      (spread [] (thisWeek st)).
Proof.
  intros Hp Hh. unfold assignFourHours.
  apply String.eqb_neq in Hp. rewrite Hp.
  pose proof roster_hours_within_day as HF. rewrite Forall_forall in HF.
  destruct (HF _ Hh) as [_ Hg]. rewrite Hg.
  unfold thisWeek at 1. unfold wkKey. simpl.
  now rewrite lookup_set_prop_same.
Qed.

(** C10: in every state the roster board can reach, a person has at most
    one assignment in a week; [assignFourHours] and [clearAssignment] keep
    it so; and assigning a person who already has an assignment that week
    puts the selected day and start hour in its place, the person still
    having exactly one. *)
Theorem roster_one_assignment_per_person (tz : Z -> Z) (st : state) :
  reachable tz st ->
  (forall wk pid, (count_pair wk pid (assignments st) <= 1)%nat)
  /\ (forall wk pid,
        (count_pair wk pid (assignments (assignFourHours st)) <= 1)%nat)
  /\ (forall p wk pid,
        (count_pair wk pid (assignments (clearAssignment st p)) <= 1)%nat)
  /\ (forall old,
        selectedPersonId st <> "" -> In (selectedStart st) HOURS ->
        lookup (selectedPersonId st) (thisWeek st) = Some old ->
        lookup (selectedPersonId st) (thisWeek (assignFourHours st))
        = Some {| entryDay := selectedDay st; entryStart := selectedStart st |}
        /\ count_pair (wkKey st) (selectedPersonId st)
             (assignments (assignFourHours st)) = 1%nat).
Proof.
  intros Hr. pose proof (wf_reachable tz st Hr) as Hwf.
  split; [|split; [|split]].
  - intros wk pid. now apply wf_count_pair.
  - intros wk pid. now apply wf_count_pair, wf_assignFourHours.
  - intros p wk pid. now apply wf_count_pair, wf_clearAssignment.
  - intros old Hp Hh Hold.
    pose proof (thisWeek_assignFourHours st Hp Hh) as Hweek.
    split.
    + rewrite Hweek. apply lookup_set_prop_same.
    + pose proof (wf_assignFourHours st Hwf) as [Hk' Hw'].
      rewrite count_pair_lookup by assumption.
      assert (Hwk : wkKey (assignFourHours st) = wkKey st).
      { unfold assignFourHours.
        destruct (String.eqb (selectedPersonId st) ""); auto.
        destruct (selectedStart st + 4 >? 24); auto. }
      unfold thisWeek in Hweek. rewrite Hwk in Hweek.
      destruct (lookup (wkKey st) (assignments (assignFourHours st)))
        as [w|] eqn:E.
      * subst w. eapply count_key_lookup.
        -- apply NoDup_keys_set_prop, spread_nil_NoDup.
        -- apply lookup_set_prop_same.
      * symmetry in Hweek. now apply set_prop_not_nil in Hweek.
Qed.
End RosterFacts.

Lemma roster_one_assignment_per_person_witness :
  let st := {| Roster.baseDate := UTC 2025 2 3;
               Roster.people := [];
               Roster.assignments :=
                 [("2025-W10", [("p1", {| Roster.entryDay := 0; Roster.entryStart := 8 |})])];
               Roster.selectedPersonId := "p1";
               Roster.selectedDay := 2;
               Roster.selectedStart := 10 |} in
  lookup "p1" (Roster.thisWeek (Roster.assignFourHours st))
  = Some {| Roster.entryDay := 2; Roster.entryStart := 10 |}
  /\ Roster.count_pair (Roster.wkKey st) "p1"
       (Roster.assignments (Roster.assignFourHours st)) = 1%nat.
Proof.
  intros st.
  assert (Hr : Roster.reachable zoneUTC st).
  { apply Roster.reach_init. split.
    - repeat constructor. intros [].
    - repeat constructor. intros []. }
  refine (proj2 (proj2 (proj2 (roster_one_assignment_per_person zoneUTC st Hr)))
            {| Roster.entryDay := 0; Roster.entryStart := 8 |} _ _ _).
  - discriminate.
  - vm_compute. tauto.
  - vm_compute. reflexivity.
Defined.

(* ================================================================== *)
(** * Listing a week *)
(* ================================================================== *)

(** C7, as stated, fails: the store keeps no two bookings apart but by their
    id, so after the same draft is created twice the week lists two records
    equal to the created one modulo the id. *)
Lemma create_twice_lists_two :
  let ls1 := fst (App.apiCreateLS [] alex_draft 1741000000000 "k3j9x2") in
  let ls2 := fst (App.apiCreateLS ls1 alex_draft 1741000000001 "p0q7zz") in
  exists created,
    snd (App.apiCreateLS ls1 alex_draft 1741000000001 "p0q7zz") = Some created
    /\ count_mod_id created (App.apiGetWeekLS ls2 (get "weekKey" alex_draft)) = 2%nat
    /\ count_mod_id created (App.apiGetWeekLS ls2 (get "weekKey" alex_draft)) <> 1%nat.
Proof.
  eexists. split; [reflexivity|].
  split; [reflexivity | discriminate].
Qed.

(** C7, amended: create(draft) followed by listForWeek(draft.weekKey) lists
    the created record, and the number of listed records equal to it modulo
    the id is one more than the number of such records the week held before
    under other ids: exactly one only when it held none. On localStorage
    this holds from any store; over HTTP when the draft's week key is a
    non-empty string. *)
Theorem create_then_list (body : record) (now : Z) (rnd : string) :
  wf body ->
  (forall ls, wf2 ls ->
     exists created,
       snd (App.apiCreateLS ls body now rnd) = Some created
       /\ count_mod_id created
            (App.apiGetWeekLS (fst (App.apiCreateLS ls body now rnd))
               (get "weekKey" body))
          = S (count_mod_id created
                 (App.apiGetWeekLS (delete_prop (genId now rnd) ls)
                    (get "weekKey" body))))
  /\ (forall c wk now' rnd',
        get "weekKey" body = VStr wk -> wk <> "" ->
        wf (Bookings.week_of c wk) ->
        exists c' created listed,
          App.apiCreateHTTP c body now rnd = (c', Ok (Some created))
          /\ snd (App.apiGetWeekHTTP c' (VStr wk) now' rnd') = Ok listed
          /\ count_mod_id created listed
             = S (count_mod_id created
                    (map json
                       (values (delete_prop (genId now rnd)
                                  (Bookings.week_of c wk)))))).
Proof.
  intros Hbody. split.
  - intros ls Hls. unfold App.apiCreateLS, App.loadAllLS. cbn [fst snd].
    rewrite lookup_set_prop_same. eexists. split; [reflexivity|].
    set (rec := spread [("id", VStr (genId now rnd))] body).
    assert (Hrec : wf rec).
    { apply NoDup_keys_spread. repeat constructor. intros []. }
    unfold count_mod_id.
    rewrite count_listing_ls by (apply wf2_set_prop; assumption).
    rewrite count_values_set_prop by apply Hls.
    unfold rec at 1. rewrite get_spread_id by (auto; discriminate).
    rewrite strict_eq_refl, eq_mod_id_json, eq_mod_id_refl. simpl.
    f_equal. unfold App.apiGetWeekLS, App.loadAllLS.
    rewrite filter_filter_andb. f_equal. apply filter_ext.
    intros r. now rewrite eq_mod_id_json.
  - intros c wk now' rnd' Hwk Hne Hweek.
    rewrite (apiCreateHTTP_ok c body wk now rnd Hbody Hwk Hne).
    eexists. eexists. eexists. split; [reflexivity|].
    rewrite apiGetWeekHTTP_ok;
      [|assumption
       |intros r; now rewrite (cache_get_own _ wk _ (lookup_set_prop_same wk _ _))].
    cbn [snd].
    split; [reflexivity|].
    unfold Bookings.week_of at 1. rewrite lookup_set_prop_same.
    unfold count_mod_id. rewrite !filter_map_comp.
    rewrite count_values_set_prop by apply Hweek.
    rewrite eq_mod_id_refl. reflexivity.
Qed.

Lemma create_then_list_witness :
  count_mod_id (("id", VStr (genId 1741000000000 "k3j9x2")) :: alex_draft)
    (App.apiGetWeekLS
       (fst (App.apiCreateLS [] alex_draft 1741000000000 "k3j9x2"))
       (get "weekKey" alex_draft)) = 1%nat.
Proof.
  assert (Hbody : wf alex_draft).
  { unfold wf, alex_draft, keys. simpl.
    repeat constructor; simpl; intuition discriminate. }
  assert (Hnil : wf2 (@nil (string * record))).
  { split; constructor. }
  destruct (create_then_list alex_draft 1741000000000 "k3j9x2" Hbody) as [Hls _].
  destruct (Hls [] Hnil) as (created & Hc & Hn).
  injection Hc as <-. exact Hn.
Defined.

(* ================================================================== *)
(** * One booking per person and week *)
(* ================================================================== *)

Lemma days_nth (b : App.board) (i : nat) :
  (i < 7)%nat ->
  nth_error (App.days b) i = Some (App.addDays (App.baseDate b) (Z.of_nat i)).
Proof.
  intros Hi. unfold App.days.
  do 7 (destruct i as [|i]; [reflexivity|]). lia.
Qed.

Lemma existsb_filter_length {A : Type} (f : A -> bool) (l : list A) :
  (0 < List.length (filter f l))%nat -> existsb f l = true.
Proof.
  induction l as [|x rest IH]; simpl; [lia|].
  destruct (f x); simpl; auto.
Qed.

Lemma filter_delete_prop_le {V : Type} (P : V -> bool) (k : string) (o : obj V) :
  (List.length (filter P (values (delete_prop k o)))
   <= List.length (filter P (values o)))%nat.
Proof.
  unfold values. induction o as [|[k' v] rest IH]; simpl; auto.
  destruct (String.eqb k k'); simpl; destruct (P v); simpl; lia.
Qed.

(** The check in [submit]: a name that trims to a title the loaded bookings
    already hold is turned down with the message, and no function of the
    backend is called; the outcome is the same whatever the backend is. *)
Lemma submit_rejects_duplicate {S : Type} (API : App.api S) (tz : Z -> Z)
    (s : S) (b : App.board) now1 rnd1 now2 rnd2 :
  trim (App.name b) <> "" ->
  existsb (fun r => strict_eq (get "title" r) (VStr (trim (App.name b))))
    (App.bookings b) = true ->
  App.submit API tz (s, b) now1 rnd1 now2 rnd2
  = (s, App.setError b App.msg_duplicate).
Proof.
  intros Hne Hdup. apply String.eqb_neq in Hne.
  unfold App.submit. rewrite Hne, Hdup. reflexivity.
Qed.

Lemma create_ls_eq ls body now rnd :
  App.create App.API_LS ls body now rnd
  = (fst (App.apiCreateLS ls body now rnd),
     Ok (snd (App.apiCreateLS ls body now rnd))).
Proof. reflexivity. Qed.

Lemma weekKey_setError b e : App.weekKey (App.setError b e) = App.weekKey b.
Proof. unfold App.weekKey. reflexivity. Qed.
Lemma weekKey_setLoading b e : App.weekKey (App.setLoading b e) = App.weekKey b.
Proof. unfold App.weekKey. reflexivity. Qed.
Lemma weekKey_setName b e : App.weekKey (App.setName b e) = App.weekKey b.
Proof. unfold App.weekKey. reflexivity. Qed.
Lemma weekKey_setBookings b e : App.weekKey (App.setBookings b e) = App.weekKey b.
Proof. unfold App.weekKey. reflexivity. Qed.

Lemma load_ls_eq ls b now rnd :
  App.load App.API_LS (ls, b) now rnd
  = (ls,
     App.setLoading
       (App.setBookings (App.setError (App.setLoading b true) "")
          (App.apiGetWeekLS ls (VStr (App.weekKey b))))
       false).
Proof.
  unfold App.load. cbn [App.getWeek App.API_LS].
  rewrite weekKey_setError, weekKey_setLoading. reflexivity.
Qed.

(** An accepted submission on localStorage: the draft is created and the
    week is listed again. *)
Lemma submit_accepts_ls (tz : Z -> Z) (ls : App.storage) (b : App.board)
    now1 rnd1 now2 rnd2 :
  trim (App.name b) <> "" ->
  existsb (fun r => strict_eq (get "title" r) (VStr (trim (App.name b))))
    (App.bookings b) = false ->
  (App.dayIndex b < 7)%nat ->
  let d := App.addDays (App.baseDate b) (Z.of_nat (App.dayIndex b)) in
  let ls1 := fst (App.apiCreateLS ls (App.draft tz b (trim (App.name b)) d) now1 rnd1) in
  App.submit App.API_LS tz (ls, b) now1 rnd1 now2 rnd2
  = (ls1,
     App.setLoading
       (App.setBookings
          (App.setError (App.setLoading (App.setName b "") true) "")
          (App.apiGetWeekLS ls1 (VStr (App.weekKey b))))
       false).
Proof.
  intros Hne Hdup Hi d ls1. apply String.eqb_neq in Hne.
  unfold App.submit. rewrite Hne, Hdup, (days_nth b _ Hi).
  rewrite andb_false_r, create_ls_eq. cbv iota beta.
  rewrite load_ls_eq, weekKey_setName. reflexivity.
Qed.

(** After a draft for title [t] is created in a week that held no booking
    of [t], the week holds exactly one. *)
Lemma count_title_after_create (tz : Z -> Z) (ls : App.storage) (b : App.board)
    (t : string) (d now : Z) (rnd : string) :
  wf2 ls ->
  count_title t (App.apiGetWeekLS ls (VStr (App.weekKey b))) = 0%nat ->
  count_title t
    (App.apiGetWeekLS (fst (App.apiCreateLS ls (App.draft tz b t d) now rnd))
       (VStr (App.weekKey b))) = 1%nat.
Proof.
  intros Hwf Hzero. unfold App.apiCreateLS, App.loadAllLS. cbn [fst].
  set (rec := spread [("id", VStr (genId now rnd))] (App.draft tz b t d)).
  assert (Hrec : rec = App.draft tz b t d) by reflexivity.
  assert (Hwrec : wf rec).
  { apply NoDup_keys_spread. repeat constructor. intros []. }
  unfold count_title in *.
  rewrite count_listing_ls by (apply wf2_set_prop; assumption).
  rewrite count_values_set_prop by apply Hwf.
  assert (Hnew : strict_eq (get "weekKey" rec) (VStr (App.weekKey b))
                 && strict_eq (get "title" (json rec)) (VStr t) = true).
  { rewrite Hrec. unfold App.draft.
    generalize (App.weekKey b) (toISOString (App.dayInstant tz d)).
    intros wkS iso. simpl. now rewrite !String.eqb_refl. }
  rewrite Hnew.
  pose proof (filter_delete_prop_le
                (fun r => strict_eq (get "weekKey" r) (VStr (App.weekKey b))
                          && strict_eq (get "title" (json r)) (VStr t))
                (genId now rnd) ls) as Hle.
  assert (Hold : List.length
            (filter (fun r => strict_eq (get "weekKey" r) (VStr (App.weekKey b))
                              && strict_eq (get "title" (json r)) (VStr t))
               (values ls)) = 0%nat).
  { rewrite <- Hzero. unfold App.apiGetWeekLS, App.loadAllLS.
    rewrite filter_filter_andb. f_equal. destruct Hwf as [_ Hw].
    unfold values. clear - Hw.
    induction ls as [|[k r] rest IH]; simpl; auto.
    inversion Hw; subst. simpl in *.
    rewrite get_json by assumption. now rewrite IH. }
  lia.
Qed.

(** Two submissions one right after the other, with nothing in between:
    when a person with no booking in the displayed week submits one and
    then submits again under the same title, the second submission is
    turned down with the validation message, without a call to the store
    (the outcome is the same on any backend and leaves it as it was), and
    the store holds exactly one booking of that title for the week
    afterwards. *)
Lemma second_submission_rejected (tz : Z -> Z) (ls : App.storage)
    (b : App.board) (t name2 : string)
    now1 rnd1 now2 rnd2 now3 rnd3 now4 rnd4 :
  wf2 ls ->
  trim (App.name b) = t -> t <> "" -> trim name2 = t ->
  (App.dayIndex b < 7)%nat ->
  existsb (fun r => strict_eq (get "title" r) (VStr t)) (App.bookings b) = false ->
  count_title t (App.apiGetWeekLS ls (VStr (App.weekKey b))) = 0%nat ->
  let w1 := App.submit App.API_LS tz (ls, b) now1 rnd1 now2 rnd2 in
  let b1 := App.setName (snd w1) name2 in
  let w2 := App.submit App.API_LS tz (fst w1, b1) now3 rnd3 now4 rnd4 in
  App.weekKey b1 = App.weekKey b
  /\ count_title t (App.apiGetWeekLS (fst w1) (VStr (App.weekKey b))) = 1%nat
  /\ w2 = (fst w1, App.setError b1 App.msg_duplicate)
  /\ (forall (S : Type) (API : App.api S) (s : S),
        App.submit API tz (s, b1) now3 rnd3 now4 rnd4
        = (s, App.setError b1 App.msg_duplicate))
  /\ App.error (snd w2) = App.msg_duplicate
  /\ count_title t (App.apiGetWeekLS (fst w2) (VStr (App.weekKey b))) = 1%nat.
Proof.
  intros Hwf Ht Hne Ht2 Hi Hfresh Hzero w1 b1 w2.
  assert (Hw1 : w1 = _) by
    (apply submit_accepts_ls; rewrite ?Ht; assumption).
  cbv zeta in Hw1. rewrite Ht in Hw1.
  set (d := App.addDays (App.baseDate b) (Z.of_nat (App.dayIndex b))) in *.
  set (ls1 := fst (App.apiCreateLS ls (App.draft tz b t d) now1 rnd1)) in *.
  assert (Hone : count_title t (App.apiGetWeekLS ls1 (VStr (App.weekKey b))) = 1%nat)
    by (apply count_title_after_create; assumption).
  assert (Hrej : forall (S : Type) (API : App.api S) (s : S),
             App.submit API tz (s, b1) now3 rnd3 now4 rnd4
             = (s, App.setError b1 App.msg_duplicate)).
  { intros S API s. apply submit_rejects_duplicate.
    - unfold b1. simpl. now rewrite Ht2.
    - unfold b1. rewrite Hw1. simpl. rewrite Ht2.
      apply existsb_filter_length. unfold count_title in Hone.
      rewrite Hone. lia. }
  assert (Hw2 : w2 = (fst w1, App.setError b1 App.msg_duplicate))
    by (unfold w2; exact (Hrej _ App.API_LS (fst w1))).
  split.
  { unfold b1. rewrite Hw1. cbn [snd].
    now rewrite weekKey_setName, weekKey_setLoading, weekKey_setBookings,
      weekKey_setError, weekKey_setLoading, weekKey_setName. }
  split; [rewrite Hw1; exact Hone|].
  split; [exact Hw2|].
  split; [exact Hrej|].
  split; [rewrite Hw2; reflexivity|].
  rewrite Hw2, Hw1. exact Hone.
Qed.

Lemma second_submission_rejected_witness :
  let w1 := App.submit App.API_LS zoneUTC ([], march_board "  Alex " 0 8)
              1741000000000 "k3j9x2" 1741000000001 "" in
  let b1 := App.setName (snd w1) "Alex" in
  App.submit App.API_LS zoneUTC (fst w1, b1) 1741000000002 "p0q7zz" 1741000000003 ""
  = (fst w1, App.setError b1 App.msg_duplicate).
Proof.
  refine (proj1 (proj2 (proj2
    (second_submission_rejected zoneUTC [] (march_board "  Alex " 0 8)
       "Alex" "Alex" 1741000000000 "k3j9x2" 1741000000001 ""
       1741000000002 "p0q7zz" 1741000000003 "" _ _ _ _ _ _ _)))).
  - split; constructor.
  - vm_compute. reflexivity.
  - discriminate.
  - vm_compute. reflexivity.
  - simpl. lia.
  - reflexivity.
  - vm_compute. reflexivity.
Defined.

(** C5 fails for the board of App.jsx. The refresh timer keeps the [load]
    of the first render, which lists the week the board opened on. A board
    opened in week 2025-W10 and moved to 2025-W11 takes a booking of Alex
    for 2025-W11; at the next tick of the timer the loaded bookings are
    those of 2025-W10, none; the one-per-week check of [submit] looks at the
    loaded bookings, so a second submission of Alex for 2025-W11 is taken:
    no error is shown, the store is called, and it holds two bookings of
    Alex for 2025-W11. *)
Theorem second_submission_accepted_after_refresh :
  let clock := UTC 2025 2 5 + 12 * 3600000 in
  let opened := App.weekKey (App.initBoard zoneUTC clock) in
  let step := App.act App.API_LS zoneUTC opened in
  let w0 := App.load App.API_LS ([], App.initBoard zoneUTC clock) 0 "" in
  let w1 := step (step (step w0 (App.Next 0 "")) (App.TypeName "Alex"))
              (App.Submit 1741000000000 "k3j9x2" 0 "") in
  let w2 := step w1 (App.Tick 0 "") in
  let w3 := step (step w2 (App.TypeName "Alex"))
              (App.Submit 1741000060000 "p0q7zz" 0 "") in
  App.reachable App.API_LS zoneUTC clock w3
  /\ opened = "2025-W10"
  /\ App.weekKey (snd w1) = "2025-W11"
  /\ count_title "Alex" (App.apiGetWeekLS (fst w1) (VStr "2025-W11")) = 1%nat
  /\ fst w2 = fst w1
  /\ App.weekKey (snd w2) = "2025-W11"
  /\ App.bookings (snd w2) = []
  /\ App.weekKey (snd w3) = "2025-W11"
  /\ App.error (snd w3) = ""
  /\ fst w3 <> fst w2
  /\ count_title "Alex" (App.apiGetWeekLS (fst w3) (VStr "2025-W11")) = 2%nat.
Proof.
  intros clock opened step w0 w1 w2 w3. split.
  - unfold w3, w2, w1, w0, step, opened.
    repeat (apply App.reach_act; [|exact I]). apply App.reach_open.
  - split; [vm_compute; reflexivity|].
    split; [vm_compute; reflexivity|].
    split; [vm_compute; reflexivity|].
    split; [vm_compute; reflexivity|].
    split; [vm_compute; reflexivity|].
    split; [vm_compute; reflexivity|].
    split; [vm_compute; reflexivity|].
    split; [vm_compute; reflexivity|].
    split; [vm_compute; discriminate|].
    vm_compute; reflexivity.
Qed.

(* ================================================================== *)
(** * The two backends on list and create *)
(* ================================================================== *)

Lemma saveAllLS_clean (ls : obj record) :
  Forall (fun kv => json (snd kv) = snd kv) ls -> App.saveAllLS ls = ls.
Proof.
  unfold App.saveAllLS. induction 1 as [|[k r] rest Hr _ IH]; simpl; auto.
  simpl in Hr. now rewrite Hr, IH.
Qed.

Lemma map_json_clean (l : list record) :
  Forall (fun r => json r = r) l -> map json l = l.
Proof.
  induction 1 as [|r rest Hr _ IH]; simpl; auto. now rewrite Hr, IH.
Qed.

Lemma listing_clean (ls : obj record) (wk : value) :
  Forall (fun kv => json (snd kv) = snd kv) ls ->
  Forall (fun r => json r = r) (App.apiGetWeekLS ls wk).
Proof.
  intros H. unfold App.apiGetWeekLS, App.loadAllLS, values.
  induction H as [|[k r] rest Hr _ IH]; simpl; auto.
  destruct (strict_eq (get "weekKey" r) wk); auto.
Qed.

Lemma week_of_ensure_week_any c wk wk' :
  Bookings.week_of (Bookings.ensure_week c wk) wk' = Bookings.week_of c wk'.
Proof.
  destruct (string_dec wk wk') as [<- | Hne]; [apply week_of_ensure_week|].
  unfold Bookings.ensure_week, Bookings.week_of.
  destruct (Bookings.cache_get c wk); try reflexivity.
  now rewrite lookup_set_prop_other.
Qed.

Lemma plain_ensure_week c wk :
  Bookings.plain c -> Bookings.plain (Bookings.ensure_week c wk).
Proof.
  unfold Bookings.plain, Bookings.proto. now rewrite week_of_ensure_week_any.
Qed.

Lemma plain_store c wk id r :
  wk <> "__proto__" -> Bookings.plain c -> Bookings.plain (Bookings.store c wk id r).
Proof.
  intros Hne. unfold Bookings.plain, Bookings.proto, Bookings.store.
  now rewrite week_of_set_prop_other.
Qed.

(** The record both backends build for a contract draft. *)
Lemma contract_record (body : record) (id : string) :
  contract_draft body ->
  spread [("id", VStr id)] body = ("id", VStr id) :: body
  /\ json (("id", VStr id) :: body) = ("id", VStr id) :: body.
Proof.
  intros (Hwf & Hid & Hclean & _). split.
  - apply (spread_disjoint [("id", VStr id)] body).
    simpl. constructor; assumption.
  - unfold json in *. simpl. now rewrite Hclean.
Qed.

Lemma create_ls_contract ls body now rnd :
  contract_draft body ->
  Forall (fun kv => json (snd kv) = snd kv) ls ->
  ~ In (genId now rnd) (keys ls) ->
  App.apiCreateLS ls body now rnd
  = ((ls ++ [(genId now rnd, ("id", VStr (genId now rnd)) :: body)])%list,
     Some (("id", VStr (genId now rnd)) :: body)).
Proof.
  intros Hd Hclean Hfresh.
  destruct (contract_record body (genId now rnd) Hd) as [Hrec Hjson].
  unfold App.apiCreateLS, App.loadAllLS.
  rewrite Hrec, lookup_set_prop_same, keys_set_prop_not_In by assumption.
  f_equal. apply saveAllLS_clean.
  apply Forall_app. split; [assumption|]. now repeat constructor.
Qed.

Lemma create_http_contract c body wk now rnd :
  contract_draft body -> get "weekKey" body = VStr wk -> wk <> "" ->
  ~ In (genId now rnd) (keys (Bookings.week_of c wk)) ->
  App.apiCreateHTTP c body now rnd
  = (set_prop wk
       (Bookings.week_of c wk
        ++ [(genId now rnd, ("id", VStr (genId now rnd)) :: body)])%list
       (Bookings.ensure_week c wk),
     Ok (Some (("id", VStr (genId now rnd)) :: body))).
Proof.
  intros Hd Hwk Hne Hfresh.
  destruct (contract_record body (genId now rnd) Hd) as [Hrec Hjson].
  destruct Hd as (Hwf & _ & Hclean & _).
  rewrite (apiCreateHTTP_ok c body wk now rnd Hwf Hwk Hne).
  rewrite Hclean, Hrec, Hjson.
  now rewrite (keys_set_prop_not_In (genId now rnd)) by assumption.
Qed.

Lemma same_bookings_list ls c wk :
  same_bookings ls c -> same_bookings ls (Bookings.ensure_week c wk).
Proof.
  intros (H1 & H2 & H3 & H4 & H5). repeat split; auto.
  - intros wk' Hne. rewrite week_of_ensure_week_any. auto.
  - intros wk' k. rewrite week_of_ensure_week_any. apply H4.
  - now apply plain_ensure_week.
Qed.

Lemma same_bookings_create ls c body wk id :
  same_bookings ls c ->
  contract_draft body -> get "weekKey" body = VStr wk -> wk <> "" ->
  wk <> "__proto__" ->
  ~ In id (keys ls) ->
  same_bookings
    (ls ++ [(id, ("id", VStr id) :: body)])%list
    (set_prop wk (Bookings.week_of c wk ++ [(id, ("id", VStr id) :: body)])%list
       (Bookings.ensure_week c wk)).
Proof.
  intros (H1 & H2 & H3 & H4 & H5) Hd Hwk Hne Hproto Hfresh.
  destruct (contract_record body id Hd) as [_ Hjson].
  split; [|split; [|split; [|split]]].
  - unfold wf, keys in *. rewrite map_app. simpl. apply NoDup_app; auto.
    + repeat constructor. intros [].
    + intros x Hx [<- | []]. auto.
  - apply Forall_app. split; [assumption|]. now repeat constructor.
  - intros wk' Hne'.
    assert (Hl : App.apiGetWeekLS (ls ++ [(id, ("id", VStr id) :: body)])%list (VStr wk')
                 = (App.apiGetWeekLS ls (VStr wk')
                    ++ (if String.eqb wk wk' then [("id", VStr id) :: body] else []))%list).
    { unfold App.apiGetWeekLS, App.loadAllLS, values.
      rewrite map_app, filter_app. f_equal.
      cbn [map filter snd]. unfold get at 1. cbn [lookup].
      change (String.eqb "weekKey" "id") with false. cbv iota.
      fold (get "weekKey" body). rewrite Hwk. reflexivity. }
    rewrite Hl, (H3 wk' Hne').
    unfold Bookings.week_of at 2.
    destruct (String.eqb wk wk') eqn:E.
    + apply String.eqb_eq in E. subst wk'.
      rewrite lookup_set_prop_same. unfold values. now rewrite map_app.
    + apply String.eqb_neq in E.
      rewrite lookup_set_prop_other by assumption.
      fold (Bookings.week_of (Bookings.ensure_week c wk) wk').
      rewrite week_of_ensure_week_any. now rewrite app_nil_r.
  - intros wk' k. unfold Bookings.week_of at 1.
    destruct (string_dec wk wk') as [<- | E].
    + rewrite lookup_set_prop_same. unfold keys. rewrite !map_app.
      intros Hin. apply in_app_or in Hin. apply in_or_app.
      destruct Hin as [Hin | Hin]; [left | right; exact Hin].
      exact (H4 wk k Hin).
    + rewrite lookup_set_prop_other by assumption.
      fold (Bookings.week_of (Bookings.ensure_week c wk) wk').
      rewrite week_of_ensure_week_any. intros Hin.
      unfold keys. rewrite map_app. apply in_or_app. left.
      exact (H4 wk' k Hin).
  - unfold Bookings.plain, Bookings.proto.
    rewrite week_of_set_prop_other by assumption.
    rewrite week_of_ensure_week_any. exact H5.
Qed.

(** From stores that hold the same bookings, list and create operations
    with fresh ids are seen alike on the two backends. *)
Lemma run_same_bookings (ops : list op) :
  forall ls c,
    same_bookings ls c ->
    Forall op_ok ops -> NoDup (op_ids ops) ->
    (forall id, In id (op_ids ops) -> ~ In id (keys ls)) ->
    run App.API_LS ls ops = run App.API_HTTP c ops.
Proof.
  induction ops as [|o rest IH]; intros ls c HR Hok Hnd Hfresh; [reflexivity|].
  inversion Hok as [|? ? Ho Hrest]; subst.
  destruct o as [wk | body now rnd].
  - destruct Ho as [_ Ho]. cbn [run App.getWeek App.API_LS App.API_HTTP].
    destruct HR as (H1 & H2 & H3 & H4 & H5).
    rewrite apiGetWeekHTTP_ok;
      [|assumption | intros r; now apply cache_get_plain].
    rewrite <- (H3 wk Ho), map_json_clean by now apply listing_clean.
    f_equal. apply IH; auto.
    apply same_bookings_list. repeat split; assumption.
  - destruct Ho as [Hproto Ho]. cbn [op_weekKey] in Hproto.
    destruct Ho as (Hwf & Hid & Hclean & wk & Hwk & Hne).
    assert (Hd : contract_draft body) by (repeat split; eauto).
    assert (Hp : wk <> "__proto__").
    { intros ->. now apply Hproto. }
    cbn [op_ids flat_map] in Hnd, Hfresh. simpl in Hnd, Hfresh.
    inversion Hnd as [|? ? Hnew Hnd']; subst.
    assert (Hf : ~ In (genId now rnd) (keys ls)) by (apply Hfresh; now left).
    pose proof HR as (H1 & H2 & H3 & H4 & H5).
    assert (Hfc : ~ In (genId now rnd) (keys (Bookings.week_of c wk))).
    { intros Hin. apply Hf. exact (H4 wk _ Hin). }
    cbn [run App.create App.API_LS App.API_HTTP].
    rewrite (create_ls_contract ls body now rnd Hd H2 Hf).
    rewrite (create_http_contract c body wk now rnd Hd Hwk Hne Hfc).
    f_equal. apply IH; auto.
    + now apply same_bookings_create.
    + intros id Hin. unfold keys. rewrite map_app. simpl.
      intros Hin'. apply in_app_or in Hin'. destruct Hin' as [Hin' | [<- | []]].
      * exact (Hfresh id (or_intror Hin) Hin').
      * exact (Hnew Hin).
Qed.

Lemma same_bookings_empty : same_bookings [] [].
Proof.
  split; [constructor|]. split; [constructor|]. split; [reflexivity|].
  split; [intros wk k []|reflexivity].
Qed.

(** C2, as stated, fails where the two stores differ by construction.
    Listing the week whose key is the empty string gives the empty list on
    localStorage and a thrown 400 error over HTTP, where the handler turns
    down a request without a week key. And when a create draws the id of a
    booking of another week, the flat local store replaces that booking
    while the cache, kept week by week, still lists it. *)
Lemma backends_differ_by_design :
  let empty_key := [OpList ""] in
  let same_id := [OpCreate alex_draft 1741000000000 "k3j9x2";
                  OpCreate alex_draft_next 1741000000000 "k3j9x2";
                  OpList "2025-W10"] in
  run App.API_LS [] empty_key = [Listed (Ok [])]
  /\ run App.API_HTTP [] empty_key = [Listed (Throw missing_weekKey)]
  /\ run App.API_LS [] empty_key <> run App.API_HTTP [] empty_key
  /\ last (run App.API_LS [] same_id) (Listed (Ok [])) = Listed (Ok [])
  /\ last (run App.API_HTTP [] same_id) (Listed (Ok []))
     = Listed (Ok [("id", VStr "b_1741000000000_k3j9x2") :: alex_draft])
  /\ run App.API_LS [] same_id <> run App.API_HTTP [] same_id.
Proof.
  cbv zeta.
  split; [reflexivity|]. split; [reflexivity|]. split; [discriminate|].
  split; [vm_compute; reflexivity|]. split; [vm_compute; reflexivity|].
  vm_compute. discriminate.
Qed.

(** The week key [__proto__] sets the backends apart as well. The handler
    finds Object.prototype under it and stores the record there, where
    [cache] then finds it under the name of its id: listing the week named
    by the id gives the six values of the record over HTTP (the client
    keeps them as items without properties) and nothing on localStorage. *)
Lemma backends_differ_on_proto :
  let id := genId 1741000000000 "k3j9x2" in
  let post := {| Bookings.method := "POST"; Bookings.query := [];
                 Bookings.body := Some proto_draft |} in
  let list := {| Bookings.method := "GET";
                 Bookings.query := [("weekKey", VStr id)];
                 Bookings.body := None |} in
  let c := fst (Bookings.handler [] post 1741000000000 "k3j9x2") in
  let ops := [OpCreate proto_draft 1741000000000 "k3j9x2"; OpList id] in
  Bookings.cache_get c id = Bookings.Inherited (("id", VStr id) :: proto_draft)
  /\ Bookings.handler c list 0 ""
     = (c, {| Bookings.status := 200; Bookings.headers := [];
              Bookings.sent :=
                Bookings.JsonValues (VStr id :: values proto_draft) |})
  /\ last (run App.API_LS [] ops) (Listed (Ok [])) = Listed (Ok [])
  /\ last (run App.API_HTTP [] ops) (Listed (Ok []))
     = Listed (Ok [[]; []; []; []; []; []])
  /\ run App.API_LS [] ops <> run App.API_HTTP [] ops.
Proof.
  cbv zeta.
  split; [vm_compute; reflexivity|]. split; [vm_compute; reflexivity|].
  split; [vm_compute; reflexivity|]. split; [vm_compute; reflexivity|].
  vm_compute. discriminate.
Qed.

(** C2, amended: for every sequence of listForWeek and create operations in
    which each week key is a non-empty string other than [__proto__], each
    draft has distinct and defined properties and no id, and the generated
    ids are pairwise distinct, the localStorage variant and the HTTP
    variant, started from empty stores, give the caller identical results
    and listings. *)
Theorem backends_agree_on_list_create (ops : list op) :
  Forall op_ok ops -> NoDup (op_ids ops) ->
  run App.API_LS [] ops = run App.API_HTTP [] ops.
Proof.
  intros Hok Hnd. apply run_same_bookings; auto.
  apply same_bookings_empty.
Qed.

Lemma backends_agree_on_list_create_witness :
  let ops := [OpCreate alex_draft 1741000000000 "k3j9x2";
              OpList "2025-W10";
              OpCreate alex_draft 1741000000001 "p0q7zz";
              OpList "2025-W10";
              OpList "2025-W11"] in
  run App.API_LS [] ops = run App.API_HTTP [] ops.
Proof.
  intros ops. apply backends_agree_on_list_create.
  - assert (Hd : contract_draft alex_draft).
    { split; [|split; [|split]].
      - unfold wf, alex_draft, keys. simpl.
        repeat constructor; simpl; intuition discriminate.
      - unfold alex_draft, keys. simpl. intuition discriminate.
      - reflexivity.
      - exists "2025-W10". split; [reflexivity | discriminate]. }
    assert (Hc : forall now rnd, op_ok (OpCreate alex_draft now rnd)).
    { intros now rnd. split; [discriminate | exact Hd]. }
    unfold ops.
    apply Forall_cons; [apply Hc|].
    apply Forall_cons; [split; discriminate|].
    apply Forall_cons; [apply Hc|].
    apply Forall_cons; [split; discriminate|].
    apply Forall_cons; [split; discriminate|].
    apply Forall_nil.
  - vm_compute. repeat constructor; simpl; intuition discriminate.
Defined.

(* ================================================================== *)
(** * More on the week key *)
(* ================================================================== *)

Lemma YearFromDay_lower (n : Z) : -365 <= n -> 1969 <= YearFromDay n.
Proof.
  intros Hn. destruct (YearFromDay_spec n) as [_ Hup].
  destruct (Z_lt_le_dec (YearFromDay n) 1969) as [Hlt | Hge]; [|assumption].
  pose proof (DayFromYear_mono (YearFromDay n + 1) 1969 ltac:(lia)) as Hm.
  change (DayFromYear 1969) with (-365) in Hm. lia.
Qed.

Lemma DayFromYear_next (y : Z) :
  DayFromYear y + 365 <= DayFromYear (y + 1) <= DayFromYear y + 366.
Proof. unfold DayFromYear. split; Z.div_mod_to_equations; lia. Qed.

(** [Date.UTC(y, 0, 4)]: the 4th of January. *)
Lemma UTC_jan4 (y : Z) :
  ~ (0 <= y <= 99) -> UTC y 0 4 = (DayFromYear y + 3) * msPerDay.
Proof.
  intros Hy. unfold UTC.
  destruct ((0 <=? y) && (y <=? 99)) eqn:E.
  - apply andb_prop in E as [E1 E2]. apply Z.leb_le in E1, E2. tauto.
  - unfold MakeDate, MakeDay.
    change (0 / 12) with 0. change (0 mod 12) with 0.
    replace (y + 0) with y by lia. unfold monthStart, msPerDay.
    destruct (leap y); lia.
Qed.

Lemma isoThursday_lower (d : Z) : 0 <= d -> -3 <= isoThursday d.
Proof.
  intros Hd. destruct (isoThursday_spec d) as (_ & H & _).
  assert (0 <= Day d) by (unfold Day, msPerDay; Z.div_mod_to_equations; lia).
  lia.
Qed.

(** The week number both week-key functions compute from a Thursday [T]
    (a day number) of the year that starts on day [D]. *)
Lemma week_number_of_thursday (T D : Z) :
  (T + 4) mod 7 = 4 -> D <= T < D + 366 ->
  let n := 1 + round_div (((T * msPerDay - (D + 3) * msPerDay) / 86400000 - 3
                           + Z.rem (getUTCDay ((D + 3) * msPerDay) + 6) 7)) 7 in
  1 <= n <= 53 /\ D <= T - 7 * (n - 1) < D + 7.
Proof.
  intros Hthu Hyear n. subst n.
  unfold getUTCDay, WeekDay. rewrite Day_midnight.
  assert (Hw : 0 <= (D + 3 + 4) mod 7 <= 6) by (Z.div_mod_to_equations; lia).
  rewrite Z.rem_mod_nonneg by lia.
  unfold round_div, msPerDay.
  replace ((T * 86400000 - (D + 3) * 86400000) / 86400000) with (T - (D + 3))
    by (Z.div_mod_to_equations; lia).
  Z.div_mod_to_equations. lia.
Qed.

(** Both week-key functions, from the epoch on: the week number they share
    and the year each prints. *)
Lemma week_keys (d : Z) :
  0 <= d ->
  exists n,
    1 <= n <= 53
    /\ DayFromYear (isoWeekYear d) <= isoThursday d - 7 * (n - 1)
       < DayFromYear (isoWeekYear d) + 7
    /\ App.weekKeyFromDate d
       = string_of_Z (isoWeekYear d) ++ "-W" ++ padStart (string_of_Z n) 2 "0"
    /\ Roster.weekKey d
       = string_of_Z (getUTCFullYear d) ++ "-W" ++ padStart (string_of_Z n) 2 "0".
Proof.
  intros Hd.
  assert (Hy : ~ (0 <= YearFromTime d <= 99))
    by (pose proof (YearFromTime_epoch d Hd); lia).
  assert (HY : ~ (0 <= isoWeekYear d <= 99)).
  { pose proof (isoThursday_lower d Hd).
    pose proof (YearFromDay_lower (isoThursday d) ltac:(lia)).
    unfold isoWeekYear. lia. }
  assert (Hyr : getUTCFullYear (isoThursday d * msPerDay) = isoWeekYear d).
  { unfold getUTCFullYear, YearFromTime, isoWeekYear. now rewrite Day_midnight. }
  assert (Hthu : (isoThursday d + 4) mod 7 = 4).
  { destruct (isoThursday_spec d) as (H & _). unfold WeekDay in H.
    now rewrite Day_midnight in H. }
  assert (Hin : DayFromYear (isoWeekYear d) <= isoThursday d
                < DayFromYear (isoWeekYear d) + 366).
  { pose proof (YearFromDay_spec (isoThursday d)) as Hs.
    pose proof (DayFromYear_next (isoWeekYear d)) as Hn.
    unfold isoWeekYear in *. lia. }
  pose proof (week_number_of_thursday _ _ Hthu Hin) as Hn. cbv zeta in Hn.
  eexists. split; [exact (proj1 Hn)|]. split; [exact (proj2 Hn)|].
  split.
  - unfold App.weekKeyFromDate. rewrite (week_target d Hy), !Hyr.
    now rewrite (UTC_jan4 _ HY).
  - unfold Roster.weekKey. rewrite (week_target d Hy), !Hyr.
    now rewrite (UTC_jan4 _ HY).
Qed.

(** X1. From the epoch on, the key of [weekKeyFromDate] is the ISO
    week-year, "-W", and a two-character week number from 1 to 53; going
    back that many weeks less one from the Thursday of the date's week lands
    in the first seven days of the week-year, so week 1 is the week of the
    year's first Thursday. *)
Theorem weekKeyFromDate_week_number (d : Z) :
  0 <= d ->
  exists n,
    1 <= n <= 53
    /\ DayFromYear (isoWeekYear d) <= isoThursday d - 7 * (n - 1)
       < DayFromYear (isoWeekYear d) + 7
    /\ App.weekKeyFromDate d
       = string_of_Z (isoWeekYear d) ++ "-W" ++ padStart (string_of_Z n) 2 "0".
Proof.
  intros Hd. destruct (week_keys d Hd) as (n & H1 & H2 & H3 & _).
  exists n. auto.
Qed.

Lemma weekKeyFromDate_week_number_witness :
  exists n,
    1 <= n <= 53
    /\ App.weekKeyFromDate (UTC 2024 11 30)
       = string_of_Z (isoWeekYear (UTC 2024 11 30)) ++ "-W"
         ++ padStart (string_of_Z n) 2 "0".
Proof.
  assert (H : 0 <= UTC 2024 11 30) by (vm_compute; discriminate).
  destruct (weekKeyFromDate_week_number (UTC 2024 11 30) H) as (n & H1 & _ & H3).
  exists n. split; assumption.
Defined.

(** X2. From the epoch on, the roster board's [weekKey] and
    [weekKeyFromDate] print the same week number and differ in the year
    only: [weekKey] prints the date's own year. They give the same key
    whenever that year is the ISO week-year. *)
Theorem roster_weekKey_same_week_number (d : Z) :
  0 <= d ->
  (exists ww,
     App.weekKeyFromDate d = string_of_Z (isoWeekYear d) ++ "-W" ++ ww
     /\ Roster.weekKey d = string_of_Z (getUTCFullYear d) ++ "-W" ++ ww)
  /\ (getUTCFullYear d = isoWeekYear d ->
      Roster.weekKey d = App.weekKeyFromDate d).
Proof.
  intros Hd. destruct (week_keys d Hd) as (n & _ & _ & H3 & H4). split.
  - eexists. split; eassumption.
  - intros Heq. now rewrite H3, H4, Heq.
Qed.

Lemma roster_weekKey_same_week_number_witness :
  Roster.weekKey (UTC 2025 2 5) = App.weekKeyFromDate (UTC 2025 2 5).
Proof.
  assert (H : 0 <= UTC 2025 2 5) by (vm_compute; discriminate).
  apply (proj2 (roster_weekKey_same_week_number (UTC 2025 2 5) H)).
  vm_compute. reflexivity.
Defined.

(* ================================================================== *)
(** * The start of the week and its seven days *)
(* ================================================================== *)

Lemma UTC_midnight (y m d : Z) :
  TimeWithinDay (UTC y m d) = 0 /\ Day (UTC y m d) * msPerDay = UTC y m d.
Proof.
  unfold UTC, MakeDate. rewrite Z.add_0_r.
  set (n := MakeDay _ m d). unfold TimeWithinDay, Day, msPerDay.
  split; Z.div_mod_to_equations; lia.
Qed.

Lemma setUTCDate_back (t k : Z) :
  setUTCDate t (getUTCDate t - k) = t - k * msPerDay.
Proof.
  replace (getUTCDate t - k) with (getUTCDate t + - k) by lia.
  rewrite setUTCDate_shift. lia.
Qed.

(** The Monday both boards move a UTC midnight [x] back to. *)
Lemma monday_of_midnight (x : Z) :
  TimeWithinDay x = 0 ->
  let day := if getUTCDay x =? 0 then 7 else getUTCDay x in
  let m := setUTCHours0
             (if negb (day =? 1) then setUTCDate x (getUTCDate x - (day - 1)) else x) in
  m = x - (isoWeekday x - 1) * msPerDay
  /\ mondayMidnight m
  /\ Day m <= Day x <= Day m + 6.
Proof.
  intros Hx day m.
  assert (Hm : m = x - (isoWeekday x - 1) * msPerDay).
  { unfold m, day, isoWeekday, getUTCDay.
    pose proof (WeekDay_range x) as Hw.
    assert (Hs : forall t, TimeWithinDay t = 0 -> setUTCHours0 t = t).
    { intros t Ht. unfold setUTCHours0, MakeDate, Day, TimeWithinDay, msPerDay in *.
      Z.div_mod_to_equations. lia. }
    destruct (WeekDay x =? 0) eqn:E0.
    - change (negb (7 =? 1)) with true. cbv iota.
      rewrite setUTCDate_back. apply Hs.
      unfold TimeWithinDay, msPerDay in *. Z.div_mod_to_equations. lia.
    - destruct (WeekDay x =? 1) eqn:E1; cbn [negb].
      + apply Z.eqb_eq in E1. rewrite E1. rewrite (Hs x Hx). lia.
      + rewrite setUTCDate_back. apply Hs.
        unfold TimeWithinDay, msPerDay in *. Z.div_mod_to_equations. lia. }
  split; [exact Hm|]. rewrite Hm. clear m Hm day.
  unfold mondayMidnight, isoWeekday, WeekDay, TimeWithinDay, Day, msPerDay in *.
  destruct ((x / 86400000 + 4) mod 7 =? 0) eqn:E.
  - apply Z.eqb_eq in E. repeat split; Z.div_mod_to_equations; lia.
  - apply Z.eqb_neq in E. repeat split; Z.div_mod_to_equations; lia.
Qed.

Lemma startOfISOWeek_eq (tz : Z -> Z) (d : Z) :
  let x := UTC (getFullYear tz d) (getMonth tz d) (getDate tz d) in
  App.startOfISOWeek tz d = x - (isoWeekday x - 1) * msPerDay
  /\ mondayMidnight (App.startOfISOWeek tz d)
  /\ Day (App.startOfISOWeek tz d) <= Day x <= Day (App.startOfISOWeek tz d) + 6.
Proof.
  intros x. unfold App.startOfISOWeek. fold x.
  apply monday_of_midnight. apply UTC_midnight.
Qed.

Lemma startOfISOWeek_mondayMidnight (tz : Z -> Z) (d : Z) :
  mondayMidnight (App.startOfISOWeek tz d).
Proof.
  destruct (startOfISOWeek_eq tz d) as (_ & Hm & _). exact Hm.
Qed.

(** X3. [startOfISOWeek] always returns a Monday at 00:00 UTC; when the
    local year of the date is not one of 0 to 99, it is the Monday of the
    Monday-to-Sunday week of the date's local calendar day. *)
Theorem startOfISOWeek_monday (tz : Z -> Z) (d : Z) :
  mondayMidnight (App.startOfISOWeek tz d)
  /\ (~ (0 <= getFullYear tz d <= 99) ->
      Day (App.startOfISOWeek tz d) <= Day (LocalTime tz d)
      <= Day (App.startOfISOWeek tz d) + 6).
Proof.
  destruct (startOfISOWeek_eq tz d) as (_ & Hm & Hr). split; [exact Hm|].
  intros Hy. cbv zeta in Hr.
  unfold getFullYear, getMonth, getDate in Hr.
  rewrite UTC_components, Day_midnight in Hr by exact Hy. exact Hr.
Qed.

Lemma startOfISOWeek_monday_witness :
  Day (App.startOfISOWeek zoneWest5 (UTC 2025 2 3 + 5000))
  <= Day (LocalTime zoneWest5 (UTC 2025 2 3 + 5000))
  <= Day (App.startOfISOWeek zoneWest5 (UTC 2025 2 3 + 5000)) + 6.
Proof.
  apply (proj2 (startOfISOWeek_monday zoneWest5 (UTC 2025 2 3 + 5000))).
  vm_compute. intros [_ H]. apply H. reflexivity.
Defined.

Lemma roster_monday_of_midnight (x : Z) :
  TimeWithinDay x = 0 ->
  let day := getUTCDay x in
  let diff := (if day =? 0 then -6 else 1) - day in
  setUTCHours0 (setUTCDate x (getUTCDate x + diff))
  = x - (isoWeekday x - 1) * msPerDay.
Proof.
  intros Hx day diff. rewrite setUTCDate_shift.
  unfold diff, day, isoWeekday, getUTCDay. pose proof (WeekDay_range x) as Hw.
  unfold setUTCHours0, MakeDate.
  destruct (WeekDay x =? 0) eqn:E.
  - apply Z.eqb_eq in E.
    unfold TimeWithinDay, Day, msPerDay in *. Z.div_mod_to_equations. lia.
  - unfold TimeWithinDay, Day, msPerDay in *. Z.div_mod_to_equations. lia.
Qed.

(** X4. The roster board's [startOfWeek] and [startOfISOWeek] are the same
    function: they return the same time for every date and time zone. *)
Theorem startOfWeek_startOfISOWeek (tz : Z -> Z) (d : Z) :
  Roster.startOfWeek tz d = App.startOfISOWeek tz d.
Proof.
  destruct (startOfISOWeek_eq tz d) as (Heq & _).
  rewrite Heq. unfold Roster.startOfWeek.
  apply roster_monday_of_midnight. apply UTC_midnight.
Qed.

(** X5. The seven days of a displayed week: when the board's base date is a
    Monday at 00:00 UTC, [days] holds seven dates, the i-th being i whole
    days after the base date, at 00:00 UTC, on ISO weekday i + 1 (Monday to
    Sunday in order). *)
Theorem days_of_week (b : App.board) (i : nat) :
  mondayMidnight (App.baseDate b) -> (i < 7)%nat ->
  List.length (App.days b) = 7%nat
  /\ exists t,
       nth_error (App.days b) i = Some t
       /\ t = App.baseDate b + Z.of_nat i * msPerDay
       /\ TimeWithinDay t = 0
       /\ isoWeekday t = Z.of_nat i + 1.
Proof.
  intros [Hmid Hmon] Hi. split; [reflexivity|].
  exists (App.baseDate b + Z.of_nat i * msPerDay).
  split; [|split; [reflexivity|]].
  - rewrite (days_nth b i Hi). unfold App.addDays.
    now rewrite setUTCDate_shift.
  - generalize dependent (App.baseDate b). intros x Hmid Hmon.
    unfold isoWeekday, WeekDay, TimeWithinDay, Day, msPerDay in *.
    destruct (((x + Z.of_nat i * 86400000) / 86400000 + 4) mod 7 =? 0) eqn:E.
    + apply Z.eqb_eq in E. split; Z.div_mod_to_equations; lia.
    + apply Z.eqb_neq in E. split; Z.div_mod_to_equations; lia.
Qed.

Lemma days_of_week_witness :
  exists t,
    nth_error (App.days (march_board "" 0 8)) 6 = Some t
    /\ t = App.baseDate (march_board "" 0 8) + 6 * msPerDay
    /\ TimeWithinDay t = 0
    /\ isoWeekday t = 7.
Proof.
  assert (Hm : mondayMidnight (App.baseDate (march_board "" 0 8)))
    by (split; vm_compute; reflexivity).
  assert (Hi : (6 < 7)%nat) by lia.
  exact (proj2 (days_of_week (march_board "" 0 8) 6 Hm Hi)).
Defined.

Lemma mondayMidnight_shift (x k : Z) :
  mondayMidnight x -> mondayMidnight (x + 7 * k * msPerDay).
Proof.
  unfold mondayMidnight, WeekDay, TimeWithinDay, Day, msPerDay.
  intros [H1 H2]. split; Z.div_mod_to_equations; lia.
Qed.

(** X6. [addDays] moves a date by whole days and keeps its time of day:
    moving by [a] and then by [b] days is moving by [a + b], and moving by
    no days changes nothing. On the roster board Prev and Next undo each
    other and keep a Monday 00:00 UTC base date one. *)
Theorem addDays_whole_days (d a b : Z) (st : Roster.state) :
  Roster.addDays d a = d + a * msPerDay
  /\ TimeWithinDay (Roster.addDays d a) = TimeWithinDay d
  /\ Roster.addDays (Roster.addDays d a) b = Roster.addDays d (a + b)
  /\ Roster.addDays d 0 = d
  /\ App.addDays d a = Roster.addDays d a
  /\ Roster.goNext (Roster.goPrev st) = st
  /\ Roster.goPrev (Roster.goNext st) = st
  /\ (mondayMidnight (Roster.baseDate st) ->
      mondayMidnight (Roster.baseDate (Roster.goPrev st))
      /\ mondayMidnight (Roster.baseDate (Roster.goNext st))).
Proof.
  assert (Hadd : forall x k, Roster.addDays x k = x + k * msPerDay)
    by (intros; apply setUTCDate_shift).
  split; [apply Hadd|].
  split; [rewrite Hadd; unfold TimeWithinDay, msPerDay;
          Z.div_mod_to_equations; lia|].
  split; [rewrite !Hadd; lia|].
  split; [rewrite Hadd; lia|].
  split; [unfold App.addDays, Roster.addDays; reflexivity|].
  destruct st as [base people asg pid day start].
  unfold Roster.goNext, Roster.goPrev, Roster.setBaseDate. cbn [Roster.baseDate
    Roster.people Roster.assignments Roster.selectedPersonId Roster.selectedDay
    Roster.selectedStart].
  rewrite !Hadd.
  split; [f_equal; lia|]. split; [f_equal; lia|].
  intros Hm. split.
  - replace (base + -7 * msPerDay) with (base + 7 * (-1) * msPerDay) by lia.
    now apply mondayMidnight_shift.
  - replace (base + 7 * msPerDay) with (base + 7 * 1 * msPerDay) by lia.
    now apply mondayMidnight_shift.
Qed.

Lemma addDays_whole_days_witness :
  mondayMidnight (Roster.addDays (UTC 2025 2 3) (-7))
  /\ Roster.addDays (UTC 2025 2 3) (-7) = UTC 2025 1 24.
Proof.
  assert (Hm : mondayMidnight (UTC 2025 2 3)) by (split; vm_compute; reflexivity).
  pose (st := {| Roster.baseDate := UTC 2025 2 3; Roster.people := [];
                 Roster.assignments := []; Roster.selectedPersonId := "";
                 Roster.selectedDay := 0; Roster.selectedStart := 8 |}).
  destruct (addDays_whole_days (UTC 2025 2 3) (-7) 0 st)
    as (H1 & _ & _ & _ & _ & _ & _ & H8).
  split.
  - exact (proj1 (H8 Hm)).
  - rewrite H1. vm_compute. reflexivity.
Defined.

(* ================================================================== *)
(** * What the board keeps *)
(* ================================================================== *)

Section BoardFacts.
Context {S : Type}.
Variable API : App.api S.
Variable tz : Z -> Z.

(** The date and the form fields a board state carries. *)
Lemma load_form (w : S * App.board) now rnd :
  App.baseDate (snd (App.load API w now rnd)) = App.baseDate (snd w)
  /\ App.dayIndex (snd (App.load API w now rnd)) = App.dayIndex (snd w)
  /\ App.startHour (snd (App.load API w now rnd)) = App.startHour (snd w)
  /\ App.name (snd (App.load API w now rnd)) = App.name (snd w).
Proof.
  destruct w as [s b]. unfold App.load.
  destruct (App.getWeek API s _ now rnd) as [s' [data | e]];
    repeat split; reflexivity.
Qed.

Lemma submit_form (w : S * App.board) now1 rnd1 now2 rnd2 :
  App.baseDate (snd (App.submit API tz w now1 rnd1 now2 rnd2)) = App.baseDate (snd w)
  /\ App.dayIndex (snd (App.submit API tz w now1 rnd1 now2 rnd2)) = App.dayIndex (snd w)
  /\ App.startHour (snd (App.submit API tz w now1 rnd1 now2 rnd2)) = App.startHour (snd w).
Proof.
  destruct w as [s b]. unfold App.submit.
  destruct (String.eqb (trim (App.name b)) ""); [repeat split; reflexivity|].
  destruct (App.CONFIG.onePerWeek && existsb _ (App.bookings b));
    [repeat split; reflexivity|].
  destruct (nth_error (App.days b) (App.dayIndex b)) as [d|];
    [|repeat split; reflexivity].
  destruct (App.create API s _ now1 rnd1) as [s' [r | e]];
    [|repeat split; reflexivity].
  destruct (load_form (s', App.setName b "") now2 rnd2) as (H1 & H2 & H3 & _).
  rewrite H1, H2, H3. repeat split; reflexivity.
Qed.

Lemma remove_form (w : S * App.board) id now1 rnd1 now2 rnd2 :
  App.baseDate (snd (App.remove API w id now1 rnd1 now2 rnd2)) = App.baseDate (snd w)
  /\ App.dayIndex (snd (App.remove API w id now1 rnd1 now2 rnd2)) = App.dayIndex (snd w)
  /\ App.startHour (snd (App.remove API w id now1 rnd1 now2 rnd2)) = App.startHour (snd w).
Proof.
  destruct w as [s b]. unfold App.remove.
  destruct (App.del API s id now1 rnd1) as [s' [u | e]];
    [|repeat split; reflexivity].
  destruct (load_form (s', b) now2 rnd2) as (H1 & H2 & H3 & _).
  rewrite H1, H2, H3. repeat split; reflexivity.
Qed.

Lemma show_form (w : S * App.board) d now rnd :
  App.baseDate (snd (App.show API w d now rnd)) = d
  /\ App.dayIndex (snd (App.show API w d now rnd)) = App.dayIndex (snd w)
  /\ App.startHour (snd (App.show API w d now rnd)) = App.startHour (snd w).
Proof.
  destruct w as [s b]. unfold App.show.
  destruct (String.eqb _ _); [repeat split; reflexivity|].
  destruct (load_form (s, App.setBaseDate b d) now rnd) as (H1 & H2 & H3 & _).
  rewrite H1, H2, H3. repeat split; reflexivity.
Qed.

Lemma refresh_form (opened : string) (w : S * App.board) now rnd :
  App.baseDate (snd (App.refresh API opened w now rnd)) = App.baseDate (snd w)
  /\ App.dayIndex (snd (App.refresh API opened w now rnd)) = App.dayIndex (snd w)
  /\ App.startHour (snd (App.refresh API opened w now rnd)) = App.startHour (snd w).
Proof.
  destruct w as [s b]. unfold App.refresh.
  destruct (App.getWeek API s _ now rnd) as [s' [data | e]];
    repeat split; reflexivity.
Qed.

(** X7. In every state the board of App.jsx can reach, the base date is a
    Monday at 00:00 UTC, the selected day is one of the seven days of the
    week (so [submit] always finds its day), and the selected start hour is
    one of [HOURS], within [hoursStart, hoursEnd]. *)
Theorem board_invariants (clock : Z) (w : S * App.board) :
  App.reachable API tz clock w ->
  mondayMidnight (App.baseDate (snd w))
  /\ (App.dayIndex (snd w) < 7)%nat
  /\ nth_error (App.days (snd w)) (App.dayIndex (snd w))
     = Some (App.baseDate (snd w) + Z.of_nat (App.dayIndex (snd w)) * msPerDay)
  /\ In (App.startHour (snd w)) App.HOURS
  /\ App.CONFIG.hoursStart <= App.startHour (snd w) <= App.CONFIG.hoursEnd.
Proof.
  intros Hr.
  assert (Hinv : mondayMidnight (App.baseDate (snd w))
                 /\ (App.dayIndex (snd w) < 7)%nat
                 /\ In (App.startHour (snd w)) App.HOURS).
  { induction Hr as [s now rnd | w a Hr IH Hok].
    - destruct (load_form (s, App.initBoard tz clock) now rnd) as (H1 & H2 & H3 & _).
      rewrite H1, H2, H3. cbn [snd App.initBoard App.baseDate App.dayIndex App.startHour].
      split; [apply startOfISOWeek_mondayMidnight|]. split; [lia|].
      vm_compute. tauto.
    - destruct IH as (Hm & Hd & Hh).
      destruct a as [now rnd | now rnd | clock0 now rnd | nm | i | h
                     | now1 rnd1 now2 rnd2 | id now1 rnd1 now2 rnd2 | now rnd];
        cbn [App.act App.offered] in *.
      + destruct (show_form w (App.baseDate (App.onPrev (snd w))) now rnd)
          as (H1 & H2 & H3).
        rewrite H1, H2, H3. split; [|auto].
        cbn [App.onPrev App.setBaseDate App.baseDate].
        replace (App.baseDate (snd w) - 7 * 86400000)
          with (App.baseDate (snd w) + 7 * (-1) * msPerDay)
          by (unfold msPerDay; lia).
        now apply mondayMidnight_shift.
      + destruct (show_form w (App.baseDate (App.onNext (snd w))) now rnd)
          as (H1 & H2 & H3).
        rewrite H1, H2, H3. split; [|auto].
        cbn [App.onNext App.setBaseDate App.baseDate].
        replace (App.baseDate (snd w) + 7 * 86400000)
          with (App.baseDate (snd w) + 7 * 1 * msPerDay)
          by (unfold msPerDay; lia).
        now apply mondayMidnight_shift.
      + destruct (show_form w (App.startOfISOWeek tz clock0) now rnd)
          as (H1 & H2 & H3).
        rewrite H1, H2, H3. split; [apply startOfISOWeek_mondayMidnight | auto].
      + cbn [snd App.setName App.baseDate App.dayIndex App.startHour]. auto.
      + cbn [snd App.setDayIndex App.baseDate App.dayIndex App.startHour]. auto.
      + cbn [snd App.setStartHour App.baseDate App.dayIndex App.startHour]. auto.
      + destruct (submit_form w now1 rnd1 now2 rnd2) as (H1 & H2 & H3).
        rewrite H1, H2, H3. auto.
      + destruct (remove_form w id now1 rnd1 now2 rnd2) as (H1 & H2 & H3).
        rewrite H1, H2, H3. auto.
      + destruct (refresh_form (App.weekKey (App.initBoard tz clock)) w now rnd)
          as (H1 & H2 & H3).
        rewrite H1, H2, H3. auto. }
  destruct Hinv as (Hm & Hd & Hh).
  split; [exact Hm|]. split; [exact Hd|]. split; [|split; [exact Hh|]].
  - rewrite (days_nth _ _ Hd). unfold App.addDays.
    now rewrite setUTCDate_shift.
  - assert (HF : Forall (fun h => App.CONFIG.hoursStart <= h <= App.CONFIG.hoursEnd)
                   App.HOURS).
    { replace App.HOURS with [7; 8; 9; 10; 11; 12; 13; 14; 15; 16; 17; 18; 19; 20]
        by (vm_compute; reflexivity).
      unfold App.CONFIG.hoursStart, App.CONFIG.hoursEnd.
      repeat constructor; lia. }
    rewrite Forall_forall in HF. exact (HF _ Hh).
Qed.
End BoardFacts.

Lemma board_invariants_witness :
  let opened := App.weekKey (App.initBoard zoneUTC (UTC 2025 2 5)) in
  let w := App.act App.API_LS zoneUTC opened
             (App.act App.API_LS zoneUTC opened
                (App.load App.API_LS ([], App.initBoard zoneUTC (UTC 2025 2 5)) 0 "")
                (App.Next 0 ""))
             (App.PickDay 3) in
  mondayMidnight (App.baseDate (snd w)) /\ (App.dayIndex (snd w) < 7)%nat.
Proof.
  intros opened w.
  assert (Hr : App.reachable App.API_LS zoneUTC (UTC 2025 2 5) w).
  { unfold w, opened.
    apply App.reach_act; [apply App.reach_act; [apply App.reach_open|]|].
    - exact I.
    - simpl. lia. }
  destruct (board_invariants App.API_LS zoneUTC (UTC 2025 2 5) w Hr) as (H1 & H2 & _).
  split; assumption.
Defined.

(* ================================================================== *)
(** * More on the localStorage store *)
(* ================================================================== *)

Lemma delete_prop_saveAllLS (k : string) (o : obj record) :
  delete_prop k (App.saveAllLS o) = App.saveAllLS (delete_prop k o).
Proof.
  unfold App.saveAllLS. induction o as [|[k' r] rest IH]; [reflexivity|].
  cbn [map delete_prop fst snd]. destruct (String.eqb k k'); [exact IH|].
  cbn [map fst snd]. now rewrite IH.
Qed.

Lemma saveAllLS_idem (o : obj record) :
  App.saveAllLS (App.saveAllLS o) = App.saveAllLS o.
Proof.
  unfold App.saveAllLS. rewrite map_map. apply map_ext.
  intros [k r]. cbn [fst snd]. now rewrite json_idem.
Qed.

Lemma delete_prop_app_last {V : Type} (k : string) (v : V) (o : obj V) :
  ~ In k (keys o) -> delete_prop k (o ++ [(k, v)])%list = o.
Proof.
  induction o as [|[k' v'] rest IH]; intros Hout.
  - cbn [app delete_prop]. now rewrite String.eqb_refl.
  - cbn [app delete_prop]. destruct (String.eqb k k') eqn:E.
    + apply String.eqb_eq in E. subst k'. exfalso. apply Hout. now left.
    + f_equal. apply IH. intros Hin. apply Hout. now right.
Qed.

Lemma keys_saveAllLS (o : obj record) : keys (App.saveAllLS o) = keys o.
Proof.
  unfold App.saveAllLS, keys. rewrite map_map. reflexivity.
Qed.

(** X8. Create, then delete by the generated id: when that id was not in
    use, the store is back to what it held, in JSON form, and every week
    lists what it listed before. *)
Theorem create_then_delete_ls (ls : App.storage) (body : record)
    (now : Z) (rnd : string) :
  ~ In (genId now rnd) (keys ls) ->
  App.apiDeleteLS (fst (App.apiCreateLS ls body now rnd)) (VStr (genId now rnd))
  = App.saveAllLS ls
  /\ (wf2 ls -> forall wk,
        App.apiGetWeekLS
          (App.apiDeleteLS (fst (App.apiCreateLS ls body now rnd))
             (VStr (genId now rnd))) wk
        = map json (App.apiGetWeekLS ls wk)).
Proof.
  intros Hfresh.
  assert (Heq : App.apiDeleteLS (fst (App.apiCreateLS ls body now rnd))
                  (VStr (genId now rnd)) = App.saveAllLS ls).
  { unfold App.apiDeleteLS, App.apiCreateLS, App.loadAllLS. cbn [fst to_string].
    rewrite keys_set_prop_not_In by assumption.
    rewrite delete_prop_saveAllLS, delete_prop_app_last by assumption.
    apply saveAllLS_idem. }
  split; [exact Heq|]. intros Hwf wk. rewrite Heq.
  now apply listing_saveAllLS.
Qed.

Lemma create_then_delete_ls_witness :
  App.apiDeleteLS (fst (App.apiCreateLS [] alex_draft 1741000000000 "k3j9x2"))
    (VStr (genId 1741000000000 "k3j9x2")) = App.saveAllLS [].
Proof.
  apply (proj1 (create_then_delete_ls [] alex_draft 1741000000000 "k3j9x2"
                  (fun H : In _ [] => H))).
Defined.

(** X9. A create with an id that is not in use leaves the listing of every
    other week as it was (in JSON form): only the week the draft names can
    change. *)
Theorem create_other_week_ls (ls : App.storage) (body : record)
    (now : Z) (rnd : string) (wk : value) :
  wf2 ls -> wf body -> ~ In (genId now rnd) (keys ls) ->
  strict_eq (get "weekKey" body) wk = false ->
  App.apiGetWeekLS (fst (App.apiCreateLS ls body now rnd)) wk
  = map json (App.apiGetWeekLS ls wk).
Proof.
  intros Hwf Hbody Hfresh Hne.
  unfold App.apiCreateLS, App.loadAllLS. cbn [fst].
  set (rec := spread [("id", VStr (genId now rnd))] body).
  assert (Hrec : wf rec).
  { apply NoDup_keys_spread. repeat constructor. intros []. }
  rewrite listing_saveAllLS by (apply wf2_set_prop; assumption).
  f_equal. rewrite keys_set_prop_not_In by assumption.
  unfold App.apiGetWeekLS, App.loadAllLS, values.
  rewrite map_app, filter_app. cbn [map filter snd].
  unfold rec. rewrite get_spread_id by (auto; discriminate).
  rewrite Hne. apply app_nil_r.
Qed.

Lemma create_other_week_ls_witness :
  App.apiGetWeekLS (fst (App.apiCreateLS [] alex_draft 1741000000000 "k3j9x2"))
    (VStr "2025-W11") = map json (App.apiGetWeekLS [] (VStr "2025-W11")).
Proof.
  apply create_other_week_ls.
  - split; constructor.
  - unfold wf, alex_draft, keys. simpl.
    repeat constructor; simpl; intuition discriminate.
  - intros [].
  - reflexivity.
Defined.

(** X10. Delete on localStorage: afterwards no record is stored under the
    id, every other record is there in JSON form, a second delete of the
    same id changes nothing, and deleting an id that is not stored leaves
    the store as it was (in JSON form). [undefined] as id stands for the
    key "undefined". *)
Theorem delete_ls_spec (ls : App.storage) (id : value) :
  (forall k,
     lookup k (App.apiDeleteLS ls id)
     = if String.eqb (to_string id) k then None
       else option_map json (lookup k ls))
  /\ App.apiDeleteLS (App.apiDeleteLS ls id) id = App.apiDeleteLS ls id
  /\ (lookup (to_string id) ls = None -> App.apiDeleteLS ls id = App.saveAllLS ls).
Proof.
  split; [|split].
  - intros k. unfold App.apiDeleteLS, App.loadAllLS. rewrite lookup_saveAllLS.
    destruct (String.eqb (to_string id) k) eqn:E.
    + apply String.eqb_eq in E. subst k. now rewrite lookup_delete_prop_same.
    + apply String.eqb_neq in E. now rewrite lookup_delete_prop_other.
  - unfold App.apiDeleteLS, App.loadAllLS.
    rewrite delete_prop_saveAllLS, saveAllLS_idem. f_equal.
    apply delete_prop_not_In. intros Hin.
    apply keys_delete_prop_incl in Hin. tauto.
  - intros Habs. apply lookup_None_not_In in Habs.
    unfold App.apiDeleteLS, App.loadAllLS.
    now rewrite delete_prop_not_In.
Qed.

Lemma delete_ls_spec_witness :
  App.apiDeleteLS [("b_1", alex_draft)] VUndef = App.saveAllLS [("b_1", alex_draft)].
Proof.
  apply (proj2 (proj2 (delete_ls_spec [("b_1", alex_draft)] VUndef))).
  reflexivity.
Defined.

(* ================================================================== *)
(** * More on the bookings handler *)
(* ================================================================== *)

(** The handler on a request that carries a week key. *)
Lemma handler_with_weekKey c req now rnd :
  truthy (request_weekKey req) = true ->
  let wk := to_string (request_weekKey req) in
  let c1 := Bookings.ensure_week c wk in
  Bookings.handler c req now rnd
  = if String.eqb (Bookings.method req) "GET" then
      (c1, {| Bookings.status := 200; Bookings.headers := [];
              Bookings.sent := Bookings.listing c1 wk |})
    else if String.eqb (Bookings.method req) "POST" then
      (Bookings.store c1 wk (genId now rnd)
         (spread [("id", VStr (genId now rnd))] (Bookings.body_props (Bookings.body req))),
       {| Bookings.status := 201; Bookings.headers := [];
          Bookings.sent :=
            Bookings.JsonRecord
              (spread [("id", VStr (genId now rnd))] (Bookings.body_props (Bookings.body req))) |})
    else if String.eqb (Bookings.method req) "DELETE" then
      (Bookings.remove c1 wk (get "id" (Bookings.query req)),
       {| Bookings.status := 200; Bookings.headers := []; Bookings.sent := Bookings.JsonOk |})
    else
      (c1, {| Bookings.status := 405;
              Bookings.headers := [("Allow", ["GET"; "POST"; "DELETE"])];
              Bookings.sent :=
                Bookings.Text ("Method " ++ Bookings.method req ++ " Not Allowed") |}).
Proof.
  intros Hk wk c1. subst c1 wk.
  unfold Bookings.handler. fold (request_weekKey req).
  rewrite Hk. reflexivity.
Qed.

(** What [cache] finds under a name depends on its own property of that
    name and on what sits on Object.prototype. *)
Lemma cache_get_ext c c' k :
  lookup k c' = lookup k c -> Bookings.proto c' = Bookings.proto c ->
  Bookings.cache_get c' k = Bookings.cache_get c k.
Proof. intros H1 H2. unfold Bookings.cache_get. now rewrite H1, H2. Qed.

Lemma lookup_ensure_week_other c wk k :
  k <> wk -> lookup k (Bookings.ensure_week c wk) = lookup k c.
Proof.
  intros Hne. unfold Bookings.ensure_week.
  destruct (Bookings.cache_get c wk); try reflexivity.
  apply lookup_set_prop_other. congruence.
Qed.

Lemma lookup_remove_other c wk id k :
  Bookings.plain c -> k <> wk ->
  lookup k (Bookings.remove c wk id) = lookup k c.
Proof.
  intros Hp Hne. unfold Bookings.remove.
  destruct (truthy id); [|reflexivity].
  destruct (Bookings.cache_get c wk) eqn:E.
  - destruct (lookup _ (Bookings.week_of c wk)); [|reflexivity].
    apply lookup_set_prop_other. congruence.
  - now destruct (cache_get_plain c wk r Hp).
  - destruct (lookup _ (Bookings.week_of c wk)); [|reflexivity].
    apply lookup_set_prop_other. congruence.
Qed.

(** A request that names a week other than [__proto__] leaves every other
    own property of a cache with nothing on Object.prototype as it was. *)
Lemma handler_lookup_other c req now rnd k :
  Bookings.plain c ->
  k <> to_string (request_weekKey req) ->
  lookup k (fst (Bookings.handler c req now rnd)) = lookup k c.
Proof.
  intros Hp Hne.
  destruct (truthy (request_weekKey req)) eqn:Hk;
    [|now rewrite handler_missing_weekKey].
  rewrite (handler_with_weekKey c req now rnd Hk).
  set (wk := to_string (request_weekKey req)) in *.
  destruct (String.eqb (Bookings.method req) "GET");
    [cbn [fst]; now apply lookup_ensure_week_other|].
  destruct (String.eqb (Bookings.method req) "POST").
  { cbn [fst]. unfold Bookings.store.
    rewrite lookup_set_prop_other by congruence.
    now apply lookup_ensure_week_other. }
  destruct (String.eqb (Bookings.method req) "DELETE");
    [|cbn [fst]; now apply lookup_ensure_week_other].
  cbn [fst]. rewrite lookup_remove_other;
    [now apply lookup_ensure_week_other | now apply plain_ensure_week | assumption].
Qed.

(** X11. A request only ever changes the week it names, as long as nothing
    sits on Object.prototype and the week it names is not [__proto__]:
    whatever the method, what the cache finds under every other name, and
    the records kept there, are the same after the handler has run, and
    Object.prototype is still as it was. *)
Theorem handler_other_weeks c req now rnd (wk' : string) :
  Bookings.plain c ->
  to_string (request_weekKey req) <> "__proto__" ->
  wk' <> to_string (request_weekKey req) ->
  let c' := fst (Bookings.handler c req now rnd) in
  Bookings.cache_get c' wk' = Bookings.cache_get c wk'
  /\ Bookings.week_of c' wk' = Bookings.week_of c wk'
  /\ Bookings.plain c'.
Proof.
  intros Hp Hproto Hne c'.
  assert (Hl : forall k, k <> to_string (request_weekKey req) ->
               lookup k c' = lookup k c).
  { intros k Hk. now apply handler_lookup_other. }
  assert (Hpr : Bookings.proto c' = Bookings.proto c).
  { unfold Bookings.proto, Bookings.week_of. rewrite Hl; congruence. }
  split; [apply cache_get_ext; auto|].
  split; [unfold Bookings.week_of; now rewrite Hl|].
  unfold Bookings.plain. now rewrite Hpr.
Qed.

Lemma handler_other_weeks_witness :
  let c := [("2025-W11", [("b_1", alex_draft_next)])] in
  let req := {| Bookings.method := "POST"; Bookings.query := [];
                Bookings.body := Some alex_draft |} in
  Bookings.week_of (fst (Bookings.handler c req 1741000000000 "k3j9x2")) "2025-W11"
  = Bookings.week_of c "2025-W11".
Proof.
  intros c req.
  apply (handler_other_weeks c req 1741000000000 "k3j9x2" "2025-W11").
  - reflexivity.
  - vm_compute. discriminate.
  - vm_compute. discriminate.
Defined.

(** X12. Reading never writes: a request that is neither a POST nor a
    DELETE leaves the records of every week as they were. A GET that
    carries a week key is answered 200; when nothing sits on
    Object.prototype it is answered with the records of its week, none for
    a week the cache has not seen. *)
Theorem handler_get_reads c req now rnd :
  Bookings.method req <> "POST" -> Bookings.method req <> "DELETE" ->
  (forall wk,
     Bookings.week_of (fst (Bookings.handler c req now rnd)) wk
     = Bookings.week_of c wk)
  /\ (Bookings.method req = "GET" -> truthy (request_weekKey req) = true ->
      Bookings.status (snd (Bookings.handler c req now rnd)) = 200
      /\ (Bookings.plain c ->
          Bookings.sent (snd (Bookings.handler c req now rnd))
          = Bookings.JsonRecords
              (values (Bookings.week_of c (to_string (request_weekKey req))))
          /\ (lookup (to_string (request_weekKey req)) c = None ->
              Bookings.sent (snd (Bookings.handler c req now rnd))
              = Bookings.JsonRecords []))).
Proof.
  intros Hp Hd. apply String.eqb_neq in Hp, Hd. split.
  - intros wk. destruct (truthy (request_weekKey req)) eqn:Hk.
    + rewrite (handler_with_weekKey c req now rnd Hk), Hp, Hd.
      destruct (String.eqb (Bookings.method req) "GET");
        cbn [fst]; apply week_of_ensure_week_any.
    + now rewrite handler_missing_weekKey.
  - intros Hg Hk. rewrite (handler_with_weekKey c req now rnd Hk), Hg.
    change (String.eqb "GET" "GET") with true. cbv iota. cbn [snd Bookings.status Bookings.sent].
    split; [reflexivity|]. intros Hplain.
    rewrite listing_ensure_week by (intros r; now apply cache_get_plain).
    split; [reflexivity|].
    intros Hnone. unfold Bookings.week_of. now rewrite Hnone.
Qed.

Lemma handler_get_reads_witness :
  let req := {| Bookings.method := "GET";
                Bookings.query := [("weekKey", VStr "2025-W10")];
                Bookings.body := None |} in
  Bookings.sent (snd (Bookings.handler [] req 0 "")) = Bookings.JsonRecords [].
Proof.
  intros req.
  assert (Hp : Bookings.method req <> "POST") by discriminate.
  assert (Hd : Bookings.method req <> "DELETE") by discriminate.
  destruct (handler_get_reads [] req 0 "" Hp Hd) as [_ H].
  destruct (H eq_refl eq_refl) as (_ & H2).
  destruct (H2 eq_refl) as (_ & H3). apply H3. reflexivity.
Defined.



(* ================================================================== *)
(** * More on submitting and cancelling *)
(* ================================================================== *)

Lemma trimStart_space (cp : Z) (rest : list ascii) :
  In cp white_space -> trimStart (utf8 cp ++ rest) = trimStart rest.
Proof.
  unfold white_space. intros H.
  repeat (destruct H as [<- | H]; [reflexivity|]). destruct H.
Qed.

Lemma trim_blank (s : string) : blank s -> trim s = "".
Proof.
  intros (cps & Hall & Hs). unfold trim. rewrite Hs. clear Hs.
  assert (H : trimStart (List.concat (map utf8 cps)) = []).
  { induction Hall as [|cp rest Hcp _ IH]; [reflexivity|].
    cbn [map List.concat]. rewrite trimStart_space by exact Hcp. exact IH. }
  rewrite H. reflexivity.
Qed.

(** X14. A name that is empty or made of white space only (any of the
    characters [trim] strips) is turned down with the message "Please enter
    your name": nothing else of the board changes and the store is left as
    it was, whatever the backend is. *)
Theorem submit_blank_name {S : Type} (API : App.api S) (tz : Z -> Z)
    (s : S) (b : App.board) now1 rnd1 now2 rnd2 :
  blank (App.name b) ->
  let w := App.submit API tz (s, b) now1 rnd1 now2 rnd2 in
  fst w = s
  /\ App.error (snd w) = "Please enter your name"
  /\ App.bookings (snd w) = App.bookings b
  /\ App.name (snd w) = App.name b
  /\ App.baseDate (snd w) = App.baseDate b
  /\ App.dayIndex (snd w) = App.dayIndex b
  /\ App.startHour (snd w) = App.startHour b
  /\ App.loading (snd w) = App.loading b.
Proof.
  intros H w. unfold w, App.submit. rewrite (trim_blank _ H).
  cbn [String.eqb fst snd].
  repeat split; reflexivity.
Qed.

(** The name here is two spaces, a no-break space (U+00A0) and an
    ideographic space (U+3000). *)
Lemma submit_blank_name_witness :
  let b := march_board "   　" 0 8 in
  let w := App.submit App.API_LS zoneUTC ([], b) 0 "" 0 "" in
  fst w = [] /\ App.error (snd w) = "Please enter your name".
Proof.
  intros b w.
  assert (H : blank (App.name b)).
  { exists [32; 32; 160; 12288]. split.
    - repeat constructor; vm_compute; tauto.
    - vm_compute. reflexivity. }
  destruct (submit_blank_name App.API_LS zoneUTC [] b 0 "" 0 "" H)
    as (H1 & H2 & _).
  split; assumption.
Defined.

Lemma genId_not_undefined now rnd : genId now rnd <> "undefined".
Proof. unfold genId. cbn [append]. discriminate. Qed.

Lemma remove_ls_eq ls b id now1 rnd1 now2 rnd2 :
  App.remove App.API_LS (ls, b) id now1 rnd1 now2 rnd2
  = App.load App.API_LS (App.apiDeleteLS ls id, b) now2 rnd2.
Proof. reflexivity. Qed.

(** X15. On localStorage a booking made through the board cannot be
    cancelled. After an accepted submission (a name that is not blank and
    not among the loaded bookings, one of the seven days selected) the
    booking is listed with [id] undefined; the cancel link's
    [remove(b.id)] deletes the key "undefined", and when nothing is stored
    under that key it leaves the store and the listed bookings as they were
    and shows no error. *)
Theorem ui_booking_cannot_be_cancelled (tz : Z -> Z) (ls : App.storage)
    (b : App.board) now1 rnd1 now2 rnd2 now3 rnd3 now4 rnd4 :
  trim (App.name b) <> "" ->
  existsb (fun r => strict_eq (get "title" r) (VStr (trim (App.name b))))
    (App.bookings b) = false ->
  (App.dayIndex b < 7)%nat ->
  lookup "undefined" ls = None ->
  let w1 := App.submit App.API_LS tz (ls, b) now1 rnd1 now2 rnd2 in
  let w2 := App.remove App.API_LS w1 VUndef now3 rnd3 now4 rnd4 in
  (exists r,
     In r (App.bookings (snd w1))
     /\ get "title" r = VStr (trim (App.name b))
     /\ get "id" r = VUndef)
  /\ fst w2 = fst w1
  /\ App.bookings (snd w2) = App.bookings (snd w1)
  /\ App.error (snd w2) = "".
Proof.
  intros Hne Hfresh Hi Hund w1 w2.
  assert (Hw1 : w1 = _) by (apply submit_accepts_ls; assumption).
  cbv zeta in Hw1.
  set (t := trim (App.name b)) in *.
  set (d := App.addDays (App.baseDate b) (Z.of_nat (App.dayIndex b))) in *.
  set (id := genId now1 rnd1).
  set (rec := spread [("id", VStr id)] (App.draft tz b t d)).
  assert (Hls1 : fst (App.apiCreateLS ls (App.draft tz b t d) now1 rnd1)
                 = App.saveAllLS (set_prop id rec ls)) by reflexivity.
  rewrite Hls1 in Hw1. set (ls1 := App.saveAllLS (set_prop id rec ls)) in *.
  assert (Hrec : json rec = [("title", VStr t);
                             ("dayISO", VStr (toISOString (App.dayInstant tz d)));
                             ("startHour", VNum (App.startHour b));
                             ("durationHours", VNum 4);
                             ("weekKey", VStr (App.weekKey b))]) by reflexivity.
  assert (Hdel : App.apiDeleteLS ls1 VUndef = ls1).
  { unfold App.apiDeleteLS, App.loadAllLS. cbn [to_string].
    rewrite delete_prop_not_In.
    - apply saveAllLS_idem.
    - unfold ls1. rewrite keys_saveAllLS. intros Hin.
      apply lookup_None_not_In in Hund.
      destruct (in_dec string_dec id (keys ls)) as [Hid | Hid].
      + rewrite keys_set_prop_In in Hin by assumption. tauto.
      + rewrite keys_set_prop_not_In in Hin by assumption.
        unfold keys in Hin. rewrite map_app in Hin.
        apply in_app_or in Hin. destruct Hin as [Hin | [Hin | []]]; [tauto|].
        cbn [fst] in Hin. now apply (genId_not_undefined now1 rnd1). }
  assert (Hw2 : w2 = (ls1, snd w1)).
  { unfold w2. rewrite Hw1. rewrite remove_ls_eq, Hdel, load_ls_eq.
    cbn [snd].
    rewrite weekKey_setLoading, weekKey_setBookings, weekKey_setError,
      weekKey_setLoading, weekKey_setName.
    generalize (App.apiGetWeekLS ls1 (VStr (App.weekKey b))). intros L.
    reflexivity. }
  split.
  - exists (json rec). rewrite Hw1. cbn [snd App.bookings App.setLoading App.setBookings].
    split; [|split].
    + unfold App.apiGetWeekLS, App.loadAllLS. apply filter_In. split.
      * unfold ls1. rewrite values_saveAllLS. apply in_map.
        unfold values. apply (in_map snd _ (id, rec)).
        apply lookup_In, lookup_set_prop_same.
      * rewrite Hrec. generalize (toISOString (App.dayInstant tz d)) (App.weekKey b).
        intros iso wkS. unfold get. cbn [lookup]. cbn. apply String.eqb_refl.
    + rewrite Hrec. reflexivity.
    + rewrite Hrec. reflexivity.
  - rewrite Hw2, Hw1. cbn [fst snd]. repeat split; reflexivity.
Qed.

Lemma ui_booking_cannot_be_cancelled_witness :
  let w1 := App.submit App.API_LS zoneUTC ([], march_board "Alex" 0 8)
              1741000000000 "k3j9x2" 1741000000001 "" in
  fst (App.remove App.API_LS w1 VUndef 1741000000002 "" 1741000000003 "") = fst w1.
Proof.
  refine (proj1 (proj2
    (ui_booking_cannot_be_cancelled zoneUTC [] (march_board "Alex" 0 8)
       1741000000000 "k3j9x2" 1741000000001 ""
       1741000000002 "" 1741000000003 "" _ _ _ _))).
  - vm_compute. discriminate.
  - reflexivity.
  - simpl. lia.
  - reflexivity.
Defined.

(* ================================================================== *)
(** * More on the roster board *)
(* ================================================================== *)

Section RosterMore.
Import Roster.

Lemma thisWeek_wf (st : state) :
  wf_assignments (assignments st) -> wf (thisWeek st).
Proof.
  intros Hwf. unfold thisWeek.
  destruct (lookup (wkKey st) (assignments st)) as [w|] eqn:E.
  - exact (wf2_lookup _ _ _ Hwf E).
  - constructor.
Qed.

(** X16. [assignFourHours] in a reachable state. Without a selected person,
    or with a start hour past 20 (the block would end after 24:00), nothing
    changes. Otherwise the selected person gets the selected day and hour
    under the week key of the displayed week, every other person keeps
    what they had under that key, and what is kept under every other week
    key is as it was. (Assignments are kept by week key: two weeks that
    [weekKey] gives the same key share them.) *)
Theorem assignFourHours_frame (tz : Z -> Z) (st : state) :
  reachable tz st ->
  (selectedPersonId st = "" \/ 24 < selectedStart st + 4 ->
   assignFourHours st = st)
  /\ (selectedPersonId st <> "" -> selectedStart st + 4 <= 24 ->
      lookup (selectedPersonId st) (thisWeek (assignFourHours st))
      = Some {| entryDay := selectedDay st; entryStart := selectedStart st |}
      /\ (forall p, p <> selectedPersonId st ->
            lookup p (thisWeek (assignFourHours st)) = lookup p (thisWeek st))
      /\ (forall wk, wk <> wkKey st ->
            lookup wk (assignments (assignFourHours st))
            = lookup wk (assignments st))).
Proof.
  intros Hr. pose proof (wf_reachable tz st Hr) as Hwf.
  pose proof (thisWeek_wf st Hwf) as Hweek. split.
  - intros [Hp | Hh]; unfold assignFourHours.
    + rewrite Hp. reflexivity.
    + destruct (String.eqb (selectedPersonId st) ""); [reflexivity|].
      apply Z.gtb_lt in Hh. now rewrite Hh.
  - intros Hp Hh.
    assert (Heq : assignFourHours st
                  = setAssignments st
                      (set_prop (wkKey st)
                         (set_prop (selectedPersonId st)
                            {| entryDay := selectedDay st;
                               entryStart := selectedStart st |}
                            (thisWeek st))
                         (assignments st))).
    { unfold assignFourHours. apply String.eqb_neq in Hp. rewrite Hp.
      assert (Hg : (selectedStart st + 4 >? 24) = false)
        by (rewrite Z.gtb_ltb; apply Z.ltb_ge; lia).
      rewrite Hg. rewrite !spread_nil_id by (assumption || apply Hwf).
      reflexivity. }
    assert (Hthis : thisWeek (assignFourHours st)
                    = set_prop (selectedPersonId st)
                        {| entryDay := selectedDay st;
                           entryStart := selectedStart st |}
                        (thisWeek st)).
    { rewrite Heq. unfold thisWeek at 1. unfold wkKey. cbn [setAssignments
        assignments baseDate]. fold (wkKey st).
      now rewrite lookup_set_prop_same. }
    split; [|split].
    + rewrite Hthis. apply lookup_set_prop_same.
    + intros p Hne. rewrite Hthis. apply lookup_set_prop_other. congruence.
    + intros wk Hne. rewrite Heq. cbn [setAssignments assignments].
      apply lookup_set_prop_other. congruence.
Qed.

(** X17. [clearAssignment] in a reachable state: the person has no
    assignment under the week key of the displayed week afterwards, every
    other person keeps what they had under that key, and what is kept under
    every other week key is as it was. (Assignments are kept by week key:
    two weeks that [weekKey] gives the same key share them.) *)
Theorem clearAssignment_frame (tz : Z -> Z) (st : state) (pid : string) :
  reachable tz st ->
  (forall p,
     lookup p (thisWeek (clearAssignment st pid))
     = if String.eqb pid p then None else lookup p (thisWeek st))
  /\ (forall wk, wk <> wkKey st ->
        lookup wk (assignments (clearAssignment st pid))
        = lookup wk (assignments st)).
Proof.
  intros Hr. pose proof (wf_reachable tz st Hr) as Hwf.
  pose proof (thisWeek_wf st Hwf) as Hweek.
  assert (Heq : clearAssignment st pid
                = setAssignments st
                    (set_prop (wkKey st) (delete_prop pid (thisWeek st))
                       (assignments st))).
  { unfold clearAssignment.
    rewrite !spread_nil_id by (assumption || apply Hwf). reflexivity. }
  split.
  - intros p.
    assert (Hthis : thisWeek (clearAssignment st pid)
                    = delete_prop pid (thisWeek st)).
    { rewrite Heq. unfold thisWeek at 1. unfold wkKey. cbn [setAssignments
        assignments baseDate]. fold (wkKey st).
      now rewrite lookup_set_prop_same. }
    rewrite Hthis. destruct (String.eqb pid p) eqn:E.
    + apply String.eqb_eq in E. subst p. apply lookup_delete_prop_same.
    + apply String.eqb_neq in E. now apply lookup_delete_prop_other.
  - intros wk Hne. rewrite Heq. cbn [setAssignments assignments].
    apply lookup_set_prop_other. congruence.
Qed.
End RosterMore.

Lemma assignFourHours_frame_witness :
  let st := {| Roster.baseDate := UTC 2025 2 3;
               Roster.people := [];
               Roster.assignments :=
                 [("2025-W10", [("p1", {| Roster.entryDay := 0; Roster.entryStart := 8 |})])];
               Roster.selectedPersonId := "p2";
               Roster.selectedDay := 2;
               Roster.selectedStart := 10 |} in
  lookup "p1" (Roster.thisWeek (Roster.assignFourHours st))
  = lookup "p1" (Roster.thisWeek st).
Proof.
  intros st.
  assert (Hr : Roster.reachable zoneUTC st).
  { apply Roster.reach_init. split.
    - repeat constructor. intros [].
    - repeat constructor. intros []. }
  destruct (assignFourHours_frame zoneUTC st Hr) as [_ H].
  assert (Hp : Roster.selectedPersonId st <> "") by discriminate.
  assert (Hh : Roster.selectedStart st + 4 <= 24) by (simpl; lia).
  destruct (H Hp Hh) as (_ & H2 & _).
  apply H2. discriminate.
Defined.

Lemma clearAssignment_frame_witness :
  let st := {| Roster.baseDate := UTC 2025 2 3;
               Roster.people := [];
               Roster.assignments :=
                 [("2025-W10", [("p1", {| Roster.entryDay := 0; Roster.entryStart := 8 |})])];
               Roster.selectedPersonId := "p1";
               Roster.selectedDay := 2;
               Roster.selectedStart := 10 |} in
  lookup "p1" (Roster.thisWeek (Roster.clearAssignment st "p1")) = None.
Proof.
  intros st.
  assert (Hr : Roster.reachable zoneUTC st).
  { apply Roster.reach_init. split.
    - repeat constructor. intros [].
    - repeat constructor. intros []. }
  destruct (clearAssignment_frame zoneUTC st "p1" Hr) as [H _].
  exact (H "p1").
Defined.

(* ================================================================== *)
(** * Colours *)
(* ================================================================== *)

Lemma hashName_range (name : App.codeUnits) : 0 <= App.hashName name < 2 ^ 32.
Proof.
  unfold App.hashName.
  assert (H : forall l h, 0 <= h < 2 ^ 32 ->
              0 <= fold_left (fun h c => (h * 31 + c) mod 2 ^ 32) l h < 2 ^ 32).
  { induction l as [|c rest IH]; intros h Hh; [exact Hh|].
    cbn [fold_left]. apply IH. apply Z.mod_pos_bound. reflexivity. }
  apply H. split; [lia | reflexivity].
Qed.

(** X18. The colours of a name, given by its UTF-16 code units: for every
    sequence of code units the hash stays below 2^32 and picks one of the
    eight hues, never past the end of the palette, and [hashColor] and
    [borderColor] are built from that same hue. *)
Theorem name_colours (name : App.codeUnits) :
  exists hue,
    In hue App.hues
    /\ App.hashColor name = "hsl(" ++ string_of_Z hue ++ " 85% 90%)"
    /\ App.borderColor name = "hsl(" ++ string_of_Z hue ++ " 70% 65%)".
Proof.
  pose proof (hashName_range name) as Hh.
  unfold App.hashColor, App.borderColor, App.hueOf.
  change (Z.of_nat (List.length App.hues)) with 8.
  rewrite Z.rem_mod_nonneg by lia.
  assert (Hi : (Z.to_nat (App.hashName name mod 8) < List.length App.hues)%nat).
  { change (List.length App.hues) with 8%nat.
    pose proof (Z.mod_pos_bound (App.hashName name) 8 ltac:(lia)). lia. }
  destruct (nth_error App.hues (Z.to_nat (App.hashName name mod 8))) as [hue|] eqn:E.
  - exists hue. split; [eapply nth_error_In; eassumption|].
    split; reflexivity.
  - apply nth_error_None in E. lia.
Qed.

(* ================================================================== *)
(** * The HTTP client without a week key *)
(* ================================================================== *)

(** X19. Over HTTP, listing with an empty week key, and creating from a
    draft whose week key is missing or empty, throw the handler's 400 text
    and leave the cache as it was: nothing is stored. *)
Theorem http_missing_weekKey (c : Bookings.cache) (body : record)
    (now : Z) (rnd : string) :
  wf body -> truthy (get "weekKey" body) = false ->
  App.apiGetWeekHTTP c (VStr "") now rnd = (c, Throw missing_weekKey)
  /\ App.apiCreateHTTP c body now rnd = (c, Throw missing_weekKey).
Proof.
  intros Hwf Hk. split; [reflexivity|].
  unfold App.apiCreateHTTP, App.fetch.
  rewrite handler_missing_weekKey; [reflexivity|].
  unfold request_weekKey.
  cbn [Bookings.query Bookings.body Bookings.body_props].
  change (get "weekKey" []) with VUndef.
  unfold or_else. change (truthy VUndef) with false. cbv iota.
  now rewrite get_json.
Qed.

Lemma http_missing_weekKey_witness :
  App.apiCreateHTTP [] [("title", VStr "Alex")] 0 "" = ([], Throw missing_weekKey).
Proof.
  apply (http_missing_weekKey [] [("title", VStr "Alex")] 0 "").
  - repeat constructor. intros [].
  - reflexivity.
Defined.

(* ================================================================== *)
(** * The refresh timer *)
(* ================================================================== *)

Lemma refresh_ls_eq opened ls b now rnd :
  App.refresh App.API_LS opened (ls, b) now rnd
  = (ls,
     App.setLoading
       (App.setBookings (App.setError (App.setLoading b true) "")
          (App.apiGetWeekLS ls (VStr opened)))
       false).
Proof. reflexivity. Qed.

Lemma existsb_filter_nil {A : Type} (f : A -> bool) (l : list A) :
  List.length (filter f l) = 0%nat -> existsb f l = false.
Proof.
  induction l as [|x rest IH]; [reflexivity|].
  cbn [filter existsb]. destruct (f x); cbn [List.length orb]; [discriminate | exact IH].
Qed.

(** A create with an id that is not in use adds one booking of the draft's
    title to the draft's week. *)
Lemma count_title_create_fresh (tz : Z -> Z) (ls : App.storage) (b : App.board)
    (t : string) (d now : Z) (rnd : string) :
  wf2 ls -> ~ In (genId now rnd) (keys ls) ->
  count_title t
    (App.apiGetWeekLS (fst (App.apiCreateLS ls (App.draft tz b t d) now rnd))
       (VStr (App.weekKey b)))
  = S (count_title t (App.apiGetWeekLS ls (VStr (App.weekKey b)))).
Proof.
  intros Hwf Hfresh. unfold App.apiCreateLS, App.loadAllLS. cbn [fst].
  set (rec := spread [("id", VStr (genId now rnd))] (App.draft tz b t d)).
  assert (Hrec : rec = App.draft tz b t d) by reflexivity.
  assert (Hwrec : wf rec).
  { apply NoDup_keys_spread. repeat constructor. intros []. }
  unfold count_title.
  rewrite count_listing_ls by (apply wf2_set_prop; assumption).
  rewrite count_values_set_prop by apply Hwf.
  rewrite delete_prop_not_In by assumption.
  assert (Hnew : strict_eq (get "weekKey" rec) (VStr (App.weekKey b))
                 && strict_eq (get "title" (json rec)) (VStr t) = true).
  { rewrite Hrec. unfold App.draft.
    generalize (App.weekKey b) (toISOString (App.dayInstant tz d)).
    intros wkS iso. simpl. now rewrite !String.eqb_refl. }
  rewrite Hnew. cbn [Nat.add]. f_equal.
  unfold App.apiGetWeekLS, App.loadAllLS.
  rewrite filter_filter_andb. f_equal. destruct Hwf as [_ Hw].
  unfold values. clear - Hw.
  induction ls as [|[k r] rest IH]; [reflexivity|].
  inversion Hw; subst. cbn [map filter snd] in *.
  rewrite get_json by assumption. now rewrite IH.
Qed.

(** X20. The refresh timer lists the week the board opened on, whatever
    week is displayed, and leaves the store and the displayed week as they
    are (localStorage backend). After a tick the one-per-week check of
    [submit] therefore looks at the opened week: a submission under a name
    that is not blank and has no booking there, with one of the seven days
    selected, is accepted without an error, and when the id drawn for it
    is not in use the displayed week holds one booking more of that person
    than it held before, however many that was. *)
Theorem refresh_lists_opened_week (tz : Z -> Z) (ls : App.storage)
    (b : App.board) (opened t : string) now rnd now1 rnd1 now2 rnd2 :
  wf2 ls ->
  trim (App.name b) = t -> t <> "" -> (App.dayIndex b < 7)%nat ->
  count_title t (App.apiGetWeekLS ls (VStr opened)) = 0%nat ->
  ~ In (genId now1 rnd1) (keys ls) ->
  let w1 := App.refresh App.API_LS opened (ls, b) now rnd in
  let w2 := App.submit App.API_LS tz w1 now1 rnd1 now2 rnd2 in
  fst w1 = ls
  /\ App.weekKey (snd w1) = App.weekKey b
  /\ App.bookings (snd w1) = App.apiGetWeekLS ls (VStr opened)
  /\ App.error (snd w2) = ""
  /\ count_title t (App.apiGetWeekLS (fst w2) (VStr (App.weekKey b)))
     = S (count_title t (App.apiGetWeekLS ls (VStr (App.weekKey b)))).
Proof.
  intros Hwf Ht Hne Hi Hzero Hfresh w1 w2.
  set (b1 := App.setLoading
               (App.setBookings (App.setError (App.setLoading b true) "")
                  (App.apiGetWeekLS ls (VStr opened))) false).
  assert (Hw1 : w1 = (ls, b1)) by apply refresh_ls_eq.
  assert (Hk : App.weekKey b1 = App.weekKey b).
  { unfold b1. now rewrite weekKey_setLoading, weekKey_setBookings,
      weekKey_setError, weekKey_setLoading. }
  assert (Hn : trim (App.name b1) = t) by exact Ht.
  assert (H1 : trim (App.name b1) <> "") by now rewrite Hn.
  assert (H2 : existsb (fun r => strict_eq (get "title" r) (VStr (trim (App.name b1))))
                 (App.bookings b1) = false).
  { rewrite Hn. change (App.bookings b1) with (App.apiGetWeekLS ls (VStr opened)).
    apply existsb_filter_nil. exact Hzero. }
  pose proof (submit_accepts_ls tz ls b1 now1 rnd1 now2 rnd2 H1 H2 Hi) as Hw2.
  cbv zeta in Hw2. rewrite Hn in Hw2. fold w1 in Hw2.
  unfold w2. rewrite Hw1 in *. cbn [fst snd].
  split; [reflexivity|]. split; [exact Hk|]. split; [reflexivity|].
  rewrite Hw2. cbn [fst snd]. split; [reflexivity|]. rewrite <- Hk.
  now apply count_title_create_fresh.
Qed.

Lemma refresh_lists_opened_week_witness :
  let ls := fst (App.apiCreateLS [] alex_draft_next 1741000000000 "k3j9x2") in
  let b := App.onNext (march_board "Alex" 0 8) in
  let w1 := App.refresh App.API_LS "2025-W10" (ls, b) 0 "" in
  let w2 := App.submit App.API_LS zoneUTC w1 1741000000001 "p0q7zz" 0 "" in
  count_title "Alex" (App.apiGetWeekLS (fst w2) (VStr (App.weekKey b)))
  = S (count_title "Alex" (App.apiGetWeekLS ls (VStr (App.weekKey b)))).
Proof.
  intros ls b.
  refine (proj2 (proj2 (proj2 (proj2
    (refresh_lists_opened_week zoneUTC ls b "2025-W10" "Alex"
       0 "" 1741000000001 "p0q7zz" 0 "" _ _ _ _ _ _))))).
  - unfold ls. split.
    + vm_compute. repeat constructor. intros [].
    + vm_compute. repeat constructor; simpl; intuition discriminate.
  - vm_compute. reflexivity.
  - discriminate.
  - simpl. lia.
  - vm_compute. reflexivity.
  - vm_compute. intros [H | []]. discriminate H.
Defined.

(* ================================================================== *)
(** * The day column a booking is drawn in *)
(* ================================================================== *)

Lemma dayInstant_of_day (tz : Z -> Z) (x : Z) :
  0 <= x + tz x ->
  App.dayInstant tz x = Day (x + tz x) * msPerDay.
Proof.
  intros Hx. unfold App.dayInstant, getFullYear, getMonth, getDate, LocalTime.
  apply UTC_components.
  pose proof (YearFromTime_epoch (x + tz x) Hx). lia.
Qed.

(** X21. At or east of UTC (an offset from 0 up to a day), in a week from
    the epoch on, a booking submitted for day i of the displayed week is
    stored with that day's date and drawn in column i and in no other
    column. *)
Theorem booking_column_east_of_utc (tz : Z -> Z) (b : App.board) (i j : nat) :
  (forall t, 0 <= tz t < msPerDay) ->
  0 <= App.baseDate b -> mondayMidnight (App.baseDate b) ->
  (i < 7)%nat -> (j < 7)%nat ->
  exists di dj,
    nth_error (App.days b) i = Some di
    /\ nth_error (App.days b) j = Some dj
    /\ App.dayInstant tz di = di
    /\ App.inColumn tz dj (App.dayInstant tz di) = Nat.eqb i j.
Proof.
  intros Htz Hbase [Hmid Hmon] Hi Hj.
  exists (App.baseDate b + Z.of_nat i * msPerDay),
         (App.baseDate b + Z.of_nat j * msPerDay).
  assert (Hd : forall k, (k < 7)%nat ->
             nth_error (App.days b) k = Some (App.baseDate b + Z.of_nat k * msPerDay)).
  { intros k Hk. rewrite (days_nth b k Hk). unfold App.addDays.
    now rewrite setUTCDate_shift. }
  split; [now apply Hd|]. split; [now apply Hd|].
  generalize dependent (App.baseDate b). intros x Hbase Hmid Hmon _.
  set (di := x + Z.of_nat i * msPerDay). set (dj := x + Z.of_nat j * msPerDay).
  pose proof (Htz di) as Hzi. pose proof (Htz dj) as Hzj.
  assert (Hinst : App.dayInstant tz di = di).
  { rewrite dayInstant_of_day by (unfold di, msPerDay in *; lia).
    unfold di, Day, TimeWithinDay, msPerDay in *. Z.div_mod_to_equations. lia. }
  split; [exact Hinst|].
  rewrite Hinst. unfold App.inColumn, App.sameDateString, LocalTime.
  pose proof (Htz di) as Hzi'.
  assert (Hi' : Day (di + tz di) = Day x + Z.of_nat i).
  { unfold di, Day, TimeWithinDay, msPerDay in *. Z.div_mod_to_equations. lia. }
  assert (Hj' : Day (dj + tz dj) = Day x + Z.of_nat j).
  { unfold dj, Day, TimeWithinDay, msPerDay in *. Z.div_mod_to_equations. lia. }
  rewrite Hi', Hj'.
  destruct (Nat.eqb i j) eqn:E.
  - apply Nat.eqb_eq in E. subst j. apply Z.eqb_refl.
  - apply Nat.eqb_neq in E. apply Z.eqb_neq. lia.
Qed.

Lemma booking_column_east_of_utc_witness :
  exists di dj,
    nth_error (App.days (march_board "" 0 8)) 2 = Some di
    /\ nth_error (App.days (march_board "" 0 8)) 2 = Some dj
    /\ App.dayInstant zoneUTC di = di
    /\ App.inColumn zoneUTC dj (App.dayInstant zoneUTC di) = true.
Proof.
  apply (booking_column_east_of_utc zoneUTC (march_board "" 0 8) 2 2).
  - intros t. unfold zoneUTC, msPerDay. lia.
  - vm_compute. discriminate.
  - split; vm_compute; reflexivity.
  - lia.
  - lia.
Defined.

(** X22. West of UTC (an offset from a day back up to, not including, 0), in
    a week from the second day of the epoch on, a booking submitted for day
    i is stored with the date of the day before and drawn one column early:
    in column i - 1, and in no column at all when i is the Monday. *)
Theorem booking_column_west_of_utc (tz : Z -> Z) (b : App.board) (i j : nat) :
  (forall t, - msPerDay <= tz t < 0) ->
  2 * msPerDay <= App.baseDate b -> mondayMidnight (App.baseDate b) ->
  (i < 7)%nat -> (j < 7)%nat ->
  exists di dj,
    nth_error (App.days b) i = Some di
    /\ nth_error (App.days b) j = Some dj
    /\ App.dayInstant tz di = di - msPerDay
    /\ App.inColumn tz dj (App.dayInstant tz di) = Nat.eqb i (S j).
Proof.
  intros Htz Hbase [Hmid Hmon] Hi Hj.
  exists (App.baseDate b + Z.of_nat i * msPerDay),
         (App.baseDate b + Z.of_nat j * msPerDay).
  assert (Hd : forall k, (k < 7)%nat ->
             nth_error (App.days b) k = Some (App.baseDate b + Z.of_nat k * msPerDay)).
  { intros k Hk. rewrite (days_nth b k Hk). unfold App.addDays.
    now rewrite setUTCDate_shift. }
  split; [now apply Hd|]. split; [now apply Hd|].
  generalize dependent (App.baseDate b). intros x Hbase Hmid Hmon _.
  set (di := x + Z.of_nat i * msPerDay). set (dj := x + Z.of_nat j * msPerDay).
  pose proof (Htz di) as Hzi. pose proof (Htz dj) as Hzj.
  assert (Hinst : App.dayInstant tz di = di - msPerDay).
  { rewrite dayInstant_of_day by (unfold di, msPerDay in *; lia).
    unfold di, Day, TimeWithinDay, msPerDay in *. Z.div_mod_to_equations. lia. }
  split; [exact Hinst|].
  rewrite Hinst. unfold App.inColumn, App.sameDateString, LocalTime.
  pose proof (Htz (di - msPerDay)) as Hzi'.
  assert (Hi' : Day (di - msPerDay + tz (di - msPerDay)) = Day x + Z.of_nat i - 2).
  { unfold di, Day, TimeWithinDay, msPerDay in *. Z.div_mod_to_equations. lia. }
  assert (Hj' : Day (dj + tz dj) = Day x + Z.of_nat j - 1).
  { unfold dj, Day, TimeWithinDay, msPerDay in *. Z.div_mod_to_equations. lia. }
  rewrite Hi', Hj'.
  destruct (Nat.eqb i (S j)) eqn:E.
  - apply Nat.eqb_eq in E. apply Z.eqb_eq. lia.
  - apply Nat.eqb_neq in E. apply Z.eqb_neq. lia.
Qed.

Lemma booking_column_west_of_utc_witness :
  exists di dj,
    nth_error (App.days (march_board "" 0 8)) 0 = Some di
    /\ nth_error (App.days (march_board "" 0 8)) 0 = Some dj
    /\ App.dayInstant zoneWest5 di = di - msPerDay
    /\ App.inColumn zoneWest5 dj (App.dayInstant zoneWest5 di) = false.
Proof.
  apply (booking_column_west_of_utc zoneWest5 (march_board "" 0 8) 0 0).
  - intros t. unfold zoneWest5, msPerDay. lia.
  - vm_compute. discriminate.
  - split; vm_compute; reflexivity.
  - lia.
  - lia.
Defined.
